(* ===== verification/_CoqProject ===== *)
-Q . S2P
Prelude.v
Queue.v
Platform.v
Globals.v
Button.v
Navigation.v
Camera.v
FileBrowser.v
Telemetry.v
Boot.v
Draw.v
Image.v
Display.v
Game.v
Drawing.v
Menu.v
System.v
FileName.v
Graph.v
StatusBar.v
Typing.v
