(* ===== verification/Prelude.v ===== *)
(** * MiniBerryOS: a verification development of the runtime core

    PLAN AND STATUS (kept up to date at the end of every sitting).

    The program (src/) is an ESP32 firmware.  Its core is a set of FreeRTOS
    tasks that share global variables (src/globals.cpp) and talk through six
    FreeRTOS queues created by [initQueues] (src/helpers.cpp):

    - [buttonTask] (src/tasks.cpp) samples the ADC of the resistor ladder,
      classifies the reading into a [ButtonState] and sends it to
      [button_queue];
    - [displayTask] (src/tasks.cpp) is the single writer of the navigation
      globals: once per tick it switches on [display_state], runs the one-time
      setup of the screen (guarded by [menu_init] or [camera_init]), draws it,
      and calls the screen's button handler (src/button_handlers.cpp), which
      receives at most one button event and changes the globals;
    - on entry to the camera screen the display task initialises the camera
      driver and spawns [frameCaptureTask] and [saveFrameToSDTask]; the first
      publishes frame-buffer pointers to [frame_display_queue] and (when
      [save_next_frame] is set) to [frame_save_queue]; [drawCameraFeed] and the
      save task consume them and give the buffers back with
      [esp_camera_fb_return]; Back tears all of this down
      ([handleButtonCamera]);
    - on entry to the SD-card screen the display task spawns
      [deleteFromSDTask] and loads the file list ([loadFileNames]); the
      viewer's Select sends a file name to [file_delete_queue];
    - [systemDataTask], [wifiDataTask], [ntpTimeTask] publish telemetry
      through overwrite queues and a global.

    LIBRARY LAYOUT (one file per component, in dependency order):

    - [Prelude] (this file): the state monad [ST] used to write sequential C
      code, record-update notation, the hint database [miniberry], the
      tactics and the generic lemmas on lists and integers.
    - [Queue]: FreeRTOS queues ([xQueueCreate], [xQueueSend],
      [xQueueReceive], [xQueueOverwrite]) as a bounded list, the two abstract
      channel contracts of the design (drop-newest FIFO, latest-value
      register) and the refinement of each contract by the queue operations.
    - [Platform]: the external collaborators the core calls, modelled from
      their documented behaviour: the camera driver's configuration (with
      the pin defines of src/globals.h) and frame-buffer pool, the RTOS task
      table, the SD card's root directory.
    - [Globals]: the enums, structs and global variables of
      src/globals.h and src/globals.cpp as the record [World], with the
      initial values, and the fault log that records undefined behaviour
      (out-of-range reads, returning a frame buffer the driver does not hold).
    - [Button]: [buttonTask] (ADC classification and send).
    - [Navigation]: [handleButtonMenu], [handleButtonSimple],
      [handleButtonGame]; the abstract navigation state of the design and the
      refinement of its transition function by the handlers.
    - [Camera]: the camera screen's setup, [frameCaptureTask],
      [drawCameraFeed], [saveFrameToSDTask] with its file-name format, and
      [handleButtonCamera] with its drain loop.
    - [FileBrowser]: [loadFileNames], [drawFiles], [drawImageViewer],
      [handleButtonFiles], [deleteFromSDTask] and the SD screen's setup.
    - [Telemetry]: [systemDataTask] and the rolling heap history,
      [initHeapQueue], [generateXYArrays], [wifiDataTask], [ntpTimeTask] and
      the consumers [drawSystemData], [drawWifi].
    - [Boot]: the hardware answers during [setup] ([boot_env]), the WiFi
      wait loop of [initWiFi] by structural recursion on the number of polls
      it may make, and [initNTP].
    - [Draw]: the [tft] calls as a list of commands, C's float-to-int
      conversion over exact rationals, C array reads that may be undefined.
    - [Image]: [transposeImageInPlace] and [transposeImage] (src/helpers.cpp)
      on the frame buffer as a byte list.
    - [Display]: one iteration of [displayTask] (the switch on
      [display_state]).
    - [Game]: [checkCollision] and [updateGame1] (the brick-breaker game of
      src/display.cpp) with its [static] locals as the record [game1].
    - [Drawing]: the drawing code with no state of its own as lists of
      [tft] and sprite calls: [initTFT], [drawCameraButton], [drawGame2],
      [drawGame3], [initGame1], and the draw calls of [updateGame1] on the
      [game1] state of [Game].
    - [Menu]: the [tft] calls of [drawMenu] and [updateMenuHighlight] and
      of the menu screens' clear, and what they leave on the screen: the
      colour of each menu item's border under the TFT_eSPI semantics of
      [fillRect], [drawRect] and [drawString] ([paint]).
    - [System]: [initQueues] and [setup] (src/main.cpp), with the budget of
      WiFi polls as fuel, the scheduler as a
      step relation in which any running task may run one iteration of its
      loop, reachability, the whole-system invariant [sys_inv] proved by
      rule induction, and the concrete schedules from the boot state that
      exhibit the defects found.
    - [FileName]: a decoder of the save task's file-name format and the
      behaviour of the names: round trip, length, and two saves in one
      second writing one file (a schedule from boot).
    - [Graph]: [drawGraph] (src/display.cpp) as its list of [tft] calls or
      [None] when undefined, and the call [drawSystemData] makes on the
      arrays [generateXYArrays] fills.
    - [StatusBar]: [drawStatusBar] with its redraw-on-change state, the
      frame-rate counter at the end of [displayTask], and [display_tick],
      the display iteration with both, which moves the world as
      [Display.displayTask_iter] does ([display_tick_world]).
    - [Typing]: the typing of the FreeRTOS queues (capacity and length) in
      every reachable state, by a small logic of statements that keep it.

    HOW THE PARTS FIT.  Each task's loop body is a statement of the state
    monad over [World]; [System.run_event] dispatches an event to the body
    of the task it names, and [System.step] lets any task in the RTOS task
    table run.  The task table ([Platform.Rtos]) is changed only by
    [setup], the camera and SD screens' setup and their Back handlers, so
    the theorems about which workers exist are statements about [step].

    THE THEOREMS, BY GROUP.

    - Defects of the camera pipeline ([Camera]): the teardown strands a
      frame, a frame is returned twice, a pending save exhausts the pool;
      [System] reaches the double return from boot.
    - Whole-system invariants ([System], [Typing]): in every reachable
      state the menu index is in range and never read out of range, the
      camera workers exist exactly while the camera is initialised, the five
      always-on tasks are never deleted, the delete worker's handle is live,
      and every queue keeps its type.
    - Functional behaviour and refinement of the components: the
      navigation handlers refine the design's transition function, the
      overwrite queues refine a latest-value register, the file list
      mirrors the card, the in-place
      transpose equals the reference transpose, [checkCollision] decides
      rectangle intersection, a tick of the game erases what it moves
      before pushing the sprites again ([Drawing.updateGame1_no_trail]).
    - The screen ([Menu]): a tick of a menu screen leaves exactly the
      border of item [button_index] white and the others blue, and keeps
      the screen in step with [last_button_index] across the handler.
    - File names ([FileName]): for every valid calendar time the name of a
      saved frame decodes back to the time and has 24 characters, so it
      fits [char f[32]]; but the names have a resolution of one second while
      the save task runs five times a second, and a schedule from boot
      saves two frames into one file, the second truncating the first.
    - Boot ([Boot], [System]): [initWiFi] returns exactly at the first poll
      that sees the network; [setup] returns for some budget of polls iff
      one exists, and without WiFi it creates no task at all.
    - Drawing ([Graph], [StatusBar]): the graph call of [drawSystemData] is
      defined exactly when [max_heap <> min_heap], and a reachable state
      makes it divide by zero; the lines of [drawGraph] stay between the
      axes; the frame rate is computed as [frames * elapsed / 1000]; the
      unsigned [now - before] survives the wrap of [millis()].
    - Bounds: the file selection, the game's coordinates, the graph's
      lines, the file name of a saved frame.
    - Termination: the drain loop ends within the fuel its caller gives,
      and the WiFi wait loop within any budget that reaches the first
      connected poll.

    MODELLING CHOICES.

    - C [int] globals are [Z]; every one of them is kept in a small range by
      the code (proved where it matters: the file selection, the game's
      coordinates), so 32-bit wrap-around never occurs and is not modelled;
      the one unsigned difference that can wrap ([heap_used_kb]) is taken
      modulo [2^32].
    - A task's [for (;;)] body is one function [World -> World]; the infinite
      loop is the step relation of [System], so no fuel is needed there.  The
      only inner loop with a data-dependent bound, the drain loop of
      [handleButtonCamera], is a [Fixpoint] on fuel, and [Camera] proves that
      the fuel given (the length of the display queue plus one) is enough.
      The WiFi wait loop of [setup] is a [Fixpoint] on the number of polls
      allowed: [Boot.initWiFi_returns] shows some budget suffices exactly
      when some poll sees the network, and [System.setup_fuel_mono] that a
      larger budget changes nothing, so [boot_world] uses the budget 0 of a
      network already up.  The other loops are structural ([load_loop], [draw_rows], [gen_xy])
      or folds over [seq] (the transposes).
    - The scheduler is an over-approximation: any running task may run next;
      priorities and delays are not modelled, so every interleaving allowed
      by FreeRTOS is one of the model's.  Each defect trace is also
      consistent with the priorities (the priority-1 save task sleeps for
      200 ms while the priority-3 tasks run).  A task iteration is atomic,
      so the race between [deleteFromSDTask] and the display's reads of the
      file list is not modelled.
    - Undefined behaviour is not silently ignored: an out-of-range
      [std::vector] read or array index, and a frame buffer returned to the
      driver while the driver does not hold it, append a [Fault] to the
      world's log and the model continues with a default value.
    - Hardware inputs (ADC readings, camera and SD outcomes, heap figures,
      WiFi scans, the clock) are parameters of the steps.
    - The [static] locals of [updateGame1] and [drawStatusBar] and the
      frame-rate globals are read by no other task: the display tick of
      [System] leaves them out, and [Game.game1_screen] and
      [StatusBar.display_tick] thread them beside it (both move the world as
      the tick of [System] does).
    - [float] arithmetic (the graph's scaling, the frame rate) is exact
      rational arithmetic, with C's truncating conversion to [int]; the
      single-precision rounding is not modelled.  Drawing is the list of
      [tft] calls; the pixels are the library's, except the border of each
      menu item, which [Menu.paint] follows under the documented effect of
      each call (the default font: 6 x 8 pixels a character, scaled by the
      text size); a call the menus do not make is taken to change every
      border, so the model never claims a border it cannot know.

    NOT MODELLED: the pixels of TFT_eSPI and of the sprites, and the
    drawing calls of [drawWifi] and [drawImageViewer] (their state changes
    and reads are modelled; their calls only place text), the pixels
    inside the menu items (the model follows their borders only), [drawBoot] (empty), [printFileNames] (serial
    only), [initSD] (prints only; the card's mount state is an input),
    serial logging, and the bytes of a saved frame (the SD card holds
    names only).  None of these is read back by the program. *)

From stdpp Require Export base list strings decidable sets.
From Stdlib Require Export ZArith Lia Ascii.
From coqutil Require Export Datatypes.RecordSetters.
Export DoubleBraceUpdate.

Open Scope Z_scope.

(** ** A state monad for sequential C code over global state *)

Definition ST (S A : Type) : Type := S -> A * S.

#[export] Instance st_ret {S} : MRet (ST S) := fun A x s => (x, s).
#[export] Instance st_bind {S} : MBind (ST S) :=
  fun A B f m s => let '(a, s') := m s in f a s'.

Definition st_get {S} : ST S S := fun s => (s, s).
Definition st_gets {S A} (f : S -> A) : ST S A := fun s => (f s, s).
Definition st_put {S} (s : S) : ST S unit := fun _ => (tt, s).
Definition st_modify {S} (f : S -> S) : ST S unit := fun s => (tt, f s).

(** Run a statement for its effect only. *)
Definition exec {S A} (m : ST S A) (s : S) : S := snd (m s).

(** [skip] is the empty statement of an [if] without [else]. *)
Definition skip {S} : ST S unit := mret tt.

Section Monad_laws.
Context {S : Type}.

Lemma st_bind_ret_l {A B} (x : A) (f : A -> ST S B) :
  (mret x ≫= f) = f x.
Proof. reflexivity. Qed.

Lemma st_run_bind {A B} (m : ST S A) (f : A -> ST S B) (s : S) :
  (m ≫= f) s = f (fst (m s)) (snd (m s)).
Proof. cbv [mbind st_bind]. by destruct (m s). Qed.

Lemma exec_bind {A B} (m : ST S A) (f : A -> ST S B) (s : S) :
  exec (m ≫= f) s = exec (f (fst (m s))) (exec m s).
Proof. unfold exec. by rewrite st_run_bind. Qed.

Lemma exec_modify (f : S -> S) (s : S) : exec (st_modify f) s = f s.
Proof. reflexivity. Qed.

Lemma exec_ret {A} (x : A) (s : S) : exec (mret x) s = s.
Proof. reflexivity. Qed.

(** A statement returns [tt]: its run is determined by its effect. *)
Lemma st_unit_run (m : ST S unit) (s : S) : m s = (tt, exec m s).
Proof. unfold exec. by destruct (m s) as [[] s']. Qed.
End Monad_laws.

Create HintDb miniberry discriminated.
Create Rewrite HintDb miniberry_rw.
#[export] Hint Rewrite @exec_bind @exec_modify @exec_ret @st_run_bind : miniberry_rw.

(** ** Generic lemmas on integers: the clamping idiom of the code *)

(** [if (x < lo) x = lo; else if (x > hi) x = hi;] *)
Definition clamp (lo hi x : Z) : Z := if x <? lo then lo else if hi <? x then hi else x.

(** Case analysis on every [Z.ltb] / [Z.leb] / [Z.eqb] test of the goal. *)
Ltac z_cases :=
  repeat match goal with
  | |- context [?a <? ?b] => destruct (Z.ltb_spec a b)
  | |- context [?a <=? ?b] => destruct (Z.leb_spec a b)
  | |- context [?a =? ?b] => destruct (Z.eqb_spec a b)
  | |- context [?a >? ?b] => destruct (Z.gtb_spec a b)
  | |- context [?a >=? ?b] => destruct (Z.geb_spec a b)
  end.

Lemma clamp_bounds lo hi x : lo <= hi -> lo <= clamp lo hi x <= hi.
Proof. unfold clamp. intros. z_cases; lia. Qed.

Lemma clamp_id lo hi x : lo <= x <= hi -> clamp lo hi x = x.
Proof. unfold clamp. intros. z_cases; lia. Qed.

#[export] Hint Resolve clamp_bounds clamp_id : miniberry.

(** ** Generic lemmas on lists *)

(** Remove the first occurrence of an element (the driver's buffer pool and
    the task table are lists of distinct identifiers). *)
Fixpoint remove_first {A} `{EqDecision A} (x : A) (l : list A) : list A :=
  match l with
  | [] => []
  | y :: r => if decide (x = y) then r else y :: remove_first x r
  end.

Lemma remove_first_length {A} `{EqDecision A} (x : A) (l : list A) :
  x ∈ l -> length (remove_first x l) = pred (length l).
Proof.
  induction l as [|y r IH]; simpl; intros Hin; [set_solver|].
  case_decide; [done|]. rewrite elem_of_cons in Hin.
  destruct Hin as [->|Hin]; [done|]. simpl. rewrite IH by done.
  destruct r; [set_solver|done].
Qed.

Lemma remove_first_notin {A} `{EqDecision A} (x : A) (l : list A) :
  x ∉ l -> remove_first x l = l.
Proof.
  induction l as [|y r IH]; simpl; intros Hn; [done|].
  case_decide; [set_solver|]. rewrite IH; set_solver.
Qed.

Lemma elem_of_remove_first {A} `{EqDecision A} (x y : A) (l : list A) :
  y ∈ remove_first x l -> y ∈ l.
Proof.
  induction l as [|z r IH]; simpl; [done|].
  case_decide; set_solver.
Qed.

Lemma elem_of_remove_first_2 {A} `{EqDecision A} (x y : A) (l : list A) :
  y <> x -> y ∈ l -> y ∈ remove_first x l.
Proof.
  induction l as [|z r IH]; simpl; [set_solver|]. intros Hne Hin.
  case_decide; subst; set_solver.
Qed.

Lemma remove_first_nodup {A} `{EqDecision A} (x : A) (l : list A) :
  NoDup l -> x ∉ remove_first x l.
Proof.
  induction l as [|y r IH]; simpl; [set_solver|]. intros Hnd.
  apply NoDup_cons in Hnd as [Hy Hr].
  case_decide as Hxy; [subst; done|]. rewrite elem_of_cons. intros [->|Hin]; [done|].
  by apply IH.
Qed.

Lemma NoDup_remove_first {A} `{EqDecision A} (x : A) (l : list A) :
  NoDup l -> NoDup (remove_first x l).
Proof.
  induction l as [|y r IH]; simpl; intros Hnd; [constructor|].
  apply NoDup_cons in Hnd as [Hy Hr]. case_decide; [done|].
  constructor; [|by apply IH]. intros Hin. apply elem_of_remove_first in Hin. done.
Qed.

Lemma remove_first_app_notin {A} `{EqDecision A} (x : A) (l : list A) :
  x ∉ l -> remove_first x (l ++ [x]) = l.
Proof.
  induction l as [|y r IH]; simpl; intros Hn; [by rewrite decide_True|].
  rewrite decide_False by set_solver. rewrite IH; set_solver.
Qed.

#[export] Hint Resolve elem_of_remove_first elem_of_remove_first_2 remove_first_nodup NoDup_remove_first : miniberry.

(** ** Strings *)

(** The length of a concatenation, for the [sprintf] buffers. *)
Lemma string_length_app (s1 s2 : string) :
  String.length (s1 +:+ s2) = (String.length s1 + String.length s2)%nat.
Proof. induction s1 as [|c s1 IH]; simpl; [done|]. by rewrite IH. Qed.

#[export] Hint Rewrite string_length_app : miniberry.

(** ** Tactics *)

(** Unfold the record updates and the monad plumbing of a handler. *)
Ltac wsimpl :=
  cbv [exec mbind st_bind mret st_ret st_get st_gets st_put st_modify
       apply_update constant] in *; simpl in *.

Ltac invc H := inversion H; subst; clear H.

(** Fold the run of a statement back into [exec], so that the statement's
    lemmas apply after [wsimpl]. *)
Ltac fold_exec :=
  repeat match goal with
  | |- context [snd (?m ?s)] => change (snd (m s)) with (exec m s)
  end.

(** ** Transition systems *)

(** The reflexive-transitive closure of a step relation, as in the
    [Sequences] library of the mechanised-semantics course. *)
Inductive star {A} (R : A -> A -> Prop) : A -> A -> Prop :=
| star_refl a : star R a a
| star_step a b c : R a b -> star R b c -> star R a c.

Lemma star_one {A} (R : A -> A -> Prop) a b : R a b -> star R a b.
Proof. intros H. eapply star_step; [exact H|constructor]. Qed.

Lemma star_trans {A} (R : A -> A -> Prop) a b c : star R a b -> star R b c -> star R a c.
Proof. induction 1; eauto using star_step. Qed.

(** An invariant of the steps holds in every state reachable from a state
    where it holds (rule induction on [star]). *)
Lemma star_invariant {A} (R : A -> A -> Prop) (I : A -> Prop) a b :
  (forall x y, I x -> R x y -> I y) -> I a -> star R a b -> I b.
Proof. intros Hstep Ha Hs. induction Hs; eauto. Qed.

#[export] Hint Constructors star : miniberry.
#[export] Hint Resolve star_one star_trans : miniberry.
