(* ===== verification/Queue.v ===== *)
(** * FreeRTOS queues: the message bus of the firmware

    The six queues of [initQueues] (src/helpers.cpp) are FreeRTOS queues.
    All the code's calls use a block time of 0, so every operation returns
    at once.  A queue is modelled as its capacity and the list of its
    pending items, oldest first.  The operations are the library's
    documented behaviour (FreeRTOS is not part of src/):

    - [xQueueSend q x] appends [x] when there is room and returns true;
      on a full queue it returns false and leaves the queue unchanged
      (the design's "drop-newest" policy);
    - [xQueueReceive q] removes and returns the oldest item, or reports
      an empty queue;
    - [xQueueOverwrite q x], for the length-one queues it is used on,
      replaces whatever is pending by [x].

    This file proves the bound invariant, the FIFO and drop-newest laws
    of a buffered queue, the freshness law of an overwrite queue, and
    that a length-one queue written with [xQueueOverwrite] refines the
    design's "latest value" register while [xQueueSend] does not. *)

From S2P Require Import Prelude.

Record queue (A : Type) := mkQueue { q_cap : nat; q_items : list A }.
Arguments mkQueue {A} _ _.
Arguments q_cap {A} _.
Arguments q_items {A} _.

(** The queue capacities of src/globals.h. *)
Definition BUTTON_QUEUE_SIZE : nat := 3.
Definition FRAME_DISPLAY_QUEUE_SIZE : nat := 1.
Definition FRAME_SAVE_QUEUE_SIZE : nat := 1.
Definition SYS_INFO_QUEUE_SIZE : nat := 1.
Definition FILE_DELETE_QUEUE_SIZE : nat := 5.
Definition WIFI_QUEUE_SIZE : nat := 1.

Section Ops.
Context {A : Type}.

(** A freshly created queue is empty. *)
Definition xQueueCreate (uxQueueLength : nat) : queue A := mkQueue uxQueueLength [].

Definition xQueueSend (q : queue A) (x : A) : bool * queue A :=
  if decide (length (q_items q) < q_cap q)%nat
  then (true, mkQueue (q_cap q) (q_items q ++ [x]))
  else (false, q).

Definition xQueueReceive (q : queue A) : option A * queue A :=
  match q_items q with
  | [] => (None, q)
  | x :: r => (Some x, mkQueue (q_cap q) r)
  end.

Definition xQueueOverwrite (q : queue A) (x : A) : queue A := mkQueue (q_cap q) [x].

(** Well-formedness: never more pending items than the capacity. *)
Definition q_wf (q : queue A) : Prop := (length (q_items q) <= q_cap q)%nat.

Definition q_full (q : queue A) : Prop := length (q_items q) = q_cap q.

(** Sending a sequence of items without any receive in between. *)
Fixpoint send_all (q : queue A) (xs : list A) : queue A :=
  match xs with
  | [] => q
  | x :: r => send_all (snd (xQueueSend q x)) r
  end.

(** Receiving [n] times in a row. *)
Fixpoint receive_n (n : nat) (q : queue A) : list A * queue A :=
  match n with
  | O => ([], q)
  | S n' =>
      match xQueueReceive q with
      | (Some x, q') => let '(xs, q'') := receive_n n' q' in (x :: xs, q'')
      | (None, q') => ([], q')
      end
  end.
End Ops.

(** ** The bound invariant *)

Section Invariant.
Context {A : Type}.
Implicit Types q : queue A.

Lemma xQueueCreate_wf n : q_wf (@xQueueCreate A n).
Proof. unfold q_wf; simpl; lia. Qed.

Lemma xQueueSend_wf q x : q_wf q -> q_wf (snd (xQueueSend q x)).
Proof.
  unfold q_wf, xQueueSend. intros. case_decide; simpl; [|done].
  rewrite length_app; simpl; lia.
Qed.

Lemma xQueueReceive_wf q : q_wf q -> q_wf (snd (xQueueReceive q)).
Proof. unfold q_wf, xQueueReceive. destruct q as [c [|x r]]; simpl; lia. Qed.

Lemma xQueueOverwrite_wf q x : (1 <= q_cap q)%nat -> q_wf (xQueueOverwrite q x).
Proof. unfold q_wf; simpl; lia. Qed.

Lemma xQueueSend_cap q x : q_cap (snd (xQueueSend q x)) = q_cap q.
Proof. unfold xQueueSend. by case_decide. Qed.

Lemma xQueueReceive_cap q : q_cap (snd (xQueueReceive q)) = q_cap q.
Proof. unfold xQueueReceive. by destruct (q_items q). Qed.

(** The two answers of a non-blocking send. *)
Lemma xQueueSend_room q x :
  (length (q_items q) < q_cap q)%nat ->
  xQueueSend q x = (true, mkQueue (q_cap q) (q_items q ++ [x])).
Proof. unfold xQueueSend. intros. by case_decide. Qed.

Lemma xQueueSend_full q x : q_wf q -> q_full q -> xQueueSend q x = (false, q).
Proof. unfold xQueueSend, q_full. intros. case_decide; [lia|done]. Qed.

Lemma xQueueReceive_nil q : q_items q = [] -> xQueueReceive q = (None, q).
Proof. unfold xQueueReceive. by intros ->. Qed.

Lemma xQueueReceive_cons q x r :
  q_items q = x :: r -> xQueueReceive q = (Some x, mkQueue (q_cap q) r).
Proof. unfold xQueueReceive. by intros ->. Qed.

Lemma send_all_cap q xs : q_cap (send_all q xs) = q_cap q.
Proof.
  revert q; induction xs as [|x r IH]; intros q; simpl; [done|].
  by rewrite IH, xQueueSend_cap.
Qed.

(** What a run of sends leaves in the queue: the items that fit, in order. *)
Lemma send_all_items q xs :
  q_wf q ->
  q_items (send_all q xs) = q_items q ++ take (q_cap q - length (q_items q)) xs.
Proof.
  revert q; induction xs as [|x r IH]; intros q Hwf; simpl.
  - by rewrite take_nil, app_nil_r.
  - unfold xQueueSend. case_decide as Hroom; simpl.
    + rewrite IH by (unfold q_wf; simpl; rewrite length_app; simpl; lia). simpl.
      rewrite length_app. simpl.
      replace (q_cap q - length (q_items q))%nat
        with (S (q_cap q - (length (q_items q) + 1)))%nat by lia.
      simpl. by rewrite <- app_assoc.
    + rewrite IH by done. unfold q_wf in Hwf.
      replace (q_cap q - length (q_items q))%nat with O by lia. done.
Qed.

(** Receiving as many times as there are items yields them all, oldest
    first, and empties the queue. *)
Lemma receive_n_items q n :
  (length (q_items q) <= n)%nat ->
  receive_n n q = (q_items q, mkQueue (q_cap q) []).
Proof.
  destruct q as [c its]; simpl. revert its.
  induction n as [|n IH]; intros its Hlen; simpl.
  - destruct its; simpl in *; [done|lia].
  - unfold xQueueReceive; simpl. destruct its as [|x r]; [done|].
    simpl in Hlen. rewrite IH by lia. done.
Qed.
End Invariant.

#[export] Hint Resolve xQueueCreate_wf xQueueSend_wf xQueueReceive_wf : miniberry.

(** ** The laws of the two channel policies *)

(** A buffered queue is a FIFO with drop-newest overflow:
    sending [xs] to a new queue of capacity [n] and then receiving [n]
    times yields exactly the first [n] items of [xs], in order; the items
    sent to a full queue are discarded. *)
Lemma xQueue_fifo_drop_newest {A} (n : nat) (xs : list A) :
  fst (receive_n n (send_all (xQueueCreate n) xs)) = take n xs.
Proof.
  rewrite receive_n_items.
  - rewrite send_all_items by apply xQueueCreate_wf. simpl. by rewrite Nat.sub_0_r.
  - rewrite send_all_items by apply xQueueCreate_wf. simpl.
    rewrite length_take. lia.
Qed.

(** Sending to a full queue leaves its contents unchanged and reports
    the failure to the producer, which does not block. *)
Lemma xQueueSend_full_unchanged {A} (q : queue A) (x : A) :
  q_wf q -> q_full q -> q_items (snd (xQueueSend q x)) = q_items q /\ fst (xQueueSend q x) = false.
Proof. intros. by rewrite xQueueSend_full. Qed.

(** An overwrite queue delivers only the latest value: after any run of
    [xQueueOverwrite] with the values [vs ++ [v]] and no receive in
    between, one receive yields [v] and leaves the queue empty. *)
Lemma xQueueOverwrite_latest {A} (q : queue A) (vs : list A) (v : A) :
  xQueueReceive (foldl xQueueOverwrite q (vs ++ [v])) = (Some v, mkQueue (q_cap q) []).
Proof.
  rewrite foldl_app. simpl.
  assert (Hcap : forall q', q_cap (foldl xQueueOverwrite q' vs) = q_cap q').
  { induction vs as [|w r IH]; intros q'; simpl; [done|]. by rewrite IH. }
  unfold xQueueReceive. simpl. by rewrite Hcap.
Qed.

(** ** Abstract contract: the latest-value register *)

(** The design (spec section 4.3) describes the overwrite channels as a
    register holding the most recent publication, if it was not read yet. *)
Module LatestRegister.
Definition reg (A : Type) := option A.
Definition publish {A} (v : A) (_ : reg A) : reg A := Some v.
Definition poll {A} (r : reg A) : option A * reg A := (r, None).
End LatestRegister.

(** The abstraction: a length-one queue represents the register holding
    its pending item. *)
Definition reg_of_queue {A} (q : queue A) : option A := head (q_items q).

Definition reg_rel {A} (q : queue A) (r : option A) : Prop :=
  q_cap q = 1%nat /\ q_wf q /\ reg_of_queue q = r.

Section Refinement.
Context {A : Type}.

Lemma reg_rel_overwrite (q : queue A) r v :
  reg_rel q r -> reg_rel (xQueueOverwrite q v) (LatestRegister.publish v r).
Proof. intros (Hc & Hwf & _). split; [done|]. split; [|done]. unfold q_wf; simpl; lia. Qed.

Lemma reg_rel_receive (q : queue A) r :
  reg_rel q r ->
  fst (xQueueReceive q) = fst (LatestRegister.poll r) /\
  reg_rel (snd (xQueueReceive q)) (snd (LatestRegister.poll r)).
Proof.
  intros (Hc & Hwf & Hr). unfold reg_rel, reg_of_queue, q_wf in *.
  destruct q as [c its]; simpl in *. subst.
  destruct its as [|x [|y l]]; simpl in *; try lia;
    unfold xQueueReceive; simpl; repeat split; simpl; auto; lia.
Qed.
End Refinement.

(** A client's sequence of publications and polls, run against either
    implementation. *)
Inductive reg_op (A : Type) := Pub (v : A) | Poll.
Arguments Pub {A} v.
Arguments Poll {A}.

Fixpoint run_queue {A} (q : queue A) (ops : list (reg_op A)) : list (option A) :=
  match ops with
  | [] => []
  | Pub v :: r => run_queue (xQueueOverwrite q v) r
  | Poll :: r => fst (xQueueReceive q) :: run_queue (snd (xQueueReceive q)) r
  end.

Fixpoint run_reg {A} (s : option A) (ops : list (reg_op A)) : list (option A) :=
  match ops with
  | [] => []
  | Pub v :: r => run_reg (LatestRegister.publish v s) r
  | Poll :: r => fst (LatestRegister.poll s) :: run_reg (snd (LatestRegister.poll s)) r
  end.

(** A length-one FreeRTOS queue used with [xQueueOverwrite] and
    [xQueueReceive], related to a register, answers as the register does. *)
Lemma run_queue_reg {A} (q : queue A) (r : option A) (ops : list (reg_op A)) :
  reg_rel q r -> run_queue q ops = run_reg r ops.
Proof.
  revert q r. induction ops as [|[v|] rest IH]; intros q r Hrel; simpl; [done| |].
  - apply IH. by apply reg_rel_overwrite.
  - destruct (reg_rel_receive q r Hrel) as [Hf Hs]. rewrite Hf. f_equal. by apply IH.
Qed.

(** The same register cannot be implemented with [xQueueSend] (the call
    [frameCaptureTask] uses on [frame_display_queue], whose comment says it
    "always keep[s] latest"): on a full length-one queue the new value is
    dropped and the stale one is delivered. *)
Lemma xQueueSend_keeps_oldest {A} (old new : A) :
  fst (xQueueReceive (snd (xQueueSend (mkQueue 1 [old]) new))) = Some old.
Proof. reflexivity. Qed.
