(* ===== verification/Platform.v ===== *)
(** * The external collaborators of the core

    The firmware calls three libraries whose code is not in src/: the
    esp32-camera driver, the FreeRTOS task API and the SD_MMC file system.
    Each is modelled here by the state the core can observe and by the
    documented effect of the calls the core makes; nothing else of them is
    modelled.

    - [CameraDriver]: the configuration [camera_config] of src/globals.h
      and the pool of its [fb_count] (5) frame buffers.  A frame buffer
      is identified by a number; [esp_camera_fb_get] hands out a fresh one
      while the driver holds fewer than [fb_count] frames given to the
      application, [esp_camera_fb_return] gives one back, and
      [esp_camera_return_all] / [esp_camera_deinit] reclaim them all.  The
      driver also keeps the log of every buffer given back, so that "each
      frame is released exactly once" can be stated.
    - [Rtos]: the task table: [xTaskCreatePinnedToCore] adds a task running
      a given task function and writes its handle, [vTaskDelete] removes
      the task of a handle, or the calling task when the handle is NULL.
    - [SdCard]: whether the card is mounted and the names of the files of
      its root directory, in directory order. *)

From S2P Require Import Prelude.

Module CameraDriver.

(** The esp32-camera enumerations, with the values [camera_config] uses. *)
Inductive ledc_timer_t := LEDC_TIMER_0.
Inductive ledc_channel_t := LEDC_CHANNEL_0.
Inductive pixformat_t := PIXFORMAT_RGB565.
Inductive framesize_t := FRAMESIZE_240X240.
Inductive camera_fb_location_t := CAMERA_FB_IN_PSRAM.
Inductive camera_grab_mode_t := CAMERA_GRAB_WHEN_EMPTY.

(** [camera_config_t], the fields [camera_config] sets. *)
Record camera_config_t := mkCameraConfig {
  pin_pwdn : Z; pin_reset : Z; pin_xclk : Z; pin_sccb_sda : Z; pin_sccb_scl : Z;
  pin_d7 : Z; pin_d6 : Z; pin_d5 : Z; pin_d4 : Z; pin_d3 : Z; pin_d2 : Z; pin_d1 : Z; pin_d0 : Z;
  pin_vsync : Z; pin_href : Z; pin_pclk : Z;
  xclk_freq_hz : Z; ledc_timer : ledc_timer_t; ledc_channel : ledc_channel_t;
  pixel_format : pixformat_t; frame_size : framesize_t;
  jpeg_quality : Z; cfg_fb_count : nat;
  fb_location : camera_fb_location_t; grab_mode : camera_grab_mode_t }.

(** The camera pin defines of src/globals.h. *)
Definition CAM_PIN_PWDN : Z := -1.
Definition CAM_PIN_RESET : Z := -1.
Definition CAM_PIN_XCLK : Z := 21.
Definition CAM_PIN_SIOD : Z := 26.
Definition CAM_PIN_SIOC : Z := 27.
Definition CAM_PIN_D7 : Z := 35.
Definition CAM_PIN_D6 : Z := 34.
Definition CAM_PIN_D5 : Z := 39.
Definition CAM_PIN_D4 : Z := 36.
Definition CAM_PIN_D3 : Z := 19.
Definition CAM_PIN_D2 : Z := 18.
Definition CAM_PIN_D1 : Z := 5.
Definition CAM_PIN_D0 : Z := 4.
Definition CAM_PIN_VSYNC : Z := 25.
Definition CAM_PIN_HREF : Z := 23.
Definition CAM_PIN_PCLK : Z := 22.

(** [static camera_config_t camera_config] of src/globals.h. *)
Definition camera_config : camera_config_t := {|
  pin_pwdn := CAM_PIN_PWDN; pin_reset := CAM_PIN_RESET; pin_xclk := CAM_PIN_XCLK;
  pin_sccb_sda := CAM_PIN_SIOD; pin_sccb_scl := CAM_PIN_SIOC;
  pin_d7 := CAM_PIN_D7; pin_d6 := CAM_PIN_D6; pin_d5 := CAM_PIN_D5; pin_d4 := CAM_PIN_D4;
  pin_d3 := CAM_PIN_D3; pin_d2 := CAM_PIN_D2; pin_d1 := CAM_PIN_D1; pin_d0 := CAM_PIN_D0;
  pin_vsync := CAM_PIN_VSYNC; pin_href := CAM_PIN_HREF; pin_pclk := CAM_PIN_PCLK;
  xclk_freq_hz := 20000000; ledc_timer := LEDC_TIMER_0; ledc_channel := LEDC_CHANNEL_0;
  pixel_format := PIXFORMAT_RGB565; frame_size := FRAMESIZE_240X240;
  jpeg_quality := 12; cfg_fb_count := 5;
  fb_location := CAMERA_FB_IN_PSRAM; grab_mode := CAMERA_GRAB_WHEN_EMPTY |}.

(** The size of the driver's pool. *)
Definition fb_count : nat := cfg_fb_count camera_config.

Record cam_driver := mkCam {
  cam_on : bool;            (* esp_camera_init succeeded, no deinit since *)
  cam_next : nat;           (* identity of the next frame captured *)
  cam_held : list nat;      (* frames given to the application, not returned *)
  cam_returned : list nat   (* every frame given back, in order *)
}.

Definition cam_off : cam_driver := mkCam false 0 [] [].

(** [esp_camera_init]: the outcome is an input of the model. *)
Definition esp_camera_init (ok : bool) (d : cam_driver) : bool * cam_driver :=
  if ok then (true, mkCam true (cam_next d) [] (cam_returned d)) else (false, d).

(** [esp_camera_fb_get]: NULL when the camera is off or when every buffer
    of the pool is held by the application ([CAMERA_GRAB_WHEN_EMPTY] then
    waits for a free buffer and times out). *)
Definition esp_camera_fb_get (d : cam_driver) : option nat * cam_driver :=
  if cam_on d && bool_decide (length (cam_held d) < fb_count)%nat
  then (Some (cam_next d),
        mkCam true (S (cam_next d)) (cam_held d ++ [cam_next d]) (cam_returned d))
  else (None, d).

(** [esp_camera_fb_return]: the boolean says whether the driver held the
    buffer; giving back a buffer it does not hold corrupts its free list,
    which the caller records as a fault. *)
Definition esp_camera_fb_return (fb : nat) (d : cam_driver) : bool * cam_driver :=
  if decide (fb ∈ cam_held d)
  then (true, mkCam (cam_on d) (cam_next d) (remove_first fb (cam_held d))
                    (cam_returned d ++ [fb]))
  else (false, mkCam (cam_on d) (cam_next d) (cam_held d) (cam_returned d ++ [fb])).

Definition esp_camera_return_all (d : cam_driver) : cam_driver :=
  mkCam (cam_on d) (cam_next d) [] (cam_returned d ++ cam_held d).

(** [esp_camera_deinit] frees the pool: nothing is held any more. *)
Definition esp_camera_deinit (d : cam_driver) : cam_driver :=
  mkCam false (cam_next d) [] (cam_returned d ++ cam_held d).

(** The pool invariant: held frames are distinct, already issued, and at
    most [fb_count] of them. *)
Definition cam_wf (d : cam_driver) : Prop :=
  NoDup (cam_held d) /\ Forall (fun f => f < cam_next d)%nat (cam_held d) /\
  (length (cam_held d) <= fb_count)%nat.

Lemma cam_off_wf : cam_wf cam_off.
Proof. repeat split; simpl; [constructor|constructor|lia]. Qed.

Lemma esp_camera_fb_get_wf d : cam_wf d -> cam_wf (snd (esp_camera_fb_get d)).
Proof.
  unfold esp_camera_fb_get, cam_wf. intros (Hnd & Hlt & Hlen).
  destruct (cam_on d && _) eqn:E; simpl; [|done].
  apply andb_prop in E as [_ E]. apply bool_decide_eq_true in E.
  repeat split.
  - apply NoDup_app. repeat split; [done| |apply NoDup_singleton].
    intros x Hx. rewrite list_elem_of_singleton. intros ->.
    rewrite Forall_forall in Hlt. specialize (Hlt _ Hx). lia.
  - apply Forall_app. split; [|repeat constructor; lia].
    eapply Forall_impl; [done|]. simpl; lia.
  - rewrite length_app. simpl. lia.
Qed.

Lemma esp_camera_fb_return_wf fb d : cam_wf d -> cam_wf (snd (esp_camera_fb_return fb d)).
Proof.
  unfold esp_camera_fb_return, cam_wf. intros (Hnd & Hlt & Hlen).
  case_decide as Hin; simpl; [|done]. repeat split.
  - by apply NoDup_remove_first.
  - rewrite Forall_forall in *. intros x Hx. apply Hlt. by apply elem_of_remove_first in Hx.
  - pose proof (remove_first_length fb (cam_held d) Hin). lia.
Qed.

Lemma esp_camera_init_wf ok d : cam_wf d -> cam_wf (snd (esp_camera_init ok d)).
Proof. unfold esp_camera_init, cam_wf. destruct ok; simpl; [|done]. repeat constructor; simpl; lia. Qed.

Lemma esp_camera_return_all_wf d : cam_wf d -> cam_wf (esp_camera_return_all d).
Proof. unfold cam_wf; simpl. repeat constructor; simpl; lia. Qed.

Lemma esp_camera_deinit_wf d : cam_wf d -> cam_wf (esp_camera_deinit d).
Proof. unfold cam_wf; simpl. repeat constructor; simpl; lia. Qed.

(** A buffer the driver holds is given back exactly once more. *)
Lemma fb_return_held fb d :
  fb ∈ cam_held d ->
  esp_camera_fb_return fb d =
    (true, mkCam (cam_on d) (cam_next d) (remove_first fb (cam_held d)) (cam_returned d ++ [fb])).
Proof. unfold esp_camera_fb_return. intros. by case_decide. Qed.

Lemma fb_return_not_held fb d :
  fb ∉ cam_held d -> fst (esp_camera_fb_return fb d) = false.
Proof. unfold esp_camera_fb_return. intros. by case_decide. Qed.

Lemma fb_get_some d :
  cam_on d = true -> (length (cam_held d) < fb_count)%nat ->
  esp_camera_fb_get d =
    (Some (cam_next d), mkCam true (S (cam_next d)) (cam_held d ++ [cam_next d]) (cam_returned d)).
Proof. unfold esp_camera_fb_get. intros -> H. by rewrite bool_decide_eq_true_2. Qed.

(** When every buffer of the pool is held, no frame can be captured. *)
Lemma fb_get_exhausted d :
  length (cam_held d) = fb_count -> esp_camera_fb_get d = (None, d).
Proof.
  unfold esp_camera_fb_get. intros H. rewrite H.
  by rewrite (bool_decide_eq_false_2 _ (Nat.lt_irrefl _)), andb_false_r.
Qed.

#[export] Hint Resolve esp_camera_fb_get_wf esp_camera_fb_return_wf esp_camera_init_wf
  esp_camera_return_all_wf esp_camera_deinit_wf cam_off_wf : miniberry.
End CameraDriver.

Module Rtos.

(** The task functions of src/tasks.cpp. *)
Inductive TaskFn :=
| displayTaskFn | buttonTaskFn | systemDataTaskFn | wifiDataTaskFn | ntpTimeTaskFn
| frameCaptureTaskFn | saveFrameToSDTaskFn | deleteFromSDTaskFn.

#[export] Instance TaskFn_eq_dec : EqDecision TaskFn.
Proof. solve_decision. Defined.

Record rtos := mkRtos {
  rt_tasks : list (nat * TaskFn);   (* task handle, task function *)
  rt_next : nat                     (* next free handle *)
}.

Definition rtos_empty : rtos := mkRtos [] 1.

(** [xTaskCreatePinnedToCore]: the new task's handle is written to the
    handle pointer the call is given (NULL here means no handle kept). *)
Definition xTaskCreatePinnedToCore (fn : TaskFn) (r : rtos) : nat * rtos :=
  (rt_next r, mkRtos (rt_tasks r ++ [(rt_next r, fn)]) (S (rt_next r))).

(** [vTaskDelete(h)]: deletes the task [h], or the calling task [self]
    when [h] is NULL. *)
Definition vTaskDelete (h : option nat) (self : nat) (r : rtos) : rtos :=
  let victim := default self h in
  mkRtos (filter (fun t => t.1 <> victim) (rt_tasks r)) (rt_next r).

(** [vTaskSuspend(h)]: the task it suspends, the calling task [self] when
    [h] is NULL.  Suspension does not change the task table. *)
Definition vTaskSuspend (h : option nat) (self : nat) : nat := default self h.

Definition tasks_running (fn : TaskFn) (r : rtos) : list nat :=
  (filter (fun t => t.2 = fn) (rt_tasks r)).*1.

Definition task_alive (h : nat) (r : rtos) : Prop := h ∈ (rt_tasks r).*1.

#[export] Instance task_alive_dec h r : Decision (task_alive h r).
Proof. unfold task_alive. apply _. Defined.

(** Handles are distinct and below [rt_next]. *)
Definition rtos_wf (r : rtos) : Prop :=
  NoDup (rt_tasks r).*1 /\ Forall (fun t => t.1 < rt_next r)%nat (rt_tasks r).

Lemma rtos_empty_wf : rtos_wf rtos_empty.
Proof. split; constructor. Qed.

Lemma xTaskCreate_wf fn r : rtos_wf r -> rtos_wf (xTaskCreatePinnedToCore fn r).2.
Proof.
  intros [Hnd Hlt]. split; simpl.
  - rewrite fmap_app. apply NoDup_app. repeat split; [done| |apply NoDup_singleton].
    intros x Hx Hx2. simpl in Hx2. apply list_elem_of_singleton in Hx2. subst x.
    apply list_elem_of_fmap in Hx as [[h f] [Heq Hin]]. rewrite Forall_forall in Hlt.
    specialize (Hlt _ Hin). simpl in Hlt, Heq. lia.
  - apply Forall_app. split; [|repeat constructor; simpl; lia].
    eapply Forall_impl; [done|]. simpl; lia.
Qed.

Lemma vTaskDelete_wf h self r : rtos_wf r -> rtos_wf (vTaskDelete h self r).
Proof.
  intros [Hnd Hlt]. split; simpl.
  - eapply sublist_NoDup; [exact Hnd|]. apply fmap_sublist, sublist_filter.
  - rewrite Forall_forall in *. intros x Hx. apply list_elem_of_filter in Hx as [_ Hx].
    by apply Hlt.
Qed.

(** A task created is alive and runs the given function. *)
Lemma xTaskCreate_running fn r :
  tasks_running fn (xTaskCreatePinnedToCore fn r).2 = tasks_running fn r ++ [rt_next r].
Proof.
  unfold tasks_running. simpl. rewrite filter_app, fmap_app, (filter_singleton _ _ []).
  case_decide; [done|simpl in *; congruence].
Qed.

Lemma xTaskCreate_running_other fn fn' r :
  fn <> fn' -> tasks_running fn (xTaskCreatePinnedToCore fn' r).2 = tasks_running fn r.
Proof.
  intros Hne. unfold tasks_running. simpl. rewrite filter_app, fmap_app, (filter_singleton _ _ []).
  case_decide; [simpl in *; congruence|]. by rewrite app_nil_r.
Qed.

(** After [vTaskDelete], the deleted task is gone and the others remain. *)
Lemma task_alive_vTaskDelete x h self r :
  task_alive x (vTaskDelete h self r) <-> x <> default self h /\ task_alive x r.
Proof.
  unfold task_alive, vTaskDelete. simpl. rewrite !list_elem_of_fmap. split.
  - intros [[k f] [-> Hin]]. apply list_elem_of_filter in Hin as [Hne Hin]. eauto.
  - intros [Hne [[k f] [-> Hin]]]. exists (k, f). split; [done|].
    by apply list_elem_of_filter.
Qed.

Lemma task_alive_xTaskCreate x fn r :
  task_alive x (xTaskCreatePinnedToCore fn r).2 <-> x = rt_next r \/ task_alive x r.
Proof.
  unfold task_alive. simpl. rewrite fmap_app, elem_of_app. simpl.
  rewrite list_elem_of_singleton. tauto.
Qed.

Lemma elem_of_tasks_running h fn r : h ∈ tasks_running fn r <-> (h, fn) ∈ rt_tasks r.
Proof.
  unfold tasks_running. rewrite list_elem_of_fmap. split.
  - intros [[k f] [-> Hin]]. apply list_elem_of_filter in Hin as [Hf Hin]. simpl in *. by subst.
  - intros Hin. exists (h, fn). split; [done|]. by apply list_elem_of_filter.
Qed.

Lemma elem_of_vTaskDelete k f h self r :
  (k, f) ∈ rt_tasks (vTaskDelete h self r) <-> k <> default self h /\ (k, f) ∈ rt_tasks r.
Proof. unfold vTaskDelete. simpl. rewrite list_elem_of_filter. done. Qed.

Lemma tasks_running_vTaskDelete fn h self r :
  tasks_running fn (vTaskDelete h self r) = filter (fun k => k <> default self h) (tasks_running fn r).
Proof.
  unfold tasks_running, vTaskDelete. simpl. induction (rt_tasks r) as [|[k f] l IH]; [done|].
  repeat first [rewrite filter_cons | case_decide | progress simpl in *]; try congruence;
    first [exact IH | f_equal; exact IH].
Qed.

(** A handle names one task. *)
Lemma rtos_wf_unique h f g r : rtos_wf r -> (h, f) ∈ rt_tasks r -> (h, g) ∈ rt_tasks r -> f = g.
Proof.
  intros [Hnd _] Hf Hg. destruct (decide (f = g)) as [|Hne]; [done|]. exfalso.
  apply list_elem_of_split in Hf as (l1 & l2 & Hl). rewrite Hl in Hnd, Hg.
  rewrite fmap_app in Hnd. simpl in Hnd. apply NoDup_app in Hnd as (_ & Hdis & Hnd2).
  apply NoDup_cons in Hnd2 as [Hh _]. apply elem_of_app in Hg as [Hg|Hg].
  - apply (Hdis h); [|by left]. apply list_elem_of_fmap. by exists (h, g).
  - apply elem_of_cons in Hg as [Hg|Hg]; [congruence|]. apply Hh, list_elem_of_fmap. by exists (h, g).
Qed.

(** Every live handle was handed out before [rt_next]. *)
Lemma task_alive_lt h r : rtos_wf r -> task_alive h r -> (h < rt_next r)%nat.
Proof.
  intros [_ Hlt] Hal. apply list_elem_of_fmap in Hal as [[k f] [-> Hin]].
  rewrite Forall_forall in Hlt. exact (Hlt _ Hin).
Qed.

#[export] Hint Resolve rtos_empty_wf xTaskCreate_wf vTaskDelete_wf : miniberry.
End Rtos.

Module SdCard.

Record sdcard := mkSd {
  sd_mounted : bool;          (* SD_MMC.begin succeeded *)
  sd_root : list string       (* file names of the root directory *)
}.

(** The path of a root entry, as the code builds it: "/" + name. *)
Definition sd_path (name : string) : string := String "/"%char name.

(** [SD_MMC.open("/")] and its [openNextFile] iteration: the entry names,
    or NULL when the card is not mounted. *)
Definition sd_list_root (s : sdcard) : option (list string) :=
  if sd_mounted s then Some (sd_root s) else None.

(** [SD_MMC.remove(path)]: true when the file existed and is removed. *)
Definition sd_remove (path : string) (s : sdcard) : bool * sdcard :=
  match path with
  | String "/"%char name =>
      if sd_mounted s && bool_decide (name ∈ sd_root s)
      then (true, mkSd true (remove_first name (sd_root s)))
      else (false, s)
  | _ => (false, s)
  end.

(** [SD_MMC.open(path, FILE_WRITE)] followed by a write: creates the file
    (or truncates an existing one); fails when the card is not mounted. *)
Definition sd_write (path : string) (s : sdcard) : bool * sdcard :=
  match path with
  | String "/"%char name =>
      if sd_mounted s
      then (true, mkSd true (if bool_decide (name ∈ sd_root s) then sd_root s
                             else sd_root s ++ [name]))
      else (false, s)
  | _ => (false, s)
  end.

Lemma sd_remove_path name s :
  sd_mounted s = true -> name ∈ sd_root s ->
  sd_remove (sd_path name) s = (true, mkSd true (remove_first name (sd_root s))).
Proof.
  intros Hm Hin. unfold sd_remove, sd_path. rewrite Hm. simpl.
  by rewrite bool_decide_eq_true_2.
Qed.
Lemma sd_remove_path_absent name s :
  name ∉ sd_root s -> sd_remove (sd_path name) s = (false, s).
Proof.
  intros Hn. unfold sd_remove, sd_path. simpl.
  rewrite bool_decide_eq_false_2 by done. by rewrite andb_false_r.
Qed.
End SdCard.
