(* ===== verification/Globals.v ===== *)
(** * The global state of the firmware

    src/globals.h declares the enums, structs and global variables that
    every task reads and writes; src/globals.cpp gives their initial
    values.  They are gathered here into one record [World], together with
    the state of the external collaborators ([Platform]) and a log of the
    undefined behaviours the code runs into ([faults]).

    The static locals [start] and [end] of [drawFiles] (src/display.cpp)
    live for the whole run, so they are fields of the world as well
    ([files_start], [files_end]).

    This file also holds the three helpers every component uses: appending
    a fault, reading [filenames[i]] (a [std::vector] read, undefined out of
    range) and giving a frame buffer back to the camera driver. *)

From S2P Require Import Prelude Queue Platform.
Export CameraDriver Rtos SdCard.

(** ** Enums and structs of src/globals.h *)

Inductive ButtonState := NONE | UP | DOWN | SELECT | BACK.

Inductive DisplayState :=
  BOOT | MENU | CAMERA_FEED | SD_CARD | SYSTEM_DATA | WIFI | GAMES | GAME1 | GAME2 | GAME3.

#[export] Instance ButtonState_eq_dec : EqDecision ButtonState.
Proof. solve_decision. Defined.
#[export] Instance DisplayState_eq_dec : EqDecision DisplayState.
Proof. solve_decision. Defined.

Record MenuItem := mkMenuItem { label : string; next_state : DisplayState }.

Record SystemInfo := mkSystemInfo { min_free_heap : Z; cpu_freq : Z; uptime : Z }.

Record WiFiInfo := mkWiFiInfo {
  ssid : string; ip : string; rssi : Z; mac : string;
  nearby : list string; nearbyCount : Z }.

(** The fields of [struct tm] the code reads. *)
Record tm := mkTm { tm_year : Z; tm_mon : Z; tm_mday : Z; tm_hour : Z; tm_min : Z; tm_sec : Z }.

(** The defines of src/globals.h the modelled code uses. *)
Definition UP_ADC : Z := 1015.
Definition DOWN_ADC : Z := 2048.
Definition SELECT_ADC : Z := 3141.
Definition BACK_ADC : Z := 4095.
Definition NUM_SYS_DATA_POINTS : Z := 60.
Definition MAX_WIFI : Z := 8.
Definition MAX_FILENAME_LENGTH : Z := 32.
Definition MAIN_MENU_SIZE : Z := 5.
Definition GAMES_MENU_SIZE : Z := 3.
Definition SCREEN_HEIGHT : Z := 320.
Definition SCREEN_WIDTH : Z := 240.
Definition STATUS_BAR_HEIGHT : Z := 20.
Definition MENU_ITEM_HEIGHT : Z := 60.
Definition IMAGE_WIDTH : Z := 240.
Definition IMAGE_HEIGHT : Z := 240.
Definition SWAP_BYTES : bool := false.

(** ** Undefined behaviour met by the code *)

Inductive Fault :=
| OobMenuIndex (i : Z)         (* menu[button_index] outside the array *)
| OobFilenames (i : Z)         (* filenames[i] outside the vector *)
| BadFrameReturn (fb : nat)    (* esp_camera_fb_return of a buffer the driver does not hold *)
| StaleFrameUse (fb : nat)     (* fb->buf read after the buffer went back to the driver *)
| UninitButtonState (r : Z)    (* a reading above BACK_ADC sends an uninitialised state *)
| BufferOverflow (len : Z)     (* sprintf of len chars (and the NUL) into char f[32] *)
| EmptyQueueFront.             (* front() of an empty std::queue *)

#[export] Instance Fault_eq_dec : EqDecision Fault.
Proof. solve_decision. Defined.

(** ** The globals *)

#[projections(primitive)]
Record World := mkWorld {
  (* tracking variables, globals.cpp *)
  display_state : DisplayState;
  prev_state : DisplayState;
  button_state : ButtonState;
  button_index : Z;
  game_input : ascii;
  last_button_index : Z;
  camera_init : bool;
  save_next_frame : bool;
  menu_init : bool;
  image_view : bool;
  image_shown : bool;
  file_index : Z;
  prev_file_index : Z;
  filenames : list string;
  num_files : Z;
  heap_usage : list Z;           (* std::queue<int>, front first *)
  min_heap : Z;
  max_heap : Z;
  (* queue handles *)
  frame_display_queue : queue nat;
  frame_save_queue : queue nat;
  button_queue : queue ButtonState;
  sys_info_queue : queue SystemInfo;
  file_delete_queue : queue string;
  wifi_queue : queue WiFiInfo;
  (* task handles (NULL = None) *)
  frameCaptureTask_handle : option nat;
  saveFrameToSDTask_handle : option nat;
  deleteFromSDTask_handle : option nat;
  (* NTP time *)
  t : tm;
  (* static locals of drawFiles *)
  files_start : Z;
  files_end : Z;
  (* external collaborators *)
  cam : cam_driver;
  rtos : Rtos.rtos;
  sd : sdcard;
  (* undefined behaviour met so far, oldest first *)
  faults : list Fault
}.

(** The menus of globals.cpp. *)
Definition main_menu : list MenuItem :=
  [mkMenuItem "System Data" SYSTEM_DATA; mkMenuItem "Wifi" WIFI;
   mkMenuItem "Camera Feed" CAMERA_FEED; mkMenuItem "SD Card" SD_CARD;
   mkMenuItem "Games" GAMES].

Definition games_menu : list MenuItem :=
  [mkMenuItem "Pong" GAME1; mkMenuItem "Game 2" GAME2; mkMenuItem "Game 3" GAME3].

Definition tm_zero : tm := mkTm 0 0 0 0 0 0.

(** The initial values of globals.cpp.  The queue fields hold the empty
    queues that [initQueues] creates first thing in [setup] (the handles
    are NULL before; [System] models the failing allocation); [filenames]
    starts as a vector of two empty strings ([filenames(2)]). *)
Definition globals_init (s : sdcard) : World := {|
  display_state := BOOT; prev_state := MENU; button_state := NONE;
  button_index := 0; game_input := "N"%char; last_button_index := 0;
  camera_init := false; save_next_frame := false; menu_init := false;
  image_view := false; image_shown := false;
  file_index := 0; prev_file_index := -1; filenames := [""; ""]; num_files := 0;
  heap_usage := []; min_heap := 100; max_heap := 0;
  frame_display_queue := xQueueCreate FRAME_DISPLAY_QUEUE_SIZE;
  frame_save_queue := xQueueCreate FRAME_SAVE_QUEUE_SIZE;
  button_queue := xQueueCreate BUTTON_QUEUE_SIZE;
  sys_info_queue := xQueueCreate SYS_INFO_QUEUE_SIZE;
  file_delete_queue := xQueueCreate FILE_DELETE_QUEUE_SIZE;
  wifi_queue := xQueueCreate WIFI_QUEUE_SIZE;
  frameCaptureTask_handle := None; saveFrameToSDTask_handle := None;
  deleteFromSDTask_handle := None;
  t := tm_zero;
  files_start := 0; files_end := 10 - 1;
  cam := cam_off; rtos := rtos_empty; sd := s;
  faults := [] |}.

(** ** Helpers shared by the components *)

Definition log_fault (f : Fault) : ST World unit :=
  st_modify (fun w => w {{ faults := faults w ++ [f] }}).

(** [v[i]] on a [std::vector] or a C array: out of range is undefined
    behaviour, recorded, after which the model reads [d]. *)
Definition vec_at {A} (d : A) (mk : Z -> Fault) (l : list A) (i : Z) : ST World A :=
  match (if decide (0 <= i) then l !! Z.to_nat i else None) with
  | Some x => mret x
  | None => log_fault (mk i);; mret d
  end.

(** [esp_camera_fb_return(fb)]. *)
Definition fb_return (fb : nat) : ST World unit :=
  w ← st_get;
  let '(held, d') := esp_camera_fb_return fb (cam w) in
  st_put (w {{ cam := d' }});;
  (if held then mret tt else log_fault (BadFrameReturn fb)).

(** Reading [fb->buf]: undefined once the buffer went back to the driver. *)
Definition fb_use (fb : nat) : ST World unit :=
  w ← st_get;
  if decide (fb ∈ cam_held (cam w)) then mret tt else log_fault (StaleFrameUse fb).

Lemma vec_at_in {A} (d : A) mk (l : list A) (i : Z) (x : A) :
  0 <= i -> l !! Z.to_nat i = Some x -> forall w, vec_at d mk l i w = (x, w).
Proof. intros Hi Hl w. unfold vec_at. rewrite decide_True by done. by rewrite Hl. Qed.

Lemma vec_at_oob {A} (d : A) mk (l : list A) (i : Z) :
  ~ (0 <= i < Z.of_nat (length l)) ->
  forall w, vec_at d mk l i w = (d, w {{ faults := faults w ++ [mk i] }}).
Proof.
  intros Hi w. unfold vec_at. case_decide; [|done].
  rewrite lookup_ge_None_2; [done|]. lia.
Qed.

(** Which faults a world has met: the safety statements of the development
    say that a given kind of fault never occurs. *)
Definition no_fault_of (P : Fault -> Prop) (w : World) : Prop := Forall (fun f => ~ P f) (faults w).

Definition is_oob_menu (f : Fault) : Prop := match f with OobMenuIndex _ => True | _ => False end.
Definition is_oob_filenames (f : Fault) : Prop := match f with OobFilenames _ => True | _ => False end.
Definition is_frame_fault (f : Fault) : Prop :=
  match f with BadFrameReturn _ | StaleFrameUse _ => True | _ => False end.

Lemma exec_fb_return_held (fb : nat) (w : World) :
  fb ∈ cam_held (cam w) ->
  exec (fb_return fb) w =
    w {{ cam := mkCam (cam_on (cam w)) (cam_next (cam w)) (remove_first fb (cam_held (cam w)))
                      (cam_returned (cam w) ++ [fb]) }}.
Proof.
  intros H. unfold fb_return, exec. wsimpl. unfold esp_camera_fb_return.
  rewrite decide_True by done. reflexivity.
Qed.

Lemma exec_fb_return_not_held (fb : nat) (w : World) :
  fb ∉ cam_held (cam w) ->
  exec (fb_return fb) w =
    w {{ cam := mkCam (cam_on (cam w)) (cam_next (cam w)) (cam_held (cam w))
                      (cam_returned (cam w) ++ [fb]);
         faults := faults w ++ [BadFrameReturn fb] }}.
Proof.
  intros H. unfold fb_return, exec. wsimpl. unfold esp_camera_fb_return.
  rewrite decide_False by done. reflexivity.
Qed.

Lemma exec_fb_use_held (fb : nat) (w : World) :
  fb ∈ cam_held (cam w) -> exec (fb_use fb) w = w.
Proof. intros H. unfold fb_use, exec. wsimpl. by rewrite decide_True. Qed.

Lemma exec_fb_use_not_held (fb : nat) (w : World) :
  fb ∉ cam_held (cam w) -> exec (fb_use fb) w = w {{ faults := faults w ++ [StaleFrameUse fb] }}.
Proof. intros H. unfold fb_use, exec. wsimpl. by rewrite decide_False. Qed.

(** Simplify a handler's run and put every projection of [World] in the
    same (unfolded) form in the goal and the hypotheses, so that the
    hypotheses about a world rewrite in the simplified goal. *)
Ltac wnorm :=
  wsimpl;
  unfold display_state, prev_state, button_state, button_index, game_input,
    last_button_index, camera_init, save_next_frame, menu_init, image_view,
    image_shown, file_index, prev_file_index, filenames, num_files, heap_usage,
    min_heap, max_heap, frame_display_queue, frame_save_queue, button_queue,
    sys_info_queue, file_delete_queue, wifi_queue, frameCaptureTask_handle,
    saveFrameToSDTask_handle, deleteFromSDTask_handle, t, files_start, files_end,
    cam, rtos, sd, faults in *.
