(* ===== verification/Button.v ===== *)
(** * ButtonSampler: [buttonTask] (src/tasks.cpp)

    One iteration of the task's loop reads the ADC of the resistor ladder,
    classifies the reading into a [ButtonState] by the threshold chain of
    the code and sends it to [button_queue] with [xQueueSend] (block time
    0).  The reading is an input of the step.

    The theorems: the threshold chain partitions the ADC range [0, 4095]
    into the five bands of the design; above 4095 the code would send an
    uninitialised variable (a fault, unreachable for a 12-bit ADC); and,
    against the comment "Overwrite button state to queue", the send drops
    the new event when three events are already pending. *)

From S2P Require Import Prelude Queue Platform Globals.

(** The [if]/[else if] chain of [buttonTask]: [None] when no branch is
    taken and [state] stays uninitialised. *)
Definition classify_reading (reading : Z) : option ButtonState :=
  if reading <? 100 then Some NONE
  else if reading <=? UP_ADC then Some UP
  else if reading <=? DOWN_ADC then Some DOWN
  else if reading <=? SELECT_ADC then Some SELECT
  else if reading <=? BACK_ADC then Some BACK
  else None.

(** One iteration of [buttonTask]'s loop. *)
Definition buttonTask_iter (reading : Z) : ST World unit :=
  match classify_reading reading with
  | Some state =>
      st_modify (fun w => w {{ button_queue := snd (xQueueSend (button_queue w) state) }})
  | None => log_fault (UninitButtonState reading)
  end.

(** Consecutive iterations with the readings [rs] and no receive in
    between. *)
Fixpoint buttonTask_run (rs : list Z) : ST World unit :=
  match rs with
  | [] => skip
  | r :: rs' => buttonTask_iter r;; buttonTask_run rs'
  end.

(** The bands of the design (spec section 6), bounds included. *)
Definition band_lo (b : ButtonState) : Z :=
  match b with NONE => 0 | UP => 100 | DOWN => UP_ADC + 1 | SELECT => DOWN_ADC + 1 | BACK => SELECT_ADC + 1 end.
Definition band_hi (b : ButtonState) : Z :=
  match b with NONE => 99 | UP => UP_ADC | DOWN => DOWN_ADC | SELECT => SELECT_ADC | BACK => BACK_ADC end.

(** The classification of a reading of the 12-bit ADC is the band it
    falls in: for every reading [0 <= r], [classify_reading r = Some b]
    exactly when [band_lo b <= r <= band_hi b]. *)
Theorem classify_reading_bands (r : Z) (b : ButtonState) :
  0 <= r -> classify_reading r = Some b <-> band_lo b <= r <= band_hi b.
Proof.
  intros Hr. unfold classify_reading, band_lo, band_hi, UP_ADC, DOWN_ADC, SELECT_ADC, BACK_ADC.
  destruct b; z_cases; split; intros Hc; try discriminate; try lia; try done.
Qed.

Example classify_reading_bands_witness :
  0 <= 3000 /\ (classify_reading 3000 = Some SELECT <-> band_lo SELECT <= 3000 <= band_hi SELECT).
Proof. split; [lia|]. apply (classify_reading_bands 3000 SELECT). lia. Defined.

(** Every reading of the ADC range gives an initialised state. *)
Lemma classify_reading_total (r : Z) :
  0 <= r <= BACK_ADC -> exists b, classify_reading r = Some b.
Proof. unfold classify_reading, BACK_ADC, UP_ADC, DOWN_ADC, SELECT_ADC. intros. z_cases; eauto; lia. Qed.

(** Above [BACK_ADC] no branch is taken. *)
Lemma classify_reading_above (r : Z) : BACK_ADC < r -> classify_reading r = None.
Proof. unfold classify_reading, BACK_ADC, UP_ADC, DOWN_ADC, SELECT_ADC. intros. z_cases; lia || done. Qed.

(** The effect of one iteration on the button queue. *)
Lemma buttonTask_iter_queue (r : Z) (b : ButtonState) (w : World) :
  classify_reading r = Some b ->
  exec (buttonTask_iter r) w = w {{ button_queue := snd (xQueueSend (button_queue w) b) }}.
Proof. unfold buttonTask_iter. intros ->. reflexivity. Qed.

(** The button channel is not an overwrite channel: when three events
    are pending, a new press is discarded and the pending (possibly stale)
    events are kept, contrary to the comment on the send. *)
Theorem buttonTask_drops_when_full (r : Z) (w : World) :
  0 <= r <= BACK_ADC ->
  q_wf (button_queue w) -> q_full (button_queue w) ->
  button_queue (exec (buttonTask_iter r) w) = button_queue w.
Proof.
  intros Hr Hwf Hfull. destruct (classify_reading_total r Hr) as [b Hb].
  rewrite buttonTask_iter_queue with (b := b) by done. cbn.
  by rewrite xQueueSend_full.
Qed.

Example buttonTask_drops_when_full_witness :
  let w := (globals_init (mkSd true [])) {{ button_queue := mkQueue 3 [NONE; NONE; NONE] }} in
  (0 <= 3000 <= BACK_ADC /\ q_wf (button_queue w) /\ q_full (button_queue w)) /\
  button_queue (exec (buttonTask_iter 3000) w) = mkQueue 3 [NONE; NONE; NONE].
Proof.
  cbv zeta. split; [repeat split; cbn; unfold BACK_ADC, q_wf, q_full; cbn; lia|].
  rewrite (buttonTask_drops_when_full 3000); [reflexivity| |cbn; unfold q_wf; cbn; lia|reflexivity].
  unfold BACK_ADC; lia.
Defined.

(** The button queue never holds more than its three slots. *)
Lemma buttonTask_iter_wf (r : Z) (w : World) :
  q_wf (button_queue w) -> q_wf (button_queue (exec (buttonTask_iter r) w)).
Proof.
  unfold buttonTask_iter. destruct (classify_reading r); intros; cbn; [by apply xQueueSend_wf|done].
Qed.

(** A run of iterations sends the classified readings one after the
    other; a reading above [BACK_ADC] sends nothing (it logs a fault). *)
Lemma buttonTask_run_queue (rs : list Z) (w : World) :
  button_queue (exec (buttonTask_run rs) w) = send_all (button_queue w) (omap classify_reading rs).
Proof.
  revert w. induction rs as [|r rs IH]; intros w; [done|].
  simpl buttonTask_run. rewrite exec_bind, IH. unfold buttonTask_iter.
  simpl omap. destruct (classify_reading r); reflexivity.
Qed.

(** The button channel delivers presses in order and drops the newest:
    from an empty button queue, a run of [buttonTask] iterations with no
    receive in between leaves in the queue the first [BUTTON_QUEUE_SIZE]
    classified readings, oldest first; later presses are lost. *)
Theorem button_channel_fifo (rs : list Z) (w : World) :
  button_queue w = xQueueCreate BUTTON_QUEUE_SIZE ->
  q_items (button_queue (exec (buttonTask_run rs) w)) =
    take BUTTON_QUEUE_SIZE (omap classify_reading rs).
Proof.
  intros Hq. rewrite buttonTask_run_queue, Hq, send_all_items by apply xQueueCreate_wf.
  reflexivity.
Qed.

Example button_channel_fifo_witness :
  let w := globals_init (mkSd true []) in
  button_queue w = xQueueCreate BUTTON_QUEUE_SIZE /\
  q_items (button_queue (exec (buttonTask_run [3000; 500; 4095; 2000; 1000]) w)) = [SELECT; UP; BACK].
Proof.
  cbv zeta. split; [reflexivity|].
  rewrite button_channel_fifo; reflexivity.
Defined.
