(* ===== verification/Navigation.v ===== *)
(** * NavigationStateMachine: the list and leaf screens' button handlers

    src/button_handlers.cpp: [handleButtonMenu] (main menu and games
    menu), [handleButtonSimple] (system-data and WiFi screens) and
    [handleButtonGame] (the three games).  Each handler first does
    [button_state = NONE; if (!xQueueReceive(button_queue, &button_state, 0))]
    ([receive_button]) and then changes the navigation globals on the
    event received.

    The design (spec section 4.1) describes the navigation as a function
    [handle(event, state)] on an abstract state (active screen, previous
    screen, selection index, entered flag).  [NavSpec] writes that function
    for the list and leaf screens; [handlers_refine_nav_spec] proves that
    the handlers, seen through the abstraction [nav_of], compute it.  The
    other theorems: the wrap-around of the selection, the no-op on an empty
    queue or a [NONE] event, and the games' handler. *)

From S2P Require Import Prelude Queue Platform Globals.

(** [button_state = NONE; if (!xQueueReceive(button_queue, &button_state, 0))]:
    true when an event was received (it is then in [button_state]). *)
Definition receive_button : ST World bool :=
  st_modify (fun w => w {{ button_state := NONE }});;
  w ← st_get;
  match xQueueReceive (button_queue w) with
  | (Some b, q) => st_put (w {{ button_queue := q; button_state := b }});; mret true
  | (None, q) => st_put (w {{ button_queue := q }});; mret false
  end.

(** What [menu[button_index]] reads past the end of the array is
    undefined; the model records the fault and reads this item. *)
Definition menu_item_oob : MenuItem := mkMenuItem "" MENU.

Definition handleButtonMenu (menu : list MenuItem) (n_buttons : Z) : ST World unit :=
  ok ← receive_button;
  if negb ok then skip else
  w ← st_get;
  match button_state w with
  | DOWN =>
      let i := button_index w + 1 in
      st_put (w {{ button_index := if i >? n_buttons - 1 then 0 else i }})
  | UP =>
      let i := button_index w - 1 in
      st_put (w {{ button_index := if i <? 0 then n_buttons - 1 else i }})
  | SELECT =>
      st_put (w {{ prev_state := display_state w }});;
      item ← vec_at menu_item_oob OobMenuIndex menu (button_index w);
      st_modify (fun w => w {{ display_state := next_state item; button_index := 0;
                               menu_init := false }})
  | BACK =>
      st_put (w {{ display_state := prev_state w; button_index := 0; menu_init := false }})
  | NONE => skip
  end.

Definition handleButtonSimple : ST World unit :=
  ok ← receive_button;
  if negb ok then skip else
  w ← st_get;
  if decide (button_state w = BACK)
  then st_put (w {{ display_state := MENU; menu_init := false; button_index := 0 }})
  else skip.

(** [handleButtonGame] does not return when the queue is empty: it runs
    its [if] chain on [NONE]. *)
Definition handleButtonGame : ST World ascii :=
  st_modify (fun w => w {{ game_input := "N"%char }});;
  _ ← receive_button;
  w ← st_get;
  match button_state w with
  | UP => st_put (w {{ game_input := "U"%char }})
  | DOWN => st_put (w {{ game_input := "D"%char }})
  | SELECT => st_put (w {{ game_input := "S"%char }})
  | BACK => st_put (w {{ display_state := GAMES; prev_state := MENU; menu_init := false;
                        game_input := "B"%char; button_index := 0 }})
  | NONE => skip
  end;;
  st_gets game_input.

(** ** The abstract navigation state of the design *)

Module NavSpec.
Record nav := mkNav { active : DisplayState; previous : DisplayState;
                      selection : Z; entered : bool }.

(** The list screens and the targets of their items. *)
Definition list_targets (s : DisplayState) : option (list DisplayState) :=
  match s with
  | MENU => Some (next_state <$> main_menu)
  | GAMES => Some (next_state <$> games_menu)
  | _ => None
  end.

Definition is_leaf (s : DisplayState) : bool :=
  match s with SYSTEM_DATA | WIFI => true | _ => false end.

(** [handle(event, state)] of spec section 4.1 in a list screen whose
    items lead to [xs]: Up/Down move the selection with wrap-around
    modulo the item count, Select enters the chosen item's screen and
    remembers the current one, Back returns to the previous screen;
    both transitions reset the selection and clear [entered]; [NONE]
    changes nothing. *)
Definition list_step (xs : list DisplayState) (e : ButtonState) (n : nav) : nav :=
  let N := Z.of_nat (length xs) in
  match e with
  | UP => mkNav (active n) (previous n) ((selection n - 1) mod N) (entered n)
  | DOWN => mkNav (active n) (previous n) ((selection n + 1) mod N) (entered n)
  | SELECT =>
      match xs !! Z.to_nat (selection n) with
      | Some s => mkNav s (active n) 0 false
      | None => n
      end
  | BACK => mkNav (previous n) (previous n) 0 false
  | NONE => n
  end.

(** In a leaf screen only Back is handled: it returns to the menu. *)
Definition leaf_step (e : ButtonState) (n : nav) : nav :=
  if bool_decide (e = BACK) then mkNav MENU (previous n) 0 false else n.

Definition nav_step (e : ButtonState) (n : nav) : nav :=
  match list_targets (active n) with
  | Some xs => list_step xs e n
  | None => if is_leaf (active n) then leaf_step e n else n
  end.
End NavSpec.

Import NavSpec.

Definition nav_of (w : World) : nav :=
  mkNav (display_state w) (prev_state w) (button_index w) (menu_init w).

(** The handler [displayTask] calls on each of these screens, with the
    item counts [sizeof(menu) / sizeof(MenuItem)]. *)
Definition nav_handler (s : DisplayState) : ST World unit :=
  match s with
  | MENU => handleButtonMenu main_menu MAIN_MENU_SIZE
  | GAMES => handleButtonMenu games_menu GAMES_MENU_SIZE
  | SYSTEM_DATA | WIFI => handleButtonSimple
  | _ => skip
  end.

(** ** Lemmas on the receive and the wrap-around arithmetic *)

Lemma receive_button_some (w : World) c b rest :
  button_queue w = mkQueue c (b :: rest) ->
  receive_button w = (true, w {{ button_queue := mkQueue c rest; button_state := b }}).
Proof. intros Hq. destruct w; cbn in Hq; subst. reflexivity. Qed.

Lemma receive_button_none (w : World) :
  q_items (button_queue w) = [] ->
  receive_button w = (false, w {{ button_state := NONE }}).
Proof.
  intros Hq. destruct w as [? ? ? ? ? ? ? ? ? ? ? ? ? ? ? ? ? ? ? ? [c its] ?]; cbn in Hq; subst.
  reflexivity.
Qed.

Lemma incr_wrap (i n : Z) : 0 <= i < n -> (if i + 1 >? n - 1 then 0 else i + 1) = (i + 1) mod n.
Proof.
  intros H. destruct (Z.gtb_spec (i + 1) (n - 1)).
  - apply Z.mod_unique with 1; lia.
  - rewrite Z.mod_small; lia.
Qed.

Lemma decr_wrap (i n : Z) : 0 <= i < n -> (if i - 1 <? 0 then n - 1 else i - 1) = (i - 1) mod n.
Proof.
  intros H. destruct (Z.ltb_spec (i - 1) 0).
  - apply Z.mod_unique with (-1); lia.
  - rewrite Z.mod_small; lia.
Qed.

#[export] Hint Rewrite receive_button_some using assumption : miniberry_rw.

(** The pressed-and-handled composite used by the wrap-around theorem:
    one [buttonTask] send of [b], then one call of the handler. *)
Definition press (h : ST World unit) (b : ButtonState) (w : World) : World :=
  exec h (w {{ button_queue := snd (xQueueSend (button_queue w) b) }}).

(** One Down press in a list screen: the selection moves by one modulo the
    item count and nothing else changes but the event globals. *)
Lemma menu_press_down (menu : list MenuItem) (w : World) :
  let n := Z.of_nat (length menu) in
  0 <= button_index w < n -> button_queue w = xQueueCreate BUTTON_QUEUE_SIZE ->
  press (handleButtonMenu menu n) DOWN w =
    w {{ button_state := DOWN; button_index := (button_index w + 1) mod n }}.
Proof.
  intros n Hi Hq. destruct w; cbn in Hi, Hq; subst.
  unfold press, handleButtonMenu, receive_button, skip, exec. wsimpl. by rewrite incr_wrap.
Qed.

(** Up from the first item wraps to the last one. *)
Lemma menu_press_up_first (menu : list MenuItem) (w : World) :
  let n := Z.of_nat (length menu) in
  1 <= n -> button_index w = 0 -> button_queue w = xQueueCreate BUTTON_QUEUE_SIZE ->
  button_index (press (handleButtonMenu menu n) UP w) = n - 1.
Proof.
  intros n Hn Hi Hq. destruct w; cbn in Hi, Hq; subst.
  unfold press, handleButtonMenu, receive_button, skip, exec. wsimpl. done.
Qed.

(** [k] Down presses from index [i] lead to [(i + k) mod n]. *)
Lemma menu_press_down_iter (menu : list MenuItem) (w : World) (k : nat) :
  let n := Z.of_nat (length menu) in
  0 <= button_index w < n -> button_queue w = xQueueCreate BUTTON_QUEUE_SIZE ->
  button_index (Nat.iter k (press (handleButtonMenu menu n) DOWN) w) =
    (button_index w + Z.of_nat k) mod n /\
  button_queue (Nat.iter k (press (handleButtonMenu menu n) DOWN) w) = xQueueCreate BUTTON_QUEUE_SIZE.
Proof.
  intros n Hi Hq. unfold n in *. induction k as [|k [IHi IHq]].
  - simpl. rewrite Z.add_0_r, Z.mod_small by lia. done.
  - rewrite Nat.iter_succ. rewrite menu_press_down.
    + wsimpl. rewrite IHi. split; [|done]. rewrite Nat2Z.inj_succ, Zplus_mod_idemp_l.
      f_equal. lia.
    + rewrite IHi. apply Z.mod_pos_bound. lia.
    + done.
Qed.

(** Navigation wrap-around (spec section 8): in a list screen of [n]
    items with an empty button queue, [n] Down presses (each one sent by
    the sampler and handled by [handleButtonMenu]) bring the selection back
    to where it was, and one Up press from the first item selects the
    last one. *)
Theorem menu_wraparound (menu : list MenuItem) (w : World) :
  let n := Z.of_nat (length menu) in
  0 <= button_index w < n -> button_queue w = xQueueCreate BUTTON_QUEUE_SIZE ->
  button_index (Nat.iter (length menu) (press (handleButtonMenu menu n) DOWN) w) = button_index w /\
  (button_index w = 0 -> button_index (press (handleButtonMenu menu n) UP w) = n - 1).
Proof.
  intros n Hi Hq. unfold n in *. split.
  - destruct (menu_press_down_iter menu w (length menu) Hi Hq) as [-> _].
    replace (button_index w + Z.of_nat (length menu))
      with (button_index w + 1 * Z.of_nat (length menu)) by lia.
    rewrite Z.mod_add by lia. apply Z.mod_small. lia.
  - intros H0. apply menu_press_up_first; [lia|done|done].
Qed.

Example menu_wraparound_witness :
  let w := (globals_init (mkSd true [])) {{ display_state := MENU }} in
  (0 <= button_index w < Z.of_nat (length main_menu) /\
  button_queue w = xQueueCreate BUTTON_QUEUE_SIZE) /\
  button_index (Nat.iter (length main_menu)
    (press (handleButtonMenu main_menu (Z.of_nat (length main_menu))) DOWN) w) = button_index w.
Proof.
  cbv zeta. split; [split; [simpl; lia|reflexivity]|].
  apply (menu_wraparound main_menu); [simpl; lia|reflexivity].
Defined.

(** The handler of a list screen computes the design's [list_step]. *)
Lemma handleButtonMenu_nav (menu : list MenuItem) (w : World) c e rest :
  let n := Z.of_nat (length menu) in
  0 <= button_index w < n -> button_queue w = mkQueue c (e :: rest) ->
  nav_of (exec (handleButtonMenu menu n) w) = list_step (next_state <$> menu) e (nav_of w).
Proof.
  intros n Hi Hq. unfold list_step. rewrite length_fmap. fold n.
  destruct (lookup_lt_is_Some_2 menu (Z.to_nat (button_index w))) as [item Hitem]; [lia|].
  destruct w; cbn in Hi, Hq, Hitem; subst.
  unfold handleButtonMenu, receive_button, skip, exec. wsimpl.
  destruct e; wsimpl; try reflexivity.
  - by rewrite decr_wrap.
  - by rewrite incr_wrap.
  - rewrite vec_at_in with (x := item) by (done || lia). simpl.
    by rewrite list_lookup_fmap, Hitem.
Qed.

Lemma handleButtonSimple_nav (w : World) c e rest :
  button_queue w = mkQueue c (e :: rest) ->
  nav_of (exec handleButtonSimple w) = leaf_step e (nav_of w).
Proof.
  intros Hq. destruct w; cbn in Hq; subst.
  unfold handleButtonSimple, receive_button, skip, exec, leaf_step. wsimpl.
  destruct e; reflexivity.
Qed.

(** (C17) Refinement of the design's navigation function: in the main menu,
    the games menu and the two leaf screens, when the button queue holds
    an event [e] and the selection is a valid item index, the handler that
    [displayTask] calls on that screen moves the navigation globals
    ([display_state], [prev_state], [button_index], [menu_init]) exactly as
    [NavSpec.nav_step e] moves the abstract state. *)
Theorem handlers_refine_nav_spec (w : World) c e rest :
  display_state w ∈ [MENU; GAMES; SYSTEM_DATA; WIFI] ->
  (forall xs, list_targets (display_state w) = Some xs ->
     0 <= button_index w < Z.of_nat (length xs)) ->
  button_queue w = mkQueue c (e :: rest) ->
  nav_of (exec (nav_handler (display_state w)) w) = nav_step e (nav_of w).
Proof.
  intros Hs Hi Hq. unfold nav_step. cbn [nav_of active].
  repeat rewrite elem_of_cons in Hs. rewrite elem_of_nil in Hs.
  destruct Hs as [Hs|[Hs|[Hs|[Hs|[]]]]]; rewrite Hs in *; cbn [nav_handler list_targets is_leaf].
  - specialize (Hi _ eq_refl). rewrite length_fmap in Hi. by apply handleButtonMenu_nav with c rest.
  - specialize (Hi _ eq_refl). rewrite length_fmap in Hi. by apply handleButtonMenu_nav with c rest.
  - by apply handleButtonSimple_nav with c rest.
  - by apply handleButtonSimple_nav with c rest.
Qed.

Example handlers_refine_nav_spec_witness :
  let w := (globals_init (mkSd true [])) {{ display_state := MENU; button_index := 2;
             button_queue := mkQueue 3 [SELECT] }} in
  (display_state w ∈ [MENU; GAMES; SYSTEM_DATA; WIFI] /\
  (forall xs, list_targets (display_state w) = Some xs ->
      0 <= button_index w < Z.of_nat (length xs)) /\
  button_queue w = mkQueue 3 [SELECT]) /\
  nav_of (exec (nav_handler (display_state w)) w) = mkNav CAMERA_FEED MENU 0 false.
Proof.
  cbv zeta. split.
  - split; [cbn; set_solver|]. split; [|reflexivity].
    intros xs Hxs. wsimpl. injection Hxs as <-. simpl. lia.
  - rewrite (handlers_refine_nav_spec _ 3 SELECT []); [reflexivity|cbn; set_solver| |reflexivity].
    intros xs Hxs. wsimpl. injection Hxs as <-. simpl. lia.
Defined.

(** [NONE] and an empty queue are no-ops (spec section 4.1): in the
    list and leaf screens, a [NONE] event only consumes the queue slot, and
    an empty queue changes nothing but the [button_state] global, which the
    handler resets to [NONE] before receiving. *)
Theorem nav_handler_none_noop (s : DisplayState) (w : World) c rest :
  s ∈ [MENU; GAMES; SYSTEM_DATA; WIFI] ->
  (button_queue w = mkQueue c (NONE :: rest) ->
   exec (nav_handler s) w = w {{ button_queue := mkQueue c rest; button_state := NONE }}) /\
  (q_items (button_queue w) = [] ->
   exec (nav_handler s) w = w {{ button_state := NONE }}).
Proof.
  intros Hs. repeat rewrite elem_of_cons in Hs. rewrite elem_of_nil in Hs.
  split; intros Hq;
    destruct w as [? ? ? ? ? ? ? ? ? ? ? ? ? ? ? ? ? ? ? ? [qc qi] ?]; simpl in Hq;
    try injection Hq as -> ->; subst;
    destruct Hs as [->|[->|[->|[->|[]]]]]; unfold nav_handler;
    unfold handleButtonMenu, handleButtonSimple, receive_button, skip, exec;
    wsimpl; reflexivity.
Qed.

Example nav_handler_none_noop_witness :
  let w := (globals_init (mkSd true [])) {{ display_state := MENU;
             button_queue := mkQueue 3 [NONE; UP] }} in
  MENU ∈ [MENU; GAMES; SYSTEM_DATA; WIFI] /\
  exec (nav_handler MENU) w = w {{ button_queue := mkQueue 3 [UP]; button_state := NONE }}.
Proof.
  cbv zeta. split; [set_solver|].
  apply (nav_handler_none_noop MENU _ 3 [UP]); [set_solver|reflexivity].
Defined.

(** The character [handleButtonGame] hands to the game for an event. *)
Definition game_char (e : ButtonState) : ascii :=
  match e with
  | UP => "U" | DOWN => "D" | SELECT => "S" | BACK => "B" | NONE => "N"
  end%char.

(** The games' handler forwards Up, Down and Select verbatim to the
    game ('U', 'D', 'S') without touching the navigation state, and Back
    ('B') returns to the games menu with [prev_state = MENU], a cleared
    [menu_init] and a reset selection (spec section 4.1, game screens). *)
Theorem handleButtonGame_spec (w : World) c e rest :
  button_queue w = mkQueue c (e :: rest) ->
  fst (handleButtonGame w) = game_char e /\
  nav_of (snd (handleButtonGame w)) =
    (if decide (e = BACK) then mkNav GAMES MENU 0 false else nav_of w).
Proof.
  intros Hq. destruct w; simpl in Hq; subst.
  unfold handleButtonGame, receive_button, skip. wsimpl.
  destruct e; split; reflexivity.
Qed.

Example handleButtonGame_spec_witness :
  let w := (globals_init (mkSd true [])) {{ display_state := GAME1;
             button_queue := mkQueue 3 [BACK] }} in
  button_queue w = mkQueue 3 [BACK] /\
  fst (handleButtonGame w) = "B"%char /\ nav_of (snd (handleButtonGame w)) = mkNav GAMES MENU 0 false.
Proof.
  cbv zeta. split; [reflexivity|].
  exact (handleButtonGame_spec ((globals_init (mkSd true [])) {{ display_state := GAME1;
             button_queue := mkQueue 3 [BACK] }}) 3 BACK [] eq_refl).
Defined.
