(* ===== verification/Camera.v ===== *)
(** * Camera subsystem: capture, display, save and teardown

    The camera screen's code is spread over four places, all modelled here
    as operations on the [World]:

    - [camera_setup]: the [if (!camera_init)] block of the [CAMERA_FEED]
      case of [displayTask] (src/tasks.cpp): [esp_camera_init], spawn of
      [frameCaptureTask] and [saveFrameToSDTask], [camera_init = true],
      [save_next_frame = false];
    - [frameCaptureTask_iter]: one iteration of [frameCaptureTask]
      (src/tasks.cpp): get a frame buffer, send it to [frame_display_queue]
      and, when [save_next_frame] is set, to [frame_save_queue];
    - [drawCameraFeed] (src/display.cpp): receive a frame, draw it, and
      give it back unless a save was requested;
    - [saveFrameToSDTask_iter]: one iteration of [saveFrameToSDTask]
      (src/tasks.cpp): receive a frame, write it to a file named after the
      clock ([frame_filename], the [sprintf] format), clear
      [save_next_frame] on success, give the frame back;
    - [handleButtonCamera] (src/button_handlers.cpp): Select sets
      [save_next_frame]; Back deletes both tasks, runs the drain loop
      [while (recv(display) && recv(save)) {}] ([drain_loop]), returns all
      buffers to the driver and deinitialises it.

    A frame buffer is a number handed out by the driver model of
    [Platform.CameraDriver]; the design's requirement is that each one is
    given back exactly once.  The theorems show where the code meets it
    (a frame displayed without a save request is given back once; the
    teardown leaves the driver holding nothing) and the three ways it does
    not: a frame left in the save queue by the drain loop is used and
    given back after the driver reclaimed it; a frame sent to both queues
    is given back twice when the save task clears the flag first; a frame
    displayed while a save is pending but not queued for saving is never
    given back, and five such frames freeze the capture. *)

From S2P Require Import Prelude Queue Platform Globals Navigation.

(** ** The file name of a saved frame *)

Definition digit_char (d : Z) : ascii := ascii_of_nat (48 + Z.to_nat d).

(** Decimal digits of a non-negative number, most significant first. *)
Fixpoint dec_aux (fuel : nat) (n : Z) (acc : string) : string :=
  match fuel with
  | O => acc
  | S f =>
      let acc' := String (digit_char (n mod 10)) acc in
      if n <? 10 then acc' else dec_aux f (n / 10) acc'
  end.

(** Twenty digits are enough for any C [int] (and for 64-bit values). *)
Definition dec_string (n : Z) : string := dec_aux 20 n "".

Fixpoint zeros (k : nat) : string :=
  match k with O => "" | S k' => String "0"%char (zeros k') end.

(** [%0<width>d]: at least [width] characters, zero-padded after the sign. *)
Definition fmt_d (width : nat) (n : Z) : string :=
  if n <? 0
  then let s := dec_string (- n) in String "-"%char (String.append (zeros (width - 1 - String.length s)) s)
  else let s := dec_string n in String.append (zeros (width - String.length s)) s.

(** [sprintf(f, "/%04d-%02d-%02d_%02d-%02d-%02d.raw", t.tm_year + 1900,
    t.tm_mon + 1, t.tm_mday, t.tm_hour, t.tm_min, t.tm_sec)]. *)
Definition frame_filename (tt : tm) : string :=
  String.append "/" (String.append (fmt_d 4 (tm_year tt + 1900))
  (String.append "-" (String.append (fmt_d 2 (tm_mon tt + 1))
  (String.append "-" (String.append (fmt_d 2 (tm_mday tt))
  (String.append "_" (String.append (fmt_d 2 (tm_hour tt))
  (String.append "-" (String.append (fmt_d 2 (tm_min tt))
  (String.append "-" (String.append (fmt_d 2 (tm_sec tt)) ".raw"))))))))))).

(** ** The operations *)

Definition send_display (fb : nat) : ST World unit :=
  st_modify (fun w => w {{ frame_display_queue := snd (xQueueSend (frame_display_queue w) fb) }}).

Definition send_save (fb : nat) : ST World unit :=
  st_modify (fun w => w {{ frame_save_queue := snd (xQueueSend (frame_save_queue w) fb) }}).

Definition frameCaptureTask_iter : ST World unit :=
  w ← st_get;
  let '(fbo, d) := esp_camera_fb_get (cam w) in
  st_put (w {{ cam := d }});;
  match fbo with
  | Some fb =>
      send_display fb;;
      w ← st_get;
      if save_next_frame w then send_save fb else skip
  | None => skip
  end.

Definition drawCameraFeed : ST World unit :=
  w ← st_get;
  match xQueueReceive (frame_display_queue w) with
  | (None, q) => st_put (w {{ frame_display_queue := q }})
  | (Some fb, q) =>
      st_put (w {{ frame_display_queue := q }});;
      fb_use fb;;
      w ← st_get;
      if save_next_frame w then skip else fb_return fb
  end.

Definition saveFrameToSDTask_iter : ST World unit :=
  w ← st_get;
  match xQueueReceive (frame_save_queue w) with
  | (None, q) => st_put (w {{ frame_save_queue := q }})
  | (Some fb, q) =>
      st_put (w {{ frame_save_queue := q }});;
      let f := frame_filename (t w) in
      (if decide (32 <= Z.of_nat (String.length f))
       then log_fault (BufferOverflow (Z.of_nat (String.length f))) else skip);;
      w ← st_get;
      let '(opened, s') := sd_write f (sd w) in
      st_put (w {{ sd := s' }});;
      (if opened
       then fb_use fb;; st_modify (fun w => w {{ save_next_frame := false }})
       else skip);;
      fb_return fb
  end.

(** The one-time setup of the camera screen; [init_ok] is the outcome of
    [esp_camera_init] (a failure is only logged by the code). *)
Definition camera_setup (init_ok : bool) : ST World unit :=
  w ← st_get;
  let '(_, d) := esp_camera_init init_ok (cam w) in
  let '(h1, r1) := xTaskCreatePinnedToCore frameCaptureTaskFn (rtos w) in
  let '(h2, r2) := xTaskCreatePinnedToCore saveFrameToSDTaskFn r1 in
  st_put (w {{ cam := d; rtos := r2; frameCaptureTask_handle := Some h1;
               saveFrameToSDTask_handle := Some h2;
               camera_init := true; save_next_frame := false }}).

(** [while (xQueueReceive(frame_display_queue, &fb, 0) == pdTRUE &&
            xQueueReceive(frame_save_queue, &fb, 0) == pdTRUE) {}]
    on fuel; [handleButtonCamera] gives it one more than the number of
    frames in the display queue, which [drain_loop_exec] shows is enough. *)
Fixpoint drain_loop (fuel : nat) : ST World unit :=
  match fuel with
  | O => skip
  | S f =>
      w ← st_get;
      match xQueueReceive (frame_display_queue w) with
      | (None, q) => st_put (w {{ frame_display_queue := q }})
      | (Some _, q) =>
          st_put (w {{ frame_display_queue := q }});;
          w ← st_get;
          match xQueueReceive (frame_save_queue w) with
          | (None, q') => st_put (w {{ frame_save_queue := q' }})
          | (Some _, q') => st_put (w {{ frame_save_queue := q' }});; drain_loop f
          end
      end
  end.

(** [self] is the handle of the calling (display) task: [vTaskDelete(NULL)]
    would delete it. *)
Definition handleButtonCamera (self : nat) : ST World unit :=
  ok ← receive_button;
  if negb ok then skip else
  w ← st_get;
  match button_state w with
  | SELECT => st_put (w {{ save_next_frame := true }})
  | BACK =>
      st_put (w {{ display_state := MENU;
                   rtos := vTaskDelete (frameCaptureTask_handle w) self (rtos w);
                   frameCaptureTask_handle := None }});;
      st_modify (fun w => w {{ rtos := vTaskDelete (saveFrameToSDTask_handle w) self (rtos w);
                               saveFrameToSDTask_handle := None }});;
      w ← st_get;
      drain_loop (S (length (q_items (frame_display_queue w))));;
      st_modify (fun w => w {{ cam := esp_camera_deinit (esp_camera_return_all (cam w));
                               camera_init := false; menu_init := false;
                               save_next_frame := false; button_index := 0 }})
  | _ => skip
  end.

(** ** The drain loop *)

(** What the drain loop leaves in the display and save queues: it stops at
    the first failed receive, so when the display queue runs dry first the
    save queue keeps its remaining frames. *)
Definition drain_result (D Sv : list nat) : list nat * list nat :=
  if decide (length D <= length Sv)%nat then ([], drop (length D) Sv)
  else (drop (S (length Sv)) D, []).

Lemma drain_result_cons x D y Sv :
  drain_result (x :: D) (y :: Sv) = drain_result D Sv.
Proof. unfold drain_result. simpl. repeat case_decide; try lia; reflexivity. Qed.

(** The drain loop's run, given more fuel than the display queue has
    frames. *)
Lemma drain_loop_exec (fuel : nat) (w : World) :
  (length (q_items (frame_display_queue w)) < fuel)%nat ->
  exec (drain_loop fuel) w =
    w {{ frame_display_queue := mkQueue (q_cap (frame_display_queue w))
           (drain_result (q_items (frame_display_queue w)) (q_items (frame_save_queue w))).1;
         frame_save_queue := mkQueue (q_cap (frame_save_queue w))
           (drain_result (q_items (frame_display_queue w)) (q_items (frame_save_queue w))).2 }}.
Proof.
  revert w. induction fuel as [|fuel IH]; intros w Hlt; [simpl in Hlt; lia|].
  destruct w as [? ? ? ? ? ? ? ? ? ? ? ? ? ? ? ? ? ? [cd D] [cs Sv] ?]. simpl in Hlt.
  destruct D as [|x D]; [reflexivity|].
  destruct Sv as [|y Sv].
  - simpl drain_loop. unfold exec, drain_result. wsimpl. reflexivity.
  - simpl drain_loop. unfold exec in *. wsimpl. rewrite IH by (simpl; lia).
    wsimpl. by rewrite drain_result_cons.
Qed.

(** (C18) Termination of the drain loop: with more fuel than the display
    queue has frames (the fuel [handleButtonCamera] gives), the loop stops
    through its own condition, so one more unit of fuel changes nothing,
    and it leaves exactly [drain_result] in the two frame queues. *)
Theorem drain_loop_spec (fuel : nat) (w : World) :
  (length (q_items (frame_display_queue w)) < fuel)%nat ->
  exec (drain_loop (S fuel)) w = exec (drain_loop fuel) w /\
  q_items (frame_display_queue (exec (drain_loop fuel) w)) =
    (drain_result (q_items (frame_display_queue w)) (q_items (frame_save_queue w))).1 /\
  q_items (frame_save_queue (exec (drain_loop fuel) w)) =
    (drain_result (q_items (frame_display_queue w)) (q_items (frame_save_queue w))).2.
Proof.
  intros Hlt. rewrite !drain_loop_exec by lia. by repeat split.
Qed.

Example drain_loop_spec_witness :
  let w := (globals_init (mkSd true [])) {{ frame_display_queue := mkQueue 1 [];
             frame_save_queue := mkQueue 1 [7%nat] }} in
  (length (q_items (frame_display_queue w)) < 1)%nat /\
  q_items (frame_save_queue (exec (drain_loop 1) w)) = [7%nat].
Proof.
  cbv zeta. split; [simpl; lia|].
  apply (drain_loop_spec 1). simpl; lia.
Defined.

(** ** Teardown *)

Local Opaque drain_loop.

(** The effect of Back on the camera screen, as one record update. *)
Lemma handleButtonCamera_back (self : nat) (w : World) c rest :
  button_queue w = mkQueue c (BACK :: rest) ->
  exec (handleButtonCamera self) w =
    w {{ button_queue := mkQueue c rest; button_state := BACK; display_state := MENU;
         rtos := vTaskDelete (saveFrameToSDTask_handle w) self
                   (vTaskDelete (frameCaptureTask_handle w) self (rtos w));
         frameCaptureTask_handle := None; saveFrameToSDTask_handle := None;
         frame_display_queue := mkQueue (q_cap (frame_display_queue w))
           (drain_result (q_items (frame_display_queue w)) (q_items (frame_save_queue w))).1;
         frame_save_queue := mkQueue (q_cap (frame_save_queue w))
           (drain_result (q_items (frame_display_queue w)) (q_items (frame_save_queue w))).2;
         cam := esp_camera_deinit (esp_camera_return_all (cam w));
         camera_init := false; menu_init := false; save_next_frame := false; button_index := 0 }}.
Proof.
  intros Hq. destruct w as [? ? ? ? ? ? ? ? ? ? ? ? ? ? ? ? ? ? [cd D] [cs Sv] [bc bi] ?].
  simpl in Hq. injection Hq as -> ->.
  unfold handleButtonCamera, receive_button, skip. unfold exec at 1. wsimpl.
  rewrite (st_unit_run (drain_loop _)), drain_loop_exec by (simpl; lia). reflexivity.
Qed.

(** (C4) The camera teardown protocol (spec section 4.2): on Back,
    [handleButtonCamera] returns to the menu, clears [camera_init],
    [menu_init] and [save_next_frame], deletes the capture and save tasks
    and clears their handles, empties the display queue, leaves in the
    save queue what the drain loop did not take ([drain_result]), and
    leaves the driver off and holding no frame, every frame it held having
    been given back. *)
Theorem camera_teardown (self : nat) (w : World) c rest :
  button_queue w = mkQueue c (BACK :: rest) ->
  q_wf (frame_display_queue w) -> q_cap (frame_display_queue w) = FRAME_DISPLAY_QUEUE_SIZE ->
  let w' := exec (handleButtonCamera self) w in
  display_state w' = MENU /\ camera_init w' = false /\ menu_init w' = false /\
  save_next_frame w' = false /\
  frameCaptureTask_handle w' = None /\ saveFrameToSDTask_handle w' = None /\
  (forall h, frameCaptureTask_handle w = Some h -> ~ task_alive h (rtos w')) /\
  (forall h, saveFrameToSDTask_handle w = Some h -> ~ task_alive h (rtos w')) /\
  q_items (frame_display_queue w') = [] /\
  q_items (frame_save_queue w') =
    (drain_result (q_items (frame_display_queue w)) (q_items (frame_save_queue w))).2 /\
  cam_on (cam w') = false /\ cam_held (cam w') = [] /\
  (forall f, f ∈ cam_held (cam w) -> f ∈ cam_returned (cam w')).
Proof.
  intros Hq Hwf Hcap w'. subst w'. rewrite (handleButtonCamera_back self w c rest Hq).
  destruct w as [? ? ? ? ? ? ? ? ? ? ? ? ? ? ? ? ? ? [cd D] [cs Sv] ? ?];
    simpl in Hwf, Hcap; unfold q_wf in Hwf; simpl in Hwf; subst cd. wsimpl.
  assert (HD : (drain_result D Sv).1 = []).
  { unfold drain_result. case_decide; [done|]. apply drop_ge. unfold FRAME_DISPLAY_QUEUE_SIZE in Hwf. lia. }
  rewrite HD. repeat split; try done.
  - intros h ->. rewrite !task_alive_vTaskDelete. simpl. tauto.
  - intros h ->. rewrite !task_alive_vTaskDelete. simpl. tauto.
  - intros f Hf. rewrite !elem_of_app. tauto.
Qed.

Example camera_teardown_witness :
  let w := (exec (camera_setup true) ((globals_init (mkSd true [])) {{ display_state := CAMERA_FEED }}))
             {{ button_queue := mkQueue 3 [BACK] }} in
  (button_queue w = mkQueue 3 [BACK] /\ q_wf (frame_display_queue w) /\
   q_cap (frame_display_queue w) = FRAME_DISPLAY_QUEUE_SIZE) /\
  cam_held (cam (exec (handleButtonCamera 0) w)) = [].
Proof.
  cbv zeta. split; [split; [reflexivity|split; [unfold q_wf; simpl; lia|reflexivity]]|].
  match goal with
  | |- cam_held (cam (exec _ ?w)) = _ =>
      destruct (camera_teardown 0 w 3 [] eq_refl) as (_&_&_&_&_&_&_&_&_&_&_&Hheld&_);
      [unfold q_wf; simpl; lia|reflexivity|exact Hheld]
  end.
Defined.

Local Transparent drain_loop.

(** ** The behaviour of capture, display and save, one branch at a time *)

Lemma capture_frame (w : World) :
  cam_on (cam w) = true -> (length (cam_held (cam w)) < fb_count)%nat ->
  exec frameCaptureTask_iter w =
    let fb := cam_next (cam w) in
    let w1 := w {{ cam := mkCam true (S fb) (cam_held (cam w) ++ [fb]) (cam_returned (cam w));
                   frame_display_queue := snd (xQueueSend (frame_display_queue w) fb) }} in
    if save_next_frame w then w1 {{ frame_save_queue := snd (xQueueSend (frame_save_queue w) fb) }}
    else w1.
Proof.
  intros Hon Hlen. destruct w; simpl in *. destruct cam as [on nx held ret]; simpl in *. subst on.
  unfold frameCaptureTask_iter, exec, esp_camera_fb_get. wsimpl.
  rewrite bool_decide_eq_true_2 by done.
  unfold send_display, send_save, skip. wsimpl. by destruct save_next_frame.
Qed.

Lemma capture_no_frame (w : World) :
  length (cam_held (cam w)) = fb_count -> exec frameCaptureTask_iter w = w.
Proof.
  intros Hlen. destruct w; simpl in *. destruct cam as [on nx held ret]; simpl in *.
  unfold frameCaptureTask_iter, exec, esp_camera_fb_get. wsimpl.
  rewrite Hlen, bool_decide_eq_false_2 by lia. rewrite andb_false_r.
  unfold skip. wsimpl. reflexivity.
Qed.

Lemma draw_frame (w : World) fb r :
  q_items (frame_display_queue w) = fb :: r -> fb ∈ cam_held (cam w) ->
  exec drawCameraFeed w =
    let w1 := w {{ frame_display_queue := mkQueue (q_cap (frame_display_queue w)) r }} in
    if save_next_frame w then w1 else exec (fb_return fb) w1.
Proof.
  intros Hq Hheld. destruct w; simpl in *. destruct frame_display_queue as [c its]; simpl in *.
  subst its. unfold drawCameraFeed, exec, fb_use, skip. wsimpl.
  rewrite decide_True by done. wsimpl. by destruct save_next_frame.
Qed.

(** A frame freshly captured is not among the frames held before. *)
Lemma fresh_not_held (d : cam_driver) : cam_wf d -> cam_next d ∉ cam_held d.
Proof.
  intros (_ & Hlt & _) Hin. rewrite Forall_forall in Hlt. specialize (Hlt _ Hin). lia.
Qed.

(** (C19) Without a save request, every frame is given back exactly once:
    when [save_next_frame] is clear and the display queue is empty, a
    capture followed by a display tick leaves the driver holding the same
    frames as before, logs the new frame as given back once, and meets no
    undefined behaviour. *)
Theorem capture_draw_balanced (w : World) :
  cam_wf (cam w) -> cam_on (cam w) = true -> (length (cam_held (cam w)) < fb_count)%nat ->
  save_next_frame w = false ->
  q_items (frame_display_queue w) = [] -> q_cap (frame_display_queue w) = FRAME_DISPLAY_QUEUE_SIZE ->
  let w' := exec (frameCaptureTask_iter;; drawCameraFeed) w in
  cam_held (cam w') = cam_held (cam w) /\
  cam_returned (cam w') = cam_returned (cam w) ++ [cam_next (cam w)] /\
  faults w' = faults w.
Proof.
  intros Hwf Hon Hlen Hsave Hq Hcap w'. subst w'.
  rewrite exec_bind, capture_frame by done. cbv zeta. rewrite Hsave.
  rewrite (xQueueSend_room (frame_display_queue w)) by (rewrite Hq, Hcap; cbv; lia).
  rewrite draw_frame with (fb := cam_next (cam w)) (r := []).
  - cbv zeta.
    match goal with |- context [if save_next_frame ?x then _ else _] =>
      replace (save_next_frame x) with false by (wnorm; congruence) end.
    rewrite exec_fb_return_held by (wnorm; set_solver). wnorm.
    rewrite remove_first_app_notin by (by apply fresh_not_held). done.
  - wnorm. by rewrite Hq.
  - wnorm. set_solver.
Qed.

Ltac concrete_side := unfold cam_wf, q_wf in *; repeat split; vm_compute;
  try reflexivity; repeat constructor; try apply not_elem_of_nil; try lia.

Example capture_draw_balanced_witness :
  let w := exec (camera_setup true) ((globals_init (mkSd true [])) {{ display_state := CAMERA_FEED }}) in
  (cam_wf (cam w) /\ cam_on (cam w) = true /\ (length (cam_held (cam w)) < fb_count)%nat /\
   save_next_frame w = false /\ q_items (frame_display_queue w) = [] /\
   q_cap (frame_display_queue w) = FRAME_DISPLAY_QUEUE_SIZE) /\
  cam_held (cam (exec (frameCaptureTask_iter;; drawCameraFeed) w)) = [].
Proof.
  cbv zeta. split; [concrete_side|].
  match goal with
  | |- cam_held (cam (exec _ ?w)) = _ =>
      destruct (capture_draw_balanced w) as [Hh _]; [..|exact Hh]
  end; concrete_side.
Defined.

(** A frame's file name is a root path, so the write succeeds on a mounted card. *)
Lemma sd_write_frame_filename tt root :
  sd_write (frame_filename tt) (mkSd true root) =
    (true, snd (sd_write (frame_filename tt) (mkSd true root))).
Proof. reflexivity. Qed.

Local Opaque frame_filename.

(** The save task on a frame the driver still holds, the card mounted. *)
Lemma save_frame (w : World) fb r :
  q_items (frame_save_queue w) = fb :: r -> fb ∈ cam_held (cam w) -> sd_mounted (sd w) = true ->
  exec saveFrameToSDTask_iter w =
    let f := frame_filename (t w) in
    w {{ frame_save_queue := mkQueue (q_cap (frame_save_queue w)) r;
         sd := snd (sd_write f (sd w));
         save_next_frame := false;
         cam := mkCam (cam_on (cam w)) (cam_next (cam w)) (remove_first fb (cam_held (cam w)))
                      (cam_returned (cam w) ++ [fb]);
         faults := faults w ++ (if decide (32 <= Z.of_nat (String.length f))
                                then [BufferOverflow (Z.of_nat (String.length f))] else []) }}.
Proof.
  intros Hq Hheld Hm. destruct w; simpl in *. destruct frame_save_queue as [c its]; simpl in *.
  subst its. destruct sd as [m root]; simpl in *. subst m.
  unfold saveFrameToSDTask_iter, exec, fb_use, fb_return, log_fault, skip.
  wsimpl. case_decide; wsimpl; rewrite sd_write_frame_filename; wsimpl;
    rewrite decide_True by done; wsimpl; unfold esp_camera_fb_return;
    rewrite decide_True by done; simpl; by rewrite ?app_nil_r.
Qed.

Lemma draw_frame_stale (w : World) fb r :
  q_items (frame_display_queue w) = fb :: r -> fb ∉ cam_held (cam w) ->
  exec drawCameraFeed w =
    let w1 := w {{ frame_display_queue := mkQueue (q_cap (frame_display_queue w)) r;
                   faults := faults w ++ [StaleFrameUse fb] }} in
    if save_next_frame w then w1 else exec (fb_return fb) w1.
Proof.
  intros Hq Hheld. destruct w; simpl in *. destruct frame_display_queue as [c its]; simpl in *.
  subst its. unfold drawCameraFeed, exec, fb_use, log_fault, skip. wsimpl.
  rewrite decide_False by done. wsimpl. by destruct save_next_frame.
Qed.

(** Decide an [if] on a boolean global from the hypotheses. *)
Ltac resolve_if :=
  match goal with
  | |- context [if ?b then _ else _] =>
      first [ replace b with true by (wnorm; congruence)
            | replace b with false by (wnorm; congruence) ]
  end.

(** (C2) Defect: a frame queued for saving is given back twice.  With
    [save_next_frame] set and both frame queues empty, a capture sends the
    same frame to both queues; if the save task runs before the next
    display tick (it has the lower priority, but the display task sleeps
    10 ms between ticks), it writes the file, clears the flag and gives the
    frame back; the display tick then sees the flag clear, reads the
    buffer and gives it back a second time. *)
Theorem save_then_draw_returns_twice (w : World) :
  cam_wf (cam w) -> cam_on (cam w) = true -> (length (cam_held (cam w)) < fb_count)%nat ->
  save_next_frame w = true -> sd_mounted (sd w) = true ->
  q_items (frame_display_queue w) = [] -> q_cap (frame_display_queue w) = FRAME_DISPLAY_QUEUE_SIZE ->
  q_items (frame_save_queue w) = [] -> q_cap (frame_save_queue w) = FRAME_SAVE_QUEUE_SIZE ->
  let fb := cam_next (cam w) in
  let w' := exec (frameCaptureTask_iter;; saveFrameToSDTask_iter;; drawCameraFeed) w in
  cam_returned (cam w') = cam_returned (cam w) ++ [fb; fb] /\
  StaleFrameUse fb ∈ faults w' /\ BadFrameReturn fb ∈ faults w'.
Proof.
  intros Hwf Hon Hlen Hsave Hm Hd Hdc Hs Hsc fb w'. subst fb w'.
  rewrite !exec_bind, capture_frame by done. cbv zeta. rewrite Hsave.
  rewrite (xQueueSend_room (frame_display_queue w)) by (rewrite Hd, Hdc; cbv; lia).
  rewrite (xQueueSend_room (frame_save_queue w)) by (rewrite Hs, Hsc; cbv; lia).
  cbn [fst snd].
  rewrite save_frame with (fb := cam_next (cam w)) (r := []) by (wnorm; rewrite ?Hs, ?Hm; set_solver).
  rewrite draw_frame_stale with (fb := cam_next (cam w)) (r := []).
  - cbv zeta. resolve_if.
    rewrite exec_fb_return_not_held.
    + wnorm. rewrite <- !app_assoc. split; [done|]. split; set_solver.
    + wnorm. rewrite remove_first_app_notin by (by apply fresh_not_held). by apply fresh_not_held.
  - wnorm. by rewrite Hd.
  - wnorm. rewrite remove_first_app_notin by (by apply fresh_not_held). by apply fresh_not_held.
Qed.

Example save_then_draw_returns_twice_witness :
  let w := (exec (camera_setup true) ((globals_init (mkSd true [])) {{ display_state := CAMERA_FEED }}))
             {{ save_next_frame := true }} in
  (cam_wf (cam w) /\ cam_on (cam w) = true /\ (length (cam_held (cam w)) < fb_count)%nat /\
   save_next_frame w = true /\ sd_mounted (sd w) = true /\
   q_items (frame_display_queue w) = [] /\ q_cap (frame_display_queue w) = FRAME_DISPLAY_QUEUE_SIZE /\
   q_items (frame_save_queue w) = [] /\ q_cap (frame_save_queue w) = FRAME_SAVE_QUEUE_SIZE) /\
  BadFrameReturn 0 ∈ faults (exec (frameCaptureTask_iter;; saveFrameToSDTask_iter;; drawCameraFeed) w).
Proof.
  cbv zeta. split; [concrete_side|].
  match goal with
  | |- _ ∈ faults (exec _ ?w) =>
      destruct (save_then_draw_returns_twice w) as (_ & _ & Hb); [..|exact Hb]
  end; concrete_side.
Defined.

Lemma save_frame_stale (w : World) fb r :
  q_items (frame_save_queue w) = fb :: r -> fb ∉ cam_held (cam w) -> sd_mounted (sd w) = true ->
  let w' := exec saveFrameToSDTask_iter w in
  StaleFrameUse fb ∈ faults w' /\ BadFrameReturn fb ∈ faults w' /\
  q_items (frame_save_queue w') = r /\ cam_held (cam w') = cam_held (cam w).
Proof.
  intros Hq Hheld Hm w'. subst w'. destruct w; simpl in *.
  destruct frame_save_queue as [c its]; simpl in *. subst its.
  destruct sd as [m root]; simpl in *. subst m.
  unfold saveFrameToSDTask_iter, exec, fb_use, fb_return, log_fault, skip.
  wsimpl. case_decide; wsimpl; rewrite sd_write_frame_filename; wsimpl;
    rewrite decide_False by done; wsimpl; unfold esp_camera_fb_return;
    rewrite decide_False by done; simpl; repeat split; set_solver.
Qed.

(** The camera setup leaves the frame queues alone. *)
Lemma camera_setup_queues (ok : bool) (w : World) :
  frame_save_queue (exec (camera_setup ok) w) = frame_save_queue w /\
  frame_display_queue (exec (camera_setup ok) w) = frame_display_queue w /\
  cam_held (cam (exec (camera_setup ok) w)) = (if ok then [] else cam_held (cam w)) /\
  sd (exec (camera_setup ok) w) = sd w.
Proof. unfold camera_setup, exec. wsimpl. by destruct ok. Qed.

Local Opaque drain_loop.

(** (C1) Defect: the drain loop [while (recv(display) && recv(save))]
    stops as soon as the display queue is empty, so a frame waiting in the
    save queue survives the teardown although [esp_camera_return_all] and
    [esp_camera_deinit] reclaim it.  When the camera screen is entered
    again, the new save task receives that stale pointer, writes its freed
    buffer to the card and gives it back to the driver a second time. *)
Theorem teardown_strands_save_frame (self : nat) (ok : bool) (w : World) c rest fb :
  button_queue w = mkQueue c (BACK :: rest) ->
  q_wf (frame_display_queue w) -> q_cap (frame_display_queue w) = FRAME_DISPLAY_QUEUE_SIZE ->
  q_items (frame_display_queue w) = [] -> q_items (frame_save_queue w) = [fb] ->
  fb ∈ cam_held (cam w) -> sd_mounted (sd w) = true ->
  let w1 := exec (handleButtonCamera self) w in
  let w2 := exec (camera_setup ok;; saveFrameToSDTask_iter) w1 in
  q_items (frame_save_queue w1) = [fb] /\ (fb ∉ cam_held (cam w1)) /\ fb ∈ cam_returned (cam w1) /\
  StaleFrameUse fb ∈ faults w2 /\ BadFrameReturn fb ∈ faults w2.
Proof.
  intros Hb Hwf Hcap Hd Hs Hheld Hm w1 w2.
  assert (Hw1 := handleButtonCamera_back self w c rest Hb). fold w1 in Hw1.
  assert (Hs1 : q_items (frame_save_queue w1) = [fb]) by (rewrite Hw1; wnorm; by rewrite Hd, Hs).
  assert (Hheld1 : cam_held (cam w1) = []) by (rewrite Hw1; reflexivity).
  assert (Hret1 : fb ∈ cam_returned (cam w1)) by (rewrite Hw1; wnorm; set_solver).
  assert (Hsd1 : sd w1 = sd w) by (rewrite Hw1; reflexivity).
  split; [done|]. rewrite Hheld1. split; [set_solver|]. split; [done|].
  subst w2. rewrite exec_bind.
  destruct (camera_setup_queues ok w1) as (Hq2 & _ & Hh2 & Hsd2).
  destruct (save_frame_stale (exec (camera_setup ok) w1) fb []) as (H1 & H2 & _).
  - by rewrite Hq2.
  - rewrite Hh2, Hheld1. destruct ok; set_solver.
  - by rewrite Hsd2, Hsd1.
  - done.
Qed.

Local Transparent drain_loop.

(** The situation arises on the camera screen's ordinary path: Select
    (save requested), one capture (the frame goes to both queues), one
    display tick (the frame leaves the display queue and is kept for the
    save), then Back before the save task has run. *)
Definition stranded_frame_world : World :=
  let w1 := exec (camera_setup true) ((globals_init (mkSd true [])) {{ display_state := CAMERA_FEED }}) in
  let w2 := exec (handleButtonCamera 0) (w1 {{ button_queue := mkQueue 3 [SELECT] }}) in
  let w4 := exec drawCameraFeed (exec frameCaptureTask_iter w2) in
  w4 {{ button_queue := mkQueue 3 [BACK] }}.

Example teardown_strands_save_frame_witness :
  let w := stranded_frame_world in
  (button_queue w = mkQueue 3 [BACK] /\ q_wf (frame_display_queue w) /\
   q_cap (frame_display_queue w) = FRAME_DISPLAY_QUEUE_SIZE /\
   q_items (frame_display_queue w) = [] /\ q_items (frame_save_queue w) = [0%nat] /\
   0%nat ∈ cam_held (cam w) /\ sd_mounted (sd w) = true) /\
  BadFrameReturn 0 ∈ faults (exec (camera_setup true;; saveFrameToSDTask_iter)
                               (exec (handleButtonCamera 0) w)).
Proof.
  cbv zeta. split; [concrete_side; vm_compute; set_solver|].
  destruct (teardown_strands_save_frame 0 true stranded_frame_world 3 [] 0)
    as (_&_&_&_&Hb); [..|exact Hb]; concrete_side; vm_compute; set_solver.
Defined.

(** One capture and one display tick while a save is pending and the
    save queue is already full: the new frame is displayed, kept for a
    save that will never receive it, and stays held by the application. *)
Lemma capture_draw_pending (w : World) g :
  cam_wf (cam w) -> cam_on (cam w) = true -> (length (cam_held (cam w)) < fb_count)%nat ->
  save_next_frame w = true ->
  frame_save_queue w = mkQueue FRAME_SAVE_QUEUE_SIZE [g] ->
  frame_display_queue w = mkQueue FRAME_DISPLAY_QUEUE_SIZE [] ->
  exec (frameCaptureTask_iter;; drawCameraFeed) w =
    w {{ cam := mkCam true (S (cam_next (cam w))) (cam_held (cam w) ++ [cam_next (cam w)])
                      (cam_returned (cam w)) }}.
Proof.
  intros Hwf Hon Hlen Hsave Hs Hd. pose proof (fresh_not_held _ Hwf) as Hfresh.
  destruct w; simpl in *; subst. destruct cam as [on nx held ret]; simpl in *; subst on.
  unfold exec. rewrite st_run_bind. fold (exec frameCaptureTask_iter).
  unfold frameCaptureTask_iter, exec, esp_camera_fb_get. wsimpl.
  rewrite bool_decide_eq_true_2 by done.
  unfold send_display, send_save, drawCameraFeed, fb_use, skip. wsimpl.
  rewrite decide_True by set_solver. reflexivity.
Qed.

(** (C3) Defect: frames leak while a save is pending.  While
    [save_next_frame] is set and the save queue already holds a frame
    (the save task sleeps 200 ms between frames, the capture runs every
    33 ms), every frame captured and displayed is neither given back by
    the display (a save is pending) nor queued for saving (the queue is
    full): after [k] such rounds the driver holds [k] more frames, none of
    them in any queue.  Once all [fb_count] buffers are held, the capture
    task gets no frame any more: the camera feed freezes until Back. *)
Theorem pending_save_exhausts_pool (w : World) g (k : nat) :
  cam_wf (cam w) -> cam_on (cam w) = true -> save_next_frame w = true ->
  frame_save_queue w = mkQueue FRAME_SAVE_QUEUE_SIZE [g] ->
  frame_display_queue w = mkQueue FRAME_DISPLAY_QUEUE_SIZE [] ->
  (length (cam_held (cam w)) + k <= fb_count)%nat ->
  let w' := Nat.iter k (exec (frameCaptureTask_iter;; drawCameraFeed)) w in
  cam_held (cam w') = cam_held (cam w) ++ seq (cam_next (cam w)) k /\
  frame_save_queue w' = mkQueue FRAME_SAVE_QUEUE_SIZE [g] /\
  frame_display_queue w' = mkQueue FRAME_DISPLAY_QUEUE_SIZE [] /\
  ((length (cam_held (cam w)) + k = fb_count)%nat -> exec frameCaptureTask_iter w' = w').
Proof.
  intros Hwf Hon Hsave Hs Hd Hk w'. subst w'.
  assert (Hinv : cam_wf (cam (Nat.iter k (exec (frameCaptureTask_iter;; drawCameraFeed)) w)) /\
    cam_on (cam (Nat.iter k (exec (frameCaptureTask_iter;; drawCameraFeed)) w)) = true /\
    cam_next (cam (Nat.iter k (exec (frameCaptureTask_iter;; drawCameraFeed)) w)) = (cam_next (cam w) + k)%nat /\
    save_next_frame (Nat.iter k (exec (frameCaptureTask_iter;; drawCameraFeed)) w) = true /\
    cam_held (cam (Nat.iter k (exec (frameCaptureTask_iter;; drawCameraFeed)) w)) =
      cam_held (cam w) ++ seq (cam_next (cam w)) k /\
    frame_save_queue (Nat.iter k (exec (frameCaptureTask_iter;; drawCameraFeed)) w) =
      mkQueue FRAME_SAVE_QUEUE_SIZE [g] /\
    frame_display_queue (Nat.iter k (exec (frameCaptureTask_iter;; drawCameraFeed)) w) =
      mkQueue FRAME_DISPLAY_QUEUE_SIZE []).
  { induction k as [|k IH]; simpl Nat.iter.
    - rewrite Nat.add_0_r, app_nil_r. done.
    - destruct IH as (Hwf' & Hon' & Hnx & Hsv & Hh & Hs' & Hd'); [lia|].
      assert (Hlen : (length (cam_held (cam (Nat.iter k (exec (frameCaptureTask_iter;; drawCameraFeed)) w)))
                      < fb_count)%nat) by (rewrite Hh, length_app, length_seq; lia).
      rewrite capture_draw_pending with (g := g) by done.
      pose proof (esp_camera_fb_get_wf _ Hwf') as Hwf2. rewrite fb_get_some in Hwf2 by done.
      wnorm. rewrite Hh, Hnx in Hwf2. rewrite Hh, Hnx, cons_seq, seq_S, app_assoc. split; [exact Hwf2|repeat split; try done; lia]. }
  destruct Hinv as (Hwf' & Hon' & Hnx & Hsv & Hh & Hs' & Hd').
  repeat split; try done.
  intros Hfull. apply capture_no_frame. rewrite Hh, length_app, length_seq. lia.
Qed.

Example pending_save_exhausts_pool_witness :
  let w := exec frameCaptureTask_iter
             ((exec (camera_setup true) ((globals_init (mkSd true [])) {{ display_state := CAMERA_FEED }}))
                {{ save_next_frame := true }}) in
  (cam_wf (cam (exec drawCameraFeed w)) /\ cam_on (cam (exec drawCameraFeed w)) = true /\
   save_next_frame (exec drawCameraFeed w) = true /\
   frame_save_queue (exec drawCameraFeed w) = mkQueue FRAME_SAVE_QUEUE_SIZE [0%nat] /\
   frame_display_queue (exec drawCameraFeed w) = mkQueue FRAME_DISPLAY_QUEUE_SIZE [] /\
   (length (cam_held (cam (exec drawCameraFeed w))) + 4 <= fb_count)%nat) /\
  exec frameCaptureTask_iter (Nat.iter 4 (exec (frameCaptureTask_iter;; drawCameraFeed)) (exec drawCameraFeed w))
    = Nat.iter 4 (exec (frameCaptureTask_iter;; drawCameraFeed)) (exec drawCameraFeed w).
Proof.
  cbv zeta. split; [concrete_side|].
  match goal with
  | |- exec _ (Nat.iter _ _ ?w) = _ => pose proof (pending_save_exhausts_pool w 0%nat 4%nat) as H
  end.
  cbv zeta in H. destruct H as (_ & _ & _ & Hfz); [concrete_side..|apply Hfz; concrete_side].
Defined.
