(* ===== verification/FileBrowser.v ===== *)
(** * File browser: the SD-card screen and the delete worker

    The SD-card screen's code, modelled as operations on the [World]:

    - [loadFileNames] (src/helpers.cpp): clear [filenames] and
      [num_files], then list the root directory of the card and keep
      ["/" + name] for every entry but ["/System Volume Information"];
    - [sd_setup]: the [if (!menu_init)] block of the [SD_CARD] case of
      [displayTask] (src/tasks.cpp): spawn [deleteFromSDTask], load the file
      names, set [menu_init];
    - [drawFiles] (src/display.cpp): move the viewport [start .. end] (static
      locals of the function, fields [files_start], [files_end] of the
      world) after the selection and read the ten names of the window;
    - [drawImageViewer] (src/display.cpp): read the selected name once per
      entry in the viewer;
    - [handleButtonFiles] (src/button_handlers.cpp): list mode (Up/Down move
      the selection, Select opens the viewer, Back leaves the screen, then
      the clamp) and viewer mode (Select sends the name, cut to 31
      characters by [strncpy], to [file_delete_queue]; Back returns to the
      list);
    - [deleteFromSDTask_iter]: one iteration of [deleteFromSDTask]
      (src/tasks.cpp): receive a name, remove the file, reload the names
      when the removal succeeded.

    Reading [filenames[i]] out of range is undefined behaviour, logged as
    [OobFilenames i] by [vec_at]. *)

From S2P Require Import Prelude Queue Platform Globals Navigation.

(** ** [loadFileNames] *)

(** The filter of the loop body: [name != "" && name != "/System Volume
    Information"], on [name = "/" + file.name()]. *)
Definition keep_name (name : string) : bool :=
  bool_decide (name <> "") && bool_decide (name <> "/System Volume Information").

(** The [while (file)] loop over the entries of the root directory. *)
Fixpoint load_loop (entries : list string) : ST World unit :=
  match entries with
  | [] => skip
  | e :: rest =>
      let name := sd_path e in
      (if keep_name name
       then st_modify (fun w => w {{ filenames := filenames w ++ [name]; num_files := num_files w + 1 }})
       else skip);;
      load_loop rest
  end.

Definition loadFileNames : ST World unit :=
  st_modify (fun w => w {{ num_files := 0; filenames := [] }});;
  w ← st_get;
  match sd_list_root (sd w) with
  | None => skip
  | Some entries => load_loop entries
  end.

(** The names [loadFileNames] keeps, in directory order. *)
Definition listed_names (s : sdcard) : list string :=
  match sd_list_root s with
  | None => []
  | Some entries => filter (fun n => keep_name n = true) (sd_path <$> entries)
  end.

(** ** Setup of the screen *)

Definition sd_setup : ST World unit :=
  w ← st_get;
  let '(h, r) := xTaskCreatePinnedToCore deleteFromSDTaskFn (rtos w) in
  st_put (w {{ rtos := r; deleteFromSDTask_handle := Some h }});;
  loadFileNames;;
  st_modify (fun w => w {{ menu_init := true }}).

(** ** [drawFiles] *)

Definition max_files : Z := 10.

(** The viewport update of [drawFiles], on [(start, end)]. *)
Definition viewport (fi nf start end_ : Z) : Z * Z :=
  let '(s1, e1) :=
    if fi >? end_ then (start + 1, end_ + 1)
    else if fi <? start then (start - 1, end_ - 1)
    else (start, end_) in
  let s2 := if s1 <? 0 then 0 else s1 in
  let e2 := if e1 >? nf then nf - 1 else e1 in
  let e3 := if negb (e2 =? s2 + max_files - 1) then s2 + max_files - 1 else e2 in
  (s2, e3).

(** [for (int i = start; i <= end; i++) { String filename = filenames[i]; ... }]:
    [n] rows from [i]. *)
Fixpoint draw_rows (i : Z) (n : nat) : ST World unit :=
  match n with
  | O => skip
  | S n' =>
      w ← st_get;
      _ ← vec_at "" OobFilenames (filenames w) i;
      draw_rows (i + 1) n'
  end.

Definition drawFiles : ST World unit :=
  w ← st_get;
  if decide (file_index w <> prev_file_index w) then
    let '(s, e) := viewport (file_index w) (num_files w) (files_start w) (files_end w) in
    st_put (w {{ files_start := s; files_end := e }});;
    draw_rows s (Z.to_nat (e - s + 1));;
    st_modify (fun w => w {{ prev_file_index := file_index w }})
  else skip.

(** ** [drawImageViewer] *)

(** The name is read twice: for the log line and for [SD_MMC.open]. *)
Definition drawImageViewer : ST World unit :=
  w ← st_get;
  if image_shown w then skip else
  _ ← vec_at "" OobFilenames (filenames w) (file_index w);
  _ ← vec_at "" OobFilenames (filenames w) (file_index w);
  st_modify (fun w => w {{ image_shown := true }}).

(** ** [handleButtonFiles] *)

(** [strncpy(filename, name, MAX_FILENAME_LENGTH - 1)] followed by
    [filename[MAX_FILENAME_LENGTH - 1] = '\0']: the first 31 characters. *)
Definition strncpy_name (name : string) : string :=
  String.substring 0 (Z.to_nat (MAX_FILENAME_LENGTH - 1)) name.

(** [if (file_index < 0) file_index = 0; else if (file_index >= num_files)
    file_index = num_files - 1;] *)
Definition clamp_file_index : ST World unit :=
  st_modify (fun w => w {{ file_index := clamp 0 (num_files w - 1) (file_index w) }}).

(** [self] is the handle of the calling (display) task. *)
Definition handleButtonFiles (self : nat) : ST World unit :=
  ok ← receive_button;
  if negb ok then skip else
  w ← st_get;
  if negb (image_view w) then
    (match button_state w with
     | DOWN => st_put (w {{ file_index := file_index w + 1 }})
     | UP => st_put (w {{ file_index := file_index w - 1 }})
     | SELECT => st_put (w {{ image_view := true }})
     | BACK =>
         st_put (w {{ rtos := vTaskDelete (deleteFromSDTask_handle w) self (rtos w);
                      deleteFromSDTask_handle := None; display_state := MENU;
                      prev_state := MENU; menu_init := false; image_view := false;
                      button_index := 0; prev_file_index := -1 }})
     | NONE => skip
     end);;
    clamp_file_index
  else
    match button_state w with
    | SELECT =>
        name ← vec_at "" OobFilenames (filenames w) (file_index w);
        st_modify (fun w => w {{ file_delete_queue := snd (xQueueSend (file_delete_queue w) (strncpy_name name));
                                 image_view := false; image_shown := false; prev_file_index := -1 }})
    | BACK =>
        st_modify (fun w => w {{ image_view := false; image_shown := false; menu_init := false;
                                 prev_file_index := -1 }})
    | _ => skip
    end.

(** ** [deleteFromSDTask] *)

Definition deleteFromSDTask_iter : ST World unit :=
  w ← st_get;
  match xQueueReceive (file_delete_queue w) with
  | (None, q) => st_put (w {{ file_delete_queue := q }})
  | (Some filename, q) =>
      st_put (w {{ file_delete_queue := q }});;
      w ← st_get;
      let '(removed, s') := sd_remove filename (sd w) in
      st_put (w {{ sd := s' }});;
      if removed then loadFileNames else skip
  end.

(** ** The file list *)

(** The file-list invariant: [num_files] counts [filenames]. *)
Definition files_wf (w : World) : Prop := num_files w = Z.of_nat (length (filenames w)).

Lemma load_loop_exec (entries : list string) (w : World) :
  exec (load_loop entries) w =
    w {{ filenames := filenames w ++ filter (fun n => keep_name n = true) (sd_path <$> entries);
         num_files := num_files w + Z.of_nat (length (filter (fun n => keep_name n = true) (sd_path <$> entries))) }}.
Proof.
  revert w. induction entries as [|e rest IH]; intros w.
  - destruct w. unfold exec, load_loop, skip. wsimpl. by rewrite app_nil_r, Z.add_0_r.
  - simpl load_loop. rewrite exec_bind, IH. rewrite fmap_cons, filter_cons.
    destruct (keep_name (sd_path e)) eqn:Hk; unfold exec, skip; wnorm; rewrite ?Hk; simpl.
    + rewrite <- app_assoc. f_equal. lia.
    + reflexivity.
Qed.

(** [loadFileNames] replaces the file list by the names of the card's
    root directory, each prefixed with "/", in directory order, without
    ["/System Volume Information"], and sets [num_files] to their number;
    when the card cannot be listed, the list is left empty. *)
Theorem loadFileNames_spec (w : World) :
  exec loadFileNames w =
    w {{ num_files := Z.of_nat (length (listed_names (sd w))); filenames := listed_names (sd w) }}.
Proof.
  unfold loadFileNames, listed_names. rewrite exec_bind. unfold exec at 1. wsimpl.
  destruct w. simpl. destruct (sd_list_root _) as [entries|]; simpl.
  - fold_exec. rewrite load_loop_exec. reflexivity.
  - reflexivity.
Qed.

Lemma files_wf_loadFileNames (w : World) : files_wf (exec loadFileNames w).
Proof. unfold files_wf. rewrite loadFileNames_spec. reflexivity. Qed.

(** ** The selection in list mode *)

(** How a list-mode event moves the selection before the clamp. *)
Definition step_of (b : ButtonState) : Z :=
  match b with DOWN => 1 | UP => -1 | _ => 0 end.

(** The list-mode handler: the event's move, then the clamp to
    [[0, num_files - 1]]; nothing else changes the selection or the list. *)
Lemma handleButtonFiles_list (self : nat) (w : World) c b rest :
  button_queue w = mkQueue c (b :: rest) -> image_view w = false ->
  let w' := exec (handleButtonFiles self) w in
  file_index w' = clamp 0 (num_files w - 1) (file_index w + step_of b) /\
  num_files w' = num_files w /\ filenames w' = filenames w /\ faults w' = faults w /\
  image_view w' = bool_decide (b = SELECT).
Proof.
  intros Hq Hv w'. subst w'. destruct w; simpl in Hq, Hv; subst.
  unfold handleButtonFiles, clamp_file_index, receive_button, skip, exec. wsimpl.
  destruct b; wsimpl; rewrite ?Z.add_0_r; repeat split; done.
Qed.

(** (C21) The selection stays on a file (spec: clamp invariant): in list
    mode, whatever event the handler receives, the selection afterwards is
    an index of the file list, [0 <= file_index < num_files], as soon as
    the card holds a file. *)
Theorem handleButtonFiles_selection_bounds (self : nat) (w : World) c b rest :
  button_queue w = mkQueue c (b :: rest) -> image_view w = false -> 0 < num_files w ->
  0 <= file_index (exec (handleButtonFiles self) w) < num_files w.
Proof.
  intros Hq Hv Hn. destruct (handleButtonFiles_list self w c b rest Hq Hv) as (-> & _).
  pose proof (clamp_bounds 0 (num_files w - 1) (file_index w + step_of b)). lia.
Qed.

Example handleButtonFiles_selection_bounds_witness :
  let w := (globals_init (mkSd true [])) {{ display_state := SD_CARD; num_files := 3;
             file_index := 2; button_queue := mkQueue 3 [DOWN] }} in
  (button_queue w = mkQueue 3 [DOWN] /\ image_view w = false /\ 0 < num_files w) /\
  0 <= file_index (exec (handleButtonFiles 0) w) < num_files w.
Proof.
  cbv zeta. split; [repeat split; reflexivity|].
  apply (handleButtonFiles_selection_bounds 0 _ 3 DOWN []); reflexivity.
Defined.

(** (C22) Defect: the empty card is not a defined empty state.  With no file
    on the card, any list-mode event leaves [file_index = -1] (the clamp
    to [num_files - 1] runs last); Select then opens the viewer, which
    reads [filenames[-1]]: undefined behaviour, where the design asks for
    [total_count = 0] to be treated as an empty state. *)
Theorem empty_card_viewer_oob (self : nat) (w : World) c rest :
  button_queue w = mkQueue c (SELECT :: rest) -> image_view w = false ->
  num_files w = 0 -> filenames w = [] -> image_shown w = false -> 0 <= file_index w ->
  let w1 := exec (handleButtonFiles self) w in
  file_index w1 = -1 /\ image_view w1 = true /\
  OobFilenames (-1) ∈ faults (exec drawImageViewer w1).
Proof.
  intros Hq Hv Hn Hf Hs Hi0 w1.
  destruct (handleButtonFiles_list self w c SELECT rest Hq Hv) as (Hi & Hn1 & Hf1 & _ & Hv1).
  fold w1 in Hi, Hn1, Hf1, Hv1. rewrite Hn in Hi. cbv [clamp step_of] in Hi.
  assert (Hi' : file_index w1 = -1) by (rewrite Hi; z_cases; lia).
  split; [done|]. split; [done|].
  assert (Hs1 : image_shown w1 = false).
  { subst w1. destruct w; simpl in Hq, Hv, Hs; subst.
    unfold handleButtonFiles, clamp_file_index, receive_button, exec. wsimpl. done. }
  rewrite Hf in Hf1. clear Hi. clearbody w1. destruct w1; simpl in *; subst.
  unfold drawImageViewer, vec_at, log_fault, exec. wsimpl. set_solver.
Qed.

Example empty_card_viewer_oob_witness :
  let w := (globals_init (mkSd true [])) {{ display_state := SD_CARD; filenames := [];
             button_queue := mkQueue 3 [SELECT] }} in
  (button_queue w = mkQueue 3 [SELECT] /\ image_view w = false /\ num_files w = 0 /\
   filenames w = [] /\ image_shown w = false /\ 0 <= file_index w) /\
  OobFilenames (-1) ∈ faults (exec drawImageViewer (exec (handleButtonFiles 0) w)).
Proof.
  cbv zeta. split; [repeat split; try reflexivity; simpl; lia|].
  destruct (empty_card_viewer_oob 0 ((globals_init (mkSd true [])) {{ display_state := SD_CARD;
    filenames := []; button_queue := mkQueue 3 [SELECT] }}) 3 [])
    as (_ & _ & H); [reflexivity..|simpl; lia|exact H].
Defined.

(** ** The viewport of [drawFiles] *)

(** [i, i + 1, ..., i + n - 1]. *)
Fixpoint zrange (i : Z) (n : nat) : list Z :=
  match n with O => [] | S n' => i :: zrange (i + 1) n' end.

(** The rows a draw reads out of range. *)
Definition oob_rows (len : nat) (rows : list Z) : list Fault :=
  OobFilenames <$> filter (fun j => ~ (0 <= j < Z.of_nat len)) rows.

Lemma draw_rows_exec (i : Z) (n : nat) (w : World) :
  exec (draw_rows i n) w =
    w {{ faults := faults w ++ oob_rows (length (filenames w)) (zrange i n) }}.
Proof.
  revert i w. induction n as [|n IH]; intros i w.
  - destruct w. unfold exec, draw_rows, skip, oob_rows. wsimpl. by rewrite app_nil_r.
  - simpl draw_rows. unfold oob_rows. simpl zrange. rewrite filter_cons.
    destruct (decide (0 <= i < Z.of_nat (length (filenames w)))) as [Hin|Hout].
    + destruct (lookup_lt_is_Some_2 (filenames w) (Z.to_nat i)) as [x Hx]; [lia|].
      rewrite decide_False by tauto.
      unfold exec. rewrite st_run_bind. cbv [st_get]. simpl. rewrite st_run_bind.
      rewrite (vec_at_in _ _ _ _ x) by (tauto || done). simpl. fold_exec. rewrite IH. done.
    + rewrite decide_True by done.
      unfold exec. rewrite st_run_bind. cbv [st_get]. simpl. rewrite st_run_bind.
      rewrite vec_at_oob by done. simpl. fold_exec. rewrite IH. wnorm.
      by rewrite <- app_assoc.
Qed.

(** Whatever the selection and the file count, the window [drawFiles]
    computes starts at a non-negative row and is [max_files] rows wide
    (the "temporary fix" of the code forces [end = start + 9]). *)
Lemma viewport_shape (fi nf s e : Z) :
  0 <= (viewport fi nf s e).1 /\ (viewport fi nf s e).2 = (viewport fi nf s e).1 + max_files - 1.
Proof. unfold viewport, max_files. z_cases; simpl; z_cases; simpl; lia. Qed.

(** The window follows the selection by one row at a time. *)
Lemma viewport_follows (fi nf s : Z) :
  0 <= s -> 0 <= fi -> s - 1 <= fi <= s + max_files ->
  (viewport fi nf s (s + max_files - 1)).1 <= fi <= (viewport fi nf s (s + max_files - 1)).2.
Proof. unfold viewport, max_files. intros. z_cases; simpl; z_cases; simpl; lia. Qed.

(** The effect of a redraw of the file list. *)
Lemma drawFiles_exec (w : World) :
  file_index w <> prev_file_index w ->
  let v := viewport (file_index w) (num_files w) (files_start w) (files_end w) in
  exec drawFiles w =
    w {{ files_start := v.1; files_end := v.2; prev_file_index := file_index w;
         faults := faults w ++ oob_rows (length (filenames w)) (zrange v.1 (Z.to_nat max_files)) }}.
Proof.
  intros Hne v. destruct (viewport_shape (file_index w) (num_files w) (files_start w) (files_end w))
    as [_ Hsh]. fold v in Hsh.
  unfold drawFiles, exec. rewrite st_run_bind. cbv [st_get]. simpl.
  rewrite decide_True by done. fold v. destruct v as [s e] eqn:Hv. simpl in Hsh |- *.
  rewrite st_run_bind. simpl. rewrite st_run_bind. fold_exec. rewrite draw_rows_exec.
  replace (e - s + 1) with max_files by (unfold max_files in *; lia).
  destruct w. reflexivity.
Qed.

(** The viewport invariant of the design: when the selection moves by
    at most one row past the window (the list-mode handler's steps), the
    redraw moves the window so that it is [max_files] rows wide, starts at
    a non-negative row, and contains the selection. *)
Theorem drawFiles_window (w : World) :
  file_index w <> prev_file_index w -> 0 <= file_index w -> 0 <= files_start w ->
  files_end w = files_start w + max_files - 1 ->
  files_start w - 1 <= file_index w <= files_end w + 1 ->
  let w' := exec drawFiles w in
  0 <= files_start w' /\ files_end w' = files_start w' + max_files - 1 /\
  files_start w' <= file_index w' <= files_end w'.
Proof.
  intros Hne Hfi Hs He Hin w'. subst w'. rewrite drawFiles_exec by done. cbv zeta.
  destruct (viewport_shape (file_index w) (num_files w) (files_start w) (files_end w)) as [H0 H1].
  rewrite He in *. pose proof (viewport_follows (file_index w) (num_files w) (files_start w)).
  destruct w. wsimpl. repeat split; lia.
Qed.

Example drawFiles_window_witness :
  let w := (globals_init (mkSd true [])) {{ file_index := 10; prev_file_index := 9 }} in
  (file_index w <> prev_file_index w /\ 0 <= file_index w /\ 0 <= files_start w /\
   files_end w = files_start w + max_files - 1 /\
   files_start w - 1 <= file_index w <= files_end w + 1) /\
  files_start (exec drawFiles w) <= 10 <= files_end (exec drawFiles w).
Proof.
  cbv zeta. split; [wsimpl; unfold max_files; lia|].
  destruct (drawFiles_window ((globals_init (mkSd true [])) {{ file_index := 10; prev_file_index := 9 }}))
    as (_ & _ & H); [wsimpl; unfold max_files; lia..|exact H].
Defined.

(** (C23) Defect: [drawFiles] reads the ten rows of its window whatever the
    number of files: every redraw reads [filenames[i]] for each row [i] of
    the window [[start, start + 9]], and each row at or past the end of the
    list is an out-of-range read of the vector.  The clamp
    [if (end > num_files) end = num_files - 1] that would prevent it is
    overwritten by the "temporary fix" [end = start + max_files - 1]. *)
Theorem drawFiles_reads_past_end (w : World) :
  file_index w <> prev_file_index w ->
  let s := (viewport (file_index w) (num_files w) (files_start w) (files_end w)).1 in
  faults (exec drawFiles w) =
    faults w ++ (OobFilenames <$> filter (fun j => ~ (0 <= j < Z.of_nat (length (filenames w))))
                                          (zrange s (Z.to_nat max_files))).
Proof. intros Hne s. rewrite drawFiles_exec by done. destruct w. reflexivity. Qed.

Example drawFiles_reads_past_end_witness :
  let w := exec sd_setup ((globals_init (mkSd true ["a.raw"; "b.raw"; "c.raw"]))
                            {{ display_state := SD_CARD }}) in
  file_index w <> prev_file_index w /\
  faults (exec drawFiles w) = OobFilenames <$> [3; 4; 5; 6; 7; 8; 9].
Proof.
  cbv zeta. split; [vm_compute; discriminate|].
  rewrite drawFiles_reads_past_end by (vm_compute; discriminate). vm_compute. reflexivity.
Defined.

(** ** The life cycle of the delete worker *)

Lemma sd_setup_exec (w : World) :
  exec sd_setup w =
    w {{ rtos := (xTaskCreatePinnedToCore deleteFromSDTaskFn (rtos w)).2;
         deleteFromSDTask_handle := Some (rt_next (rtos w));
         num_files := Z.of_nat (length (listed_names (sd w))); filenames := listed_names (sd w);
         menu_init := true }}.
Proof.
  unfold sd_setup, exec at 1. wsimpl. rewrite (st_unit_run loadFileNames). simpl.
  rewrite loadFileNames_spec. destruct w. reflexivity.
Qed.

Lemma handleButtonFiles_viewer_back (self : nat) (w : World) c rest :
  button_queue w = mkQueue c (BACK :: rest) -> image_view w = true ->
  exec (handleButtonFiles self) w =
    w {{ button_queue := mkQueue c rest; button_state := BACK; image_view := false;
         image_shown := false; menu_init := false; prev_file_index := -1 }}.
Proof.
  intros Hq Hv. destruct w; simpl in Hq, Hv; subst.
  unfold handleButtonFiles, receive_button, exec. wsimpl. reflexivity.
Qed.

Lemma handleButtonFiles_list_back (self : nat) (w : World) c rest :
  button_queue w = mkQueue c (BACK :: rest) -> image_view w = false ->
  exec (handleButtonFiles self) w =
    w {{ button_queue := mkQueue c rest; button_state := BACK;
         rtos := vTaskDelete (deleteFromSDTask_handle w) self (rtos w);
         deleteFromSDTask_handle := None; display_state := MENU; prev_state := MENU;
         menu_init := false; image_view := false; button_index := 0; prev_file_index := -1;
         file_index := clamp 0 (num_files w - 1) (file_index w) }}.
Proof.
  intros Hq Hv. destruct w; simpl in Hq, Hv; subst.
  unfold handleButtonFiles, clamp_file_index, receive_button, exec. wsimpl. reflexivity.
Qed.

(** (C8) Defect: leaving the image viewer with Back leaks a delete worker.
    The viewer's Back clears [menu_init], so the next display tick runs
    the screen's setup again and spawns a second [deleteFromSDTask],
    overwriting [deleteFromSDTask_handle] while the first worker is still
    running.  Back in the list then deletes only the second one: when the
    user is back in the menu, the first worker is still alive, and no
    handle is left to delete it (the design: the worker exists only while
    the file browser is active). *)
Theorem viewer_back_leaks_delete_task (self : nat) (w : World) h c rest c' rest' :
  button_queue w = mkQueue c (BACK :: rest) -> image_view w = true ->
  deleteFromSDTask_handle w = Some h -> task_alive h (rtos w) -> rtos_wf (rtos w) ->
  let w1 := exec (handleButtonFiles self) w in
  let w2 := exec sd_setup w1 in
  let w3 := exec (handleButtonFiles self) (w2 {{ button_queue := mkQueue c' (BACK :: rest') }}) in
  menu_init w1 = false /\
  length (tasks_running deleteFromSDTaskFn (rtos w2)) = S (length (tasks_running deleteFromSDTaskFn (rtos w))) /\
  display_state w3 = MENU /\ deleteFromSDTask_handle w3 = None /\ task_alive h (rtos w3).
Proof.
  intros Hq Hv Hh Hal Hwf w1 w2 w3.
  pose proof (task_alive_lt h (rtos w) Hwf Hal) as Hlt.
  assert (Hw1 := handleButtonFiles_viewer_back self w c rest Hq Hv). fold w1 in Hw1.
  assert (Hw2 := sd_setup_exec w1). fold w2 in Hw2.
  assert (Hr2 : rtos w2 = (xTaskCreatePinnedToCore deleteFromSDTaskFn (rtos w)).2)
    by (rewrite Hw2, Hw1; reflexivity).
  assert (Hh2 : deleteFromSDTask_handle w2 = Some (rt_next (rtos w))) by (rewrite Hw2, Hw1; reflexivity).
  split; [by rewrite Hw1|].
  split; [rewrite Hr2, xTaskCreate_running, length_app; simpl; lia|].
  subst w3. rewrite handleButtonFiles_list_back with (c := c') (rest := rest') by (rewrite ?Hw2, ?Hw1; reflexivity).
  split; [done|]. split; [done|].
  change (task_alive h (vTaskDelete (deleteFromSDTask_handle w2) self (rtos w2))).
  rewrite Hh2, Hr2, task_alive_vTaskDelete, task_alive_xTaskCreate. simpl. split; [lia|by right].
Qed.

(** The screen entered on a card holding one file, the file opened with
    Select, and Back pressed in the viewer. *)
Definition viewer_back_world : World :=
  let w0 := exec sd_setup ((globals_init (mkSd true ["a.raw"])) {{ display_state := SD_CARD }}) in
  (exec (handleButtonFiles 0) (w0 {{ button_queue := mkQueue 3 [SELECT] }}))
    {{ button_queue := mkQueue 3 [BACK] }}.

Example viewer_back_leaks_delete_task_witness :
  (button_queue viewer_back_world = mkQueue 3 [BACK] /\ image_view viewer_back_world = true /\
   deleteFromSDTask_handle viewer_back_world = Some 1%nat /\
   task_alive 1 (rtos viewer_back_world) /\ rtos_wf (rtos viewer_back_world)) /\
  task_alive 1 (rtos (exec (handleButtonFiles 0)
    ((exec sd_setup (exec (handleButtonFiles 0) viewer_back_world)) {{ button_queue := mkQueue 3 [BACK] }}))).
Proof.
  split; [repeat split; try reflexivity; apply (bool_decide_unpack _); vm_compute; reflexivity|].
  destruct (viewer_back_leaks_delete_task 0 viewer_back_world 1 3 [] 3 []) as (_ & _ & _ & _ & H);
    [reflexivity..| | |exact H]; apply (bool_decide_unpack _); vm_compute; reflexivity.
Defined.

(** ** Deleting a file *)

Lemma substring_0_short (n : nat) (s : string) :
  (String.length s <= n)%nat -> String.substring 0 n s = s.
Proof.
  revert n. induction s as [|a s IH]; intros n Hn; destruct n; simpl in *; try done; [lia|].
  f_equal. apply IH. lia.
Qed.

Lemma substring_0_length (n : nat) (s : string) :
  String.length (String.substring 0 n s) = Nat.min n (String.length s).
Proof.
  revert n. induction s as [|a s IH]; intros n; destruct n; simpl; try done.
  by rewrite IH.
Qed.

(** A name of at most 31 characters survives [strncpy]; a longer one is
    cut. *)
Lemma strncpy_name_short (s : string) : (String.length s <= 31)%nat -> strncpy_name s = s.
Proof. intros. by apply substring_0_short. Qed.

Lemma strncpy_name_length (s : string) : String.length (strncpy_name s) = Nat.min 31 (String.length s).
Proof. apply substring_0_length. Qed.

Lemma sd_path_inj (a b : string) : sd_path a = sd_path b -> a = b.
Proof. unfold sd_path. by intros [= ->]. Qed.

Lemma elem_of_listed_names (name : string) (s : sdcard) :
  name ∈ listed_names s <->
  sd_mounted s = true /\ keep_name name = true /\ exists e, name = sd_path e /\ e ∈ sd_root s.
Proof.
  unfold listed_names, sd_list_root. destruct (sd_mounted s).
  - rewrite list_elem_of_filter, list_elem_of_fmap. naive_solver.
  - split; [set_solver|naive_solver].
Qed.

Lemma handleButtonFiles_viewer_select (self : nat) (w : World) c rest name :
  button_queue w = mkQueue c (SELECT :: rest) -> image_view w = true ->
  0 <= file_index w -> filenames w !! Z.to_nat (file_index w) = Some name ->
  exec (handleButtonFiles self) w =
    w {{ button_queue := mkQueue c rest; button_state := SELECT;
         file_delete_queue := snd (xQueueSend (file_delete_queue w) (strncpy_name name));
         image_view := false; image_shown := false; prev_file_index := -1 }}.
Proof.
  intros Hq Hv Hi Hn. destruct w; simpl in Hq, Hv, Hi, Hn; subst.
  unfold handleButtonFiles, receive_button, exec. wsimpl.
  rewrite (vec_at_in _ _ _ _ name) by done. reflexivity.
Qed.

Lemma deleteFromSDTask_iter_some (w : World) c n r :
  file_delete_queue w = mkQueue c (n :: r) ->
  exec deleteFromSDTask_iter w =
    let w1 := w {{ file_delete_queue := mkQueue c r; sd := (sd_remove n (sd w)).2 }} in
    if (sd_remove n (sd w)).1 then exec loadFileNames w1 else w1.
Proof.
  intros Hq. destruct w; simpl in Hq; subst.
  unfold deleteFromSDTask_iter, exec at 1. wsimpl.
  destruct (sd_remove n _) as [[|] s']; simpl; [|reflexivity].
  rewrite (st_unit_run loadFileNames). reflexivity.
Qed.

(** (C20) Deleting from the viewer (spec: Select in viewer mode enqueues a
    delete request for the viewed file): when the file list mirrors the
    card and the viewed name has at most 31 characters, Select in the
    viewer followed by one iteration of the delete worker removes the file
    from the card and reloads the list, which then mirrors the card again,
    no longer holds the name, keeps every other file, and satisfies the
    count invariant. *)
Theorem viewer_select_deletes_file (self : nat) (w : World) c rest name :
  button_queue w = mkQueue c (SELECT :: rest) -> image_view w = true ->
  file_delete_queue w = mkQueue FILE_DELETE_QUEUE_SIZE [] ->
  NoDup (sd_root (sd w)) -> filenames w = listed_names (sd w) ->
  0 <= file_index w -> filenames w !! Z.to_nat (file_index w) = Some name ->
  (String.length name <= 31)%nat ->
  let w2 := exec deleteFromSDTask_iter (exec (handleButtonFiles self) w) in
  filenames w2 = listed_names (sd w2) /\ files_wf w2 /\ (name ∉ filenames w2) /\
  (forall n', n' ∈ filenames w -> n' <> name -> n' ∈ filenames w2).
Proof.
  intros Hq Hv Hd Hnd Hl Hi Hn Hlen w2.
  assert (Hname : name ∈ listed_names (sd w)) by (rewrite <- Hl; by eapply list_elem_of_lookup_2).
  apply elem_of_listed_names in Hname as (Hm & _ & e & -> & He).
  assert (Hw1 := handleButtonFiles_viewer_select self w c rest _ Hq Hv Hi Hn).
  rewrite Hd, strncpy_name_short in Hw1 by done.
  assert (Hw2 : w2 = exec loadFileNames
            ((exec (handleButtonFiles self) w) {{ file_delete_queue := mkQueue FILE_DELETE_QUEUE_SIZE [];
                                                 sd := mkSd true (remove_first e (sd_root (sd w))) }})).
  { subst w2. rewrite (deleteFromSDTask_iter_some _ FILE_DELETE_QUEUE_SIZE (sd_path e) [])
      by (rewrite Hw1; reflexivity).
    rewrite Hw1. cbn -[loadFileNames sd_path]. rewrite sd_remove_path by done. reflexivity. }
  rewrite Hw2, loadFileNames_spec. cbn -[listed_names].
  split; [done|]. split; [unfold files_wf; reflexivity|]. split.
  - intros Hin. apply elem_of_listed_names in Hin as (_ & _ & e' & Heq & He').
    apply sd_path_inj in Heq. subst e'. by apply (remove_first_nodup e (sd_root (sd w))).
  - intros n' Hn' Hne. rewrite Hl in Hn'.
    apply elem_of_listed_names in Hn' as (_ & Hk & e' & -> & He').
    apply elem_of_listed_names. split; [done|]. split; [done|]. exists e'. split; [done|].
    apply elem_of_remove_first_2; [congruence|done].
Qed.

(** The screen entered on a card holding the files [root], the first one
    opened with Select, and Select pressed again in the viewer. *)
Definition viewer_select_world (root : list string) : World :=
  let w0 := exec sd_setup ((globals_init (mkSd true root)) {{ display_state := SD_CARD }}) in
  (exec (handleButtonFiles 0) (w0 {{ button_queue := mkQueue 3 [SELECT] }}))
    {{ button_queue := mkQueue 3 [SELECT] }}.

Example viewer_select_deletes_file_witness :
  (button_queue (viewer_select_world ["a.raw"; "b.raw"]) = mkQueue 3 [SELECT] /\ image_view (viewer_select_world ["a.raw"; "b.raw"]) = true /\
   file_delete_queue (viewer_select_world ["a.raw"; "b.raw"]) = mkQueue FILE_DELETE_QUEUE_SIZE [] /\
   NoDup (sd_root (sd (viewer_select_world ["a.raw"; "b.raw"]))) /\
   filenames (viewer_select_world ["a.raw"; "b.raw"]) = listed_names (sd (viewer_select_world ["a.raw"; "b.raw"])) /\
   0 <= file_index (viewer_select_world ["a.raw"; "b.raw"]) /\
   filenames (viewer_select_world ["a.raw"; "b.raw"]) !! Z.to_nat (file_index (viewer_select_world ["a.raw"; "b.raw"])) = Some "/a.raw" /\
   (String.length "/a.raw" <= 31)%nat) /\
  "/a.raw" ∉ filenames (exec deleteFromSDTask_iter (exec (handleButtonFiles 0) (viewer_select_world ["a.raw"; "b.raw"]))).
Proof.
  split; [repeat split; try reflexivity; try (apply (bool_decide_unpack _); vm_compute; reflexivity);
          vm_compute; try lia; discriminate|].
  destruct (viewer_select_deletes_file 0 (viewer_select_world ["a.raw"; "b.raw"]) 3 [] "/a.raw") as (_ & _ & H & _);
    [reflexivity..| |reflexivity| |reflexivity|vm_compute; lia|exact H].
  - apply (bool_decide_unpack _); vm_compute; reflexivity.
  - vm_compute. discriminate.
Defined.

Lemma strncpy_sd_path (e : string) :
  strncpy_name (sd_path e) = sd_path (String.substring 0 30 e).
Proof. reflexivity. Qed.

(** (C40) Defect: a file whose path has 32 characters or more cannot be
    deleted.  Select in the viewer sends the path cut to 31 characters by
    [strncpy]; unless another file happens to have exactly that path, the
    removal fails, the card is unchanged and the file stays in the list
    (and, against the design's "refresh after any delete attempt", the
    list is not reloaded). *)
Theorem long_name_not_deleted (self : nat) (w : World) c rest name :
  button_queue w = mkQueue c (SELECT :: rest) -> image_view w = true ->
  file_delete_queue w = mkQueue FILE_DELETE_QUEUE_SIZE [] ->
  filenames w = listed_names (sd w) ->
  0 <= file_index w -> filenames w !! Z.to_nat (file_index w) = Some name ->
  (32 <= String.length name)%nat ->
  (forall e, e ∈ sd_root (sd w) -> sd_path e <> strncpy_name name) ->
  let w2 := exec deleteFromSDTask_iter (exec (handleButtonFiles self) w) in
  sd w2 = sd w /\ filenames w2 = filenames w /\ name ∈ filenames w2.
Proof.
  intros Hq Hv Hd Hl Hi Hn Hlen Hno w2.
  assert (Hname : name ∈ filenames w) by (by eapply list_elem_of_lookup_2).
  pose proof Hname as Hname'. rewrite Hl in Hname'.
  apply elem_of_listed_names in Hname' as (Hm & _ & e & -> & He).
  assert (Hw1 := handleButtonFiles_viewer_select self w c rest _ Hq Hv Hi Hn).
  rewrite Hd, strncpy_sd_path in Hw1.
  assert (Habs : String.substring 0 30 e ∉ sd_root (sd w)).
  { intros Hin. apply (Hno _ Hin). by rewrite strncpy_sd_path. }
  subst w2. rewrite (deleteFromSDTask_iter_some _ FILE_DELETE_QUEUE_SIZE (sd_path (String.substring 0 30 e)) [])
    by (rewrite Hw1; reflexivity).
  rewrite Hw1. cbn -[sd_path]. rewrite sd_remove_path_absent by done. simpl. done.
Qed.

Example long_name_not_deleted_witness :
  let w := viewer_select_world ["a_very_long_file_name_from_a_pc_0001.raw"] in
  (button_queue w = mkQueue 3 [SELECT] /\ image_view w = true /\
   file_delete_queue w = mkQueue FILE_DELETE_QUEUE_SIZE [] /\
   filenames w = listed_names (sd w) /\ 0 <= file_index w /\
   filenames w !! Z.to_nat (file_index w) = Some "/a_very_long_file_name_from_a_pc_0001.raw" /\
   (32 <= String.length "/a_very_long_file_name_from_a_pc_0001.raw")%nat /\
   (forall e, e ∈ sd_root (sd w) -> sd_path e <> strncpy_name "/a_very_long_file_name_from_a_pc_0001.raw")) /\
  "/a_very_long_file_name_from_a_pc_0001.raw" ∈ filenames (exec deleteFromSDTask_iter (exec (handleButtonFiles 0) w)).
Proof.
  cbv zeta. split.
  - repeat split; try reflexivity; try (vm_compute; lia); try (vm_compute; discriminate).
    intros e He. vm_compute in He. apply list_elem_of_singleton in He. subst e. vm_compute. discriminate.
  - destruct (long_name_not_deleted 0 (viewer_select_world ["a_very_long_file_name_from_a_pc_0001.raw"])
      3 [] "/a_very_long_file_name_from_a_pc_0001.raw") as (_ & _ & H);
      [reflexivity..|vm_compute; discriminate|reflexivity|vm_compute; lia| |exact H].
    intros e He. vm_compute in He. apply list_elem_of_singleton in He. subst e. vm_compute. discriminate.
Defined.

(** ** The count invariant *)

(** A statement that leaves the file list and its count alone. *)
Definition keeps_files (m : ST World unit) : Prop :=
  forall w, filenames (exec m w) = filenames w /\ num_files (exec m w) = num_files w.

Lemma keeps_files_wf m w : keeps_files m -> files_wf w -> files_wf (exec m w).
Proof. unfold files_wf. intros Hk Hw. destruct (Hk w) as [-> ->]. done. Qed.

Lemma vec_at_exec {A} (d : A) mk l i (w : World) :
  snd (vec_at d mk l i w) =
    w {{ faults := faults w ++ (if decide (0 <= i < Z.of_nat (length l)) then [] else [mk i]) }}.
Proof.
  case_decide as Hin.
  - destruct (lookup_lt_is_Some_2 l (Z.to_nat i)) as [x Hx]; [lia|].
    rewrite (vec_at_in d mk l i x) by (lia || done). destruct w. simpl. by rewrite app_nil_r.
  - by rewrite vec_at_oob.
Qed.

Lemma vec_at_keeps {A} (d : A) mk l i (w : World) :
  filenames (snd (vec_at d mk l i w)) = filenames w /\ num_files (snd (vec_at d mk l i w)) = num_files w.
Proof. unfold vec_at, log_fault. case_match; wsimpl; done. Qed.

Lemma handleButtonFiles_keeps self : keeps_files (handleButtonFiles self).
Proof.
  intros w. destruct w as [? ? ? ? ? ? ? ? ? iv ? ? ? ? ? ? ? ? ? ? [c [|b rest]] ?].
  - unfold handleButtonFiles, receive_button, exec. wsimpl. done.
  - unfold handleButtonFiles, receive_button, clamp_file_index, exec. wsimpl.
    destruct iv, b; wsimpl; try done;
      match goal with |- context [vec_at ?d ?mk ?l ?i ?w] =>
        destruct (vec_at_keeps d mk l i w) as [Hf Hn]; destruct (vec_at d mk l i w) end;
      wsimpl; simpl in *; by rewrite ?Hf, ?Hn.
Qed.

Lemma draw_rows_keeps i n : keeps_files (draw_rows i n).
Proof. intros w. rewrite draw_rows_exec. by destruct w. Qed.

Lemma drawFiles_keeps : keeps_files drawFiles.
Proof.
  intros w. destruct (decide (file_index w = prev_file_index w)) as [Heq|Hne].
  - destruct w; simpl in Heq; subst. unfold drawFiles, exec. wsimpl.
    rewrite decide_False by tauto. done.
  - rewrite drawFiles_exec by done. by destruct w.
Qed.

Lemma drawImageViewer_keeps : keeps_files drawImageViewer.
Proof.
  intros w. unfold drawImageViewer, exec. rewrite st_run_bind. cbv [st_get]. simpl.
  destruct (image_shown w); [done|].
  rewrite !st_run_bind, !vec_at_exec. by destruct w.
Qed.

#[export] Hint Resolve keeps_files_wf handleButtonFiles_keeps drawFiles_keeps
  drawImageViewer_keeps files_wf_loadFileNames : miniberry.

Lemma sd_setup_wf w : files_wf (exec sd_setup w).
Proof. rewrite sd_setup_exec. unfold files_wf. by destruct w. Qed.

Lemma deleteFromSDTask_iter_wf w : files_wf w -> files_wf (exec deleteFromSDTask_iter w).
Proof.
  intros Hw. destruct (file_delete_queue w) as [c [|n r]] eqn:Hq.
  - unfold deleteFromSDTask_iter, exec. wnorm. rewrite Hq. simpl. unfold files_wf in *.
    destruct w; simpl in *. done.
  - rewrite (deleteFromSDTask_iter_some w c n r Hq). cbv zeta.
    destruct (sd_remove n (sd w)).1; [apply files_wf_loadFileNames|].
    unfold files_wf in *. by destruct w.
Qed.

#[export] Hint Resolve sd_setup_wf deleteFromSDTask_iter_wf : miniberry.
