(* ===== verification/Telemetry.v ===== *)
(** * Telemetry: system data, WiFi information and the clock

    The always-on publishers of src/tasks.cpp and their consumers:

    - [systemDataTask_iter]: one iteration of [systemDataTask]: sample the
      heap, update [max_heap], push to or pop from the heap history
      [heap_usage] (a [std::queue<int>]), publish a [SystemInfo] with
      [xQueueOverwrite];
    - [initHeapQueue] and [generateXYArrays] (src/helpers.cpp): the
      history's initial contents and the copy of it into the graph arrays;
    - [drawSystemData] (src/display.cpp): poll the system-data channel and
      compute the graph's data;
    - [wifiDataTask_iter]: one iteration of [wifiDataTask]: fill a
      [WiFiInfo] from the WiFi library (strings cut to the size of their
      [char] arrays by [toCharArray]) and publish it;
    - [drawWifi] (src/display.cpp): poll the WiFi channel and compute the
      lines drawn;
    - [ntpTimeTask_iter]: one iteration of [ntpTimeTask].

    The hardware readings (heap figures, CPU frequency, [millis()], the
    WiFi scan, the clock) are parameters of the steps.  Pixel drawing is not
    modelled: a draw function returns the data it would draw.

    [telemetry_channels_registers] composes the publishers and the
    consumers: along any interleaving of the two producer tasks with the
    two draw calls ([chan_run]), the display receives what two
    latest-value registers of the design give ([chan_spec]), by the
    refinement of [Queue] ([reg_rel]) applied to the calls' effects on
    the two channels. *)

From S2P Require Import Prelude Queue Platform Globals Camera.

(** ** The heap history *)

(** [for (int i = 0; i < NUM_SYS_DATA_POINTS; i++) heap_usage.push(min_heap);] *)
Definition initHeapQueue : ST World unit :=
  st_modify (fun w => w {{ heap_usage := heap_usage w ++ replicate (Z.to_nat NUM_SYS_DATA_POINTS) (min_heap w) }}).

(** [(ESP.getHeapSize() - ESP.getFreeHeap()) / 1000]: both are [uint32_t],
    so the difference wraps modulo [2^32] before the division. *)
Definition heap_used_kb (heap_size free_heap : Z) : Z := ((heap_size - free_heap) mod 2 ^ 32) / 1000.

(** [if (heap_usage.size() > NUM_SYS_DATA_POINTS) heap_usage.pop();
    else heap_usage.push(used);] *)
Definition heap_history_step (h : list Z) (used : Z) : list Z :=
  if decide (NUM_SYS_DATA_POINTS < Z.of_nat (length h)) then tail h else h ++ [used].

(** One iteration of [systemDataTask], with the readings of
    [ESP.getMinFreeHeap()], [getCpuFrequencyMhz()], [millis()],
    [ESP.getHeapSize()] and [ESP.getFreeHeap()]. *)
Definition systemDataTask_iter (min_free cpu millis heap_size free_heap : Z) : ST World unit :=
  let info := mkSystemInfo min_free cpu (millis / 1000) in
  let used := heap_used_kb heap_size free_heap in
  st_modify (fun w => w {{ max_heap := if used >? max_heap w then used else max_heap w }});;
  st_modify (fun w => w {{ heap_usage := heap_history_step (heap_usage w) used }});;
  st_modify (fun w => w {{ sys_info_queue := xQueueOverwrite (sys_info_queue w) info }}).

(** The loop of [generateXYArrays] from index [i], with [n] iterations
    left, on the copy [q] of the history. *)
Fixpoint gen_xy (i : nat) (n : nat) (q : list Z) (x_c y_c : list Z) : ST World (list Z * list Z) :=
  match n with
  | O => mret (x_c, y_c)
  | S n' =>
      let x_c' := <[i := Z.of_nat i + 1]> x_c in
      match q with
      | [] => log_fault EmptyQueueFront;; mret (x_c', y_c)
      | y :: q' =>
          let y_c' := <[i := y]> y_c in
          match q' with
          | [] => mret (x_c', y_c')
          | _ => gen_xy (S i) n' q' x_c' y_c'
          end
      end
  end.

(** [generateXYArrays(x_c, y_c)] on the zero-initialised arrays of
    [drawSystemData]. *)
Definition generateXYArrays : ST World (list Z * list Z) :=
  w ← st_get;
  let zeros := replicate (Z.to_nat NUM_SYS_DATA_POINTS) 0 in
  gen_xy 0 (Z.to_nat NUM_SYS_DATA_POINTS) (heap_usage w) zeros zeros.

(** What [drawSystemData] draws: the info received, and the graph's points
    and vertical range [(x_c, y_c, min_heap, max_heap)]. *)
Definition drawSystemData : ST World (option (SystemInfo * (list Z * list Z * Z * Z))) :=
  w ← st_get;
  match xQueueReceive (sys_info_queue w) with
  | (None, q) => st_put (w {{ sys_info_queue := q }});; mret None
  | (Some info, q) =>
      st_put (w {{ sys_info_queue := q }});;
      '(x_c, y_c) ← generateXYArrays;
      w ← st_get;
      mret (Some (info, (x_c, y_c, min_heap w, max_heap w)))
  end.

(** ** WiFi information *)

(** [String(int)]: decimal, with a minus sign when negative. *)
Definition int_to_string (n : Z) : string :=
  if n <? 0 then String "-"%char (dec_string (- n)) else dec_string n.

(** [s.toCharArray(buf, size)]: at most [size - 1] characters and the NUL. *)
Definition toCharArray (s : string) (size : nat) : string := String.substring 0 (size - 1) s.

(** The result of [WiFi.scanNetworks()]: its return value and the SSID and
    RSSI of each network found. *)
Record scan_result := mkScan { scan_n : Z; scan_ssid : nat -> string; scan_rssi : nat -> Z }.

(** [int i = 0; i < info.nearbyCount; ++i]: the strings written to
    [info.nearby[i]] ([char[MAX_WIFI][33]], empty in [WiFiInfo info = {}]). *)
Definition nearby_line (sc : scan_result) (i : nat) : string :=
  toCharArray (String.append (scan_ssid sc i) (String.append " (" (String.append (int_to_string (scan_rssi sc i)) " dBm)"))) 33.

Definition nearby_array (sc : scan_result) (count : Z) : list string :=
  (fun i => if decide (Z.of_nat i < count) then nearby_line sc i else "") <$> seq 0 (Z.to_nat MAX_WIFI).

(** One iteration of [wifiDataTask], with the WiFi library's answers. *)
Definition wifiDataTask_iter (ssid_ ip_ : string) (rssi_ : Z) (mac_ : string) (sc : scan_result) : ST World unit :=
  let count := if scan_n sc >? 0 then Z.min (scan_n sc) MAX_WIFI else 0 in
  let info := mkWiFiInfo (toCharArray ssid_ 32) (toCharArray ip_ 20) rssi_ (toCharArray mac_ 20)
                         (nearby_array sc count) count in
  st_modify (fun w => w {{ wifi_queue := xQueueOverwrite (wifi_queue w) info }}).

(** The loop [for (int i = 0; i < n && i < MAX_WIFI; i++)] of [drawWifi]
    over [info.nearby]: [None] marks a read outside the array. *)
Fixpoint nearby_lines (nearby : list string) (n : Z) (i : nat) (fuel : nat) : list (option string) :=
  match fuel with
  | O => []
  | S f =>
      if decide (Z.of_nat i < n /\ Z.of_nat i < MAX_WIFI)
      then nearby !! i :: nearby_lines nearby n (S i) f
      else []
  end.

(** The text lines [drawWifi] draws for the info received. *)
Definition wifi_lines (info : WiFiInfo) : list (option string) :=
  [Some "WiFi Info"; Some (String.append "SSID: " (ssid info)); Some (String.append "IP: " (ip info));
   Some (String.append "RSSI: " (String.append (int_to_string (rssi info)) " dBm"));
   Some (String.append "MAC: " (mac info)); Some "Nearby WiFi"] ++
  (if decide (nearbyCount info = 0) then [Some "No networks found"]
   else nearby_lines (nearby info) (nearbyCount info) 0 (Z.to_nat MAX_WIFI)).

Definition drawWifi : ST World (option (list (option string))) :=
  w ← st_get;
  match xQueueReceive (wifi_queue w) with
  | (None, q) => st_put (w {{ wifi_queue := q }});; mret None
  | (Some info, q) => st_put (w {{ wifi_queue := q }});; mret (Some (wifi_lines info))
  end.

(** ** The clock *)

(** [getLocalTime(&t)]: [None] when the time is not available, and [t] is
    left as it was. *)
Definition ntpTimeTask_iter (now : option tm) : ST World unit :=
  match now with
  | Some lt => st_modify (fun w => w {{ t := lt }})
  | None => skip
  end.

(** ** The heap history *)

(** Consecutive iterations of [systemDataTask] with the given readings
    [(min_free, cpu, millis, heap_size, free_heap)]. *)
Fixpoint systemData_run (ss : list (Z * Z * Z * Z * Z)) : ST World unit :=
  match ss with
  | [] => skip
  | ((((a, b), c), d), e) :: rest => systemDataTask_iter a b c d e;; systemData_run rest
  end.

Definition sample_used (s : Z * Z * Z * Z * Z) : Z := heap_used_kb s.1.2 s.2.

Lemma systemData_run_heap (ss : list (Z * Z * Z * Z * Z)) (w : World) :
  heap_usage (exec (systemData_run ss) w) = foldl heap_history_step (heap_usage w) (sample_used <$> ss).
Proof.
  revert w. induction ss as [|[[[[a b] c] d] e] rest IH]; intros w; [done|].
  simpl systemData_run. rewrite exec_bind, IH. unfold systemDataTask_iter, exec. wsimpl. done.
Qed.

(** The history holds [NUM_SYS_DATA_POINTS] or one more samples. *)
Definition history_wf (h : list Z) : Prop := (60 <= length h <= 61)%nat.

Lemma heap_history_step_wf h u : history_wf h -> history_wf (heap_history_step h u).
Proof.
  unfold history_wf, heap_history_step, NUM_SYS_DATA_POINTS. intros Hh. case_decide.
  - destruct h; simpl in *; lia.
  - rewrite length_app. simpl. lia.
Qed.

(** The samples the history keeps out of a run: every other one. *)
Fixpoint evens {A} (l : list A) : list A :=
  match l with
  | x :: _ :: r => x :: evens r
  | [x] => [x]
  | [] => []
  end.

Lemma heap_history_two_steps h u v :
  length h = 60%nat -> heap_history_step (heap_history_step h u) v = tail h ++ [u].
Proof.
  intros Hl. unfold heap_history_step, NUM_SYS_DATA_POINTS.
  assert (H1 : ~ (60 < Z.of_nat (length h))) by lia. rewrite (decide_False _ _ H1).
  rewrite decide_True by (rewrite length_app; simpl; lia).
  destruct h; simpl in *; [lia|done].
Qed.

(** (C38) Defect: the heap history alternates between pushing and popping.
    With the history at its initial size of [NUM_SYS_DATA_POINTS]
    ([initHeapQueue]), each pair of iterations of [systemDataTask] pushes
    the first sample and, the size being then 61, pops the oldest entry
    instead of recording the second: after [2k] iterations the history
    is the initial one without its [k] oldest entries, followed by the
    samples of the even-numbered iterations only: the history is the
    initial one followed by every other sample, without its [k] oldest
    entries.  The graph "Heap Usage Within Last Minute" therefore loses
    every other sample and spans two minutes, where a rolling window of
    the last 60 samples was meant. *)
Theorem heap_history_alternates (ss : list (Z * Z * Z * Z * Z)) (w : World) :
  length (heap_usage w) = 60%nat -> Nat.Even (length ss) ->
  heap_usage (exec (systemData_run ss) w) =
    drop (length ss / 2) (heap_usage w ++ evens (sample_used <$> ss)).
Proof.
  intros Hl [k Hk]. rewrite systemData_run_heap.
  assert (Hgen : forall h us, length h = 60%nat -> length us = (2 * k)%nat ->
            foldl heap_history_step h us = drop k (h ++ evens us)).
  { clear. induction k as [|k IH]; intros h us Hh Hus.
    - destruct us; [|simpl in Hus; lia]. simpl. by rewrite app_nil_r.
    - destruct us as [|u [|v us]]; simpl in Hus; try lia. simpl foldl.
      rewrite heap_history_two_steps by done. rewrite IH.
      + destruct h as [|x h]; simpl in *; [lia|]. by rewrite <- app_assoc.
      + destruct h; simpl in *; rewrite ?length_app; simpl; lia.
      + lia. }
  rewrite Hgen; [|done|by rewrite length_fmap].
  replace (length ss / 2)%nat with k by (rewrite Hk, Nat.mul_comm, Nat.div_mul; lia). done.
Qed.

(** ** The graph data *)

Lemma gen_xy_run (i n : nat) (q x_c y_c : list Z) (w : World) :
  q <> [] ->
  gen_xy i n q x_c y_c w =
    ((list_inserts i ((fun k => Z.of_nat k + 1) <$> seq i (Nat.min n (length q))) x_c,
      list_inserts i (take (Nat.min n (length q)) q) y_c), w).
Proof.
  revert i q x_c y_c. induction n as [|n IH]; intros i q x_c y_c Hq; [done|].
  destruct q as [|y [|z q]]; [done| |].
  - cbn [length]. rewrite Nat.min_comm. reflexivity.
  - change (gen_xy (S i) n (z :: q) (<[i := Z.of_nat i + 1]> x_c) (<[i := y]> y_c) w =
            ((list_inserts i ((fun k => Z.of_nat k + 1) <$> seq i (S (Nat.min n (S (length q))))) x_c,
              list_inserts i (y :: take (Nat.min n (S (length q))) (z :: q)) y_c), w)).
    rewrite IH by done. simpl length. cbn [seq fmap list_fmap list_inserts].
    by rewrite !list_insert_inserts_lt by lia.
Qed.

(** The reference: the points [(1, h_0), ..., (m, h_(m-1))] of the first
    [m = min 60 (length h)] entries of the history, the rest of both
    arrays left at zero. *)
Definition graph_x (h : list Z) : list Z :=
  ((fun k => Z.of_nat k + 1) <$> seq 0 (Nat.min 60 (length h))) ++ replicate (60 - Nat.min 60 (length h)) 0.
Definition graph_y (h : list Z) : list Z :=
  take 60 h ++ replicate (60 - Nat.min 60 (length h)) 0.

Lemma list_inserts_replicate_0 (l : list Z) (n : nat) :
  (length l <= n)%nat -> list_inserts 0 l (replicate n 0) = l ++ replicate (n - length l) 0.
Proof.
  intros Hl. replace n with (length l + (n - length l))%nat at 1 by lia.
  rewrite replicate_add. apply list_inserts_0_r. by rewrite length_replicate.
Qed.

(** [generateXYArrays] computes the reference points: on a non-empty
    history [h] it stops either after 60 points or when the copy of the
    queue runs empty, so that the arrays hold the first [min 60 (length h)]
    entries of the history numbered from 1, and zeros after; it changes
    nothing else. *)
Theorem generateXYArrays_spec (w : World) :
  heap_usage w <> [] -> generateXYArrays w = ((graph_x (heap_usage w), graph_y (heap_usage w)), w).
Proof.
  intros Hne. unfold generateXYArrays. change (Z.to_nat NUM_SYS_DATA_POINTS) with 60%nat.
  cbv [mbind st_bind st_get]. cbv beta iota. rewrite gen_xy_run by done. unfold graph_x, graph_y. f_equal. f_equal.
  - rewrite list_inserts_replicate_0 by (rewrite length_fmap, length_seq; lia).
    by rewrite length_fmap, length_seq.
  - rewrite list_inserts_replicate_0 by (rewrite length_take; lia).
    rewrite length_take.
    replace (Nat.min (Nat.min 60 (length (heap_usage w))) (length (heap_usage w)))
      with (Nat.min 60 (length (heap_usage w))) by lia.
    f_equal. destruct (Nat.min_spec 60 (length (heap_usage w))) as [[? ->]|[? ->]]; [done|].
    by rewrite !take_ge by lia.
Qed.

Lemma systemDataTask_iter_history a b c d e (w : World) :
  history_wf (heap_usage w) -> history_wf (heap_usage (exec (systemDataTask_iter a b c d e) w)).
Proof. intros H. unfold systemDataTask_iter, exec. wsimpl. by apply heap_history_step_wf. Qed.

Lemma initHeapQueue_history (w : World) :
  heap_usage w = [] -> history_wf (heap_usage (exec initHeapQueue w)).
Proof.
  intros H. destruct w; simpl in H; subst. unfold history_wf, initHeapQueue, exec. wsimpl. lia.
Qed.

Lemma history_wf_nonempty h : history_wf h -> h <> [].
Proof. unfold history_wf. intros Hh ->. simpl in Hh. lia. Qed.

#[export] Hint Resolve systemDataTask_iter_history initHeapQueue_history history_wf_nonempty : miniberry.

(** Boot state of the history: [initHeapQueue] on the empty queue. *)
Definition booted_history_world (r : list string) : World := exec initHeapQueue (globals_init (mkSd true r)).

Example heap_history_alternates_witness :
  let ss := [(0, 240, 1000, 300000, 100000); (0, 240, 2000, 300000, 90000);
             (0, 240, 3000, 300000, 80000); (0, 240, 4000, 300000, 70000)] in
  (length (heap_usage (booted_history_world [])) = 60%nat /\ Nat.Even (length ss)) /\
  drop 56 (heap_usage (exec (systemData_run ss) (booted_history_world []))) = [100; 100; 200; 220].
Proof.
  cbv zeta. split; [split; [reflexivity|exists 2%nat; reflexivity]|].
  rewrite heap_history_alternates; [reflexivity|reflexivity|exists 2%nat; reflexivity].
Defined.

Example generateXYArrays_spec_witness :
  heap_usage (booted_history_world []) <> [] /\
  (generateXYArrays (booted_history_world [])).1 =
    (graph_x (replicate 60 100), graph_y (replicate 60 100)).
Proof.
  split; [discriminate|]. rewrite generateXYArrays_spec by discriminate. reflexivity.
Defined.

(** ** The WiFi screen *)

(** The number of nearby networks the WiFi task records. *)
Definition nearby_count (n : Z) : Z := if n >? 0 then Z.min n MAX_WIFI else 0.

Lemma nearby_count_bounds n : 0 <= nearby_count n <= MAX_WIFI.
Proof. unfold nearby_count, MAX_WIFI. z_cases; lia. Qed.

Lemma nearby_array_lookup sc count (j : nat) :
  (j < 8)%nat -> nearby_array sc count !! j = Some (if decide (Z.of_nat j < count) then nearby_line sc j else "").
Proof.
  intros Hj. unfold nearby_array. rewrite list_lookup_fmap, lookup_seq_lt by (cbv; lia). reflexivity.
Qed.

Lemma nearby_lines_array sc count (i fuel : nat) :
  0 <= count <= MAX_WIFI -> (i + fuel = 8)%nat ->
  nearby_lines (nearby_array sc count) count i fuel =
    (fun j => Some (nearby_line sc j)) <$> seq i (Z.to_nat count - i).
Proof.
  unfold MAX_WIFI. intros Hc. revert i. induction fuel as [|fuel IH]; intros i Hi; simpl.
  - replace (Z.to_nat count - i)%nat with O by lia. done.
  - case_decide as Hlt; unfold MAX_WIFI in *.
    + rewrite nearby_array_lookup by lia. rewrite decide_True by lia. rewrite IH by lia.
      replace (Z.to_nat count - i)%nat with (S (Z.to_nat count - S i)) by lia. done.
    + replace (Z.to_nat count - i)%nat with O by lia. done.
Qed.

Local Opaque nearby_lines nearby_array.

(** The WiFi screen shows the latest scan, bounded: after an
    iteration of [wifiDataTask], the next [drawWifi] receives its info
    (whatever the channel held: overwrite) and draws the title, the four
    lines of the connection, the nearby title, then either "No networks found" (no network, or
    [scanNetworks] failed with a negative result) or one line for each of
    the first [min n MAX_WIFI] networks, every read of [info.nearby] being
    inside the array. *)
Theorem wifi_publish_draw (ssid_ ip_ : string) (rssi_ : Z) (mac_ : string) (sc : scan_result) (w : World) :
  fst (drawWifi (exec (wifiDataTask_iter ssid_ ip_ rssi_ mac_ sc) w)) =
    Some ([Some "WiFi Info"; Some (String.append "SSID: " (toCharArray ssid_ 32)); Some (String.append "IP: " (toCharArray ip_ 20));
           Some (String.append "RSSI: " (String.append (int_to_string rssi_) " dBm"));
           Some (String.append "MAC: " (toCharArray mac_ 20)); Some "Nearby WiFi"] ++
          (if decide (nearby_count (scan_n sc) = 0) then [Some "No networks found"]
           else (fun j => Some (nearby_line sc j)) <$> seq 0 (Z.to_nat (nearby_count (scan_n sc))))).
Proof.
  unfold drawWifi, wifiDataTask_iter, exec. wsimpl. unfold wifi_lines. simpl.
  fold (nearby_count (scan_n sc)). case_decide; [done|].
  rewrite nearby_lines_array by (apply nearby_count_bounds || reflexivity).
  by rewrite Nat.sub_0_r.
Qed.

Local Transparent nearby_lines nearby_array.

(** ** The telemetry channels as latest-value registers *)

(** The tasks on the two one-slot channels, in any interleaving: an
    iteration of [systemDataTask] or [wifiDataTask] with the readings it
    gets, or a [drawSystemData] or [drawWifi] call of the display. *)
Inductive chan_op :=
| SysSample (min_free cpu millis heap_size free_heap : Z)
| SysDraw
| WifiScan (ssid_ ip_ : string) (rssi_ : Z) (mac_ : string) (sc : scan_result)
| WifiDraw.

(** What the display receives along such a run: at each [drawSystemData]
    the [SystemInfo] it got, at each [drawWifi] the lines it drew. *)
Fixpoint chan_run (ops : list chan_op) : ST World (list (option SystemInfo + option (list (option string)))) :=
  match ops with
  | [] => mret []
  | SysSample a b c d e :: r => systemDataTask_iter a b c d e;; chan_run r
  | SysDraw :: r => res ← drawSystemData; rest ← chan_run r; mret (inl (fst <$> res) :: rest)
  | WifiScan s i rs m sc :: r => wifiDataTask_iter s i rs m sc;; chan_run r
  | WifiDraw :: r => res ← drawWifi; rest ← chan_run r; mret (inr res :: rest)
  end.

(** The record each producer publishes, as the tasks build it. *)
Definition sys_sample (min_free cpu millis : Z) : SystemInfo := mkSystemInfo min_free cpu (millis / 1000).

Definition wifi_sample (ssid_ ip_ : string) (rssi_ : Z) (mac_ : string) (sc : scan_result) : WiFiInfo :=
  let count := if scan_n sc >? 0 then Z.min (scan_n sc) MAX_WIFI else 0 in
  mkWiFiInfo (toCharArray ssid_ 32) (toCharArray ip_ 20) rssi_ (toCharArray mac_ 20) (nearby_array sc count) count.

(** The same run against two latest-value registers. *)
Fixpoint chan_spec (rs : option SystemInfo) (rw : option WiFiInfo) (ops : list chan_op)
    : list (option SystemInfo + option (list (option string))) :=
  match ops with
  | [] => []
  | SysSample a b c _ _ :: r => chan_spec (LatestRegister.publish (sys_sample a b c) rs) rw r
  | SysDraw :: r => inl (fst (LatestRegister.poll rs)) :: chan_spec (snd (LatestRegister.poll rs)) rw r
  | WifiScan s i rs' m sc :: r => chan_spec rs (LatestRegister.publish (wifi_sample s i rs' m sc) rw) r
  | WifiDraw :: r => inr (wifi_lines <$> fst (LatestRegister.poll rw)) :: chan_spec rs (snd (LatestRegister.poll rw)) r
  end.

Lemma gen_xy_sys_info i n q x_c y_c w : sys_info_queue (snd (gen_xy i n q x_c y_c w)) = sys_info_queue w.
Proof.
  revert i q x_c y_c w. induction n as [|n IH]; intros i q x_c y_c w; [done|].
  destruct q as [|y [|z q]]; simpl; [by destruct w|done|apply IH].
Qed.

Lemma gen_xy_wifi i n q x_c y_c w : wifi_queue (snd (gen_xy i n q x_c y_c w)) = wifi_queue w.
Proof.
  revert i q x_c y_c w. induction n as [|n IH]; intros i q x_c y_c w; [done|].
  destruct q as [|y [|z q]]; simpl; [by destruct w|done|apply IH].
Qed.

(** Each call's effect on the two channels. *)
Lemma drawSystemData_chan w :
  fst <$> fst (drawSystemData w) = fst (xQueueReceive (sys_info_queue w)) /\
  sys_info_queue (exec drawSystemData w) = snd (xQueueReceive (sys_info_queue w)) /\
  wifi_queue (exec drawSystemData w) = wifi_queue w.
Proof.
  unfold drawSystemData, exec. rewrite st_run_bind. cbn [fst snd st_get].
  destruct (xQueueReceive (sys_info_queue w)) as [[info|] q] eqn:Hr.
  - rewrite !st_run_bind. unfold generateXYArrays. rewrite st_run_bind. cbn -[gen_xy].
    match goal with |- context [gen_xy ?i ?n ?hq ?x ?y ?w'] =>
      pose proof (gen_xy_sys_info i n hq x y w'); pose proof (gen_xy_wifi i n hq x y w');
      destruct (gen_xy i n hq x y w') as [[x' y'] w''] end.
    simpl in *. cbv [constant] in *. split; [done|]. split; congruence.
  - wsimpl. destruct w; done.
Qed.

Lemma drawWifi_chan w :
  fst (drawWifi w) = wifi_lines <$> fst (xQueueReceive (wifi_queue w)) /\
  sys_info_queue (exec drawWifi w) = sys_info_queue w /\
  wifi_queue (exec drawWifi w) = snd (xQueueReceive (wifi_queue w)).
Proof.
  unfold drawWifi, exec. rewrite st_run_bind. cbn [fst snd st_get].
  destruct (xQueueReceive (wifi_queue w)) as [[info|] q]; wsimpl; done.
Qed.

Lemma systemDataTask_iter_chan a b c d e w :
  sys_info_queue (exec (systemDataTask_iter a b c d e) w) = xQueueOverwrite (sys_info_queue w) (sys_sample a b c) /\
  wifi_queue (exec (systemDataTask_iter a b c d e) w) = wifi_queue w.
Proof. unfold systemDataTask_iter, exec. wsimpl. done. Qed.

Lemma wifiDataTask_iter_chan s i r m sc w :
  sys_info_queue (exec (wifiDataTask_iter s i r m sc) w) = sys_info_queue w /\
  wifi_queue (exec (wifiDataTask_iter s i r m sc) w) = xQueueOverwrite (wifi_queue w) (wifi_sample s i r m sc).
Proof. unfold wifiDataTask_iter, exec. wsimpl. done. Qed.

(** (C39) The telemetry channels are latest-value registers: along any
    interleaving of [systemDataTask] and [wifiDataTask] iterations with
    the display's [drawSystemData] and [drawWifi] calls, starting from
    one-slot queues that represent two registers, the display receives
    exactly what the registers give: at each draw the record of the last
    iteration since the previous draw, or nothing when there was none.
    This rests on the producers' [xQueueOverwrite] on the one-slot
    queues: an [xQueueSend] would keep the older record. *)
Theorem telemetry_channels_registers ops w rs rw :
  reg_rel (sys_info_queue w) rs -> reg_rel (wifi_queue w) rw ->
  fst (chan_run ops w) = chan_spec rs rw ops.
Proof.
  revert w rs rw. induction ops as [|op ops IH]; intros w rs rw Hs Hw; [done|].
  destruct op; cbn [chan_run chan_spec]; rewrite ?st_run_bind.
  - destruct (systemDataTask_iter_chan min_free cpu millis heap_size free_heap w) as [H1 H2].
    apply IH; fold (exec (systemDataTask_iter min_free cpu millis heap_size free_heap) w);
      [rewrite H1; by apply reg_rel_overwrite | by rewrite H2].
  - destruct (drawSystemData_chan w) as (H0 & H1 & H2). destruct (reg_rel_receive _ _ Hs) as [Hf Hr].
    cbn [fst mret st_ret]. rewrite H0, Hf. f_equal.
    apply IH; fold (exec drawSystemData w); [by rewrite H1 | by rewrite H2].
  - destruct (wifiDataTask_iter_chan ssid_ ip_ rssi_ mac_ sc w) as [H1 H2].
    apply IH; fold (exec (wifiDataTask_iter ssid_ ip_ rssi_ mac_ sc) w);
      [by rewrite H1 | rewrite H2; by apply reg_rel_overwrite].
  - destruct (drawWifi_chan w) as (H0 & H1 & H2). destruct (reg_rel_receive _ _ Hw) as [Hf Hr].
    cbn [fst mret st_ret]. rewrite H0, Hf. f_equal.
    apply IH; fold (exec drawWifi w); [by rewrite H1 | by rewrite H2].
Qed.

Lemma telemetry_channels_registers_witness :
  let w := globals_init (mkSd true []) in
  let ops := [SysSample 1 2 3000 4 5; SysSample 6 7 8000 9 10; SysDraw; SysDraw; WifiDraw] in
  reg_rel (sys_info_queue w) None /\ reg_rel (wifi_queue w) None /\
  fst (chan_run ops w) = chan_spec None None ops.
Proof.
  cbv zeta.
  assert (Hs : reg_rel (sys_info_queue (globals_init (mkSd true []))) None)
    by (split; [reflexivity|split; [unfold q_wf; simpl; lia|reflexivity]]).
  assert (Hw : reg_rel (wifi_queue (globals_init (mkSd true []))) None)
    by (split; [reflexivity|split; [unfold q_wf; simpl; lia|reflexivity]]).
  split; [exact Hs|]. split; [exact Hw|]. exact (telemetry_channels_registers _ _ _ _ Hs Hw).
Defined.
