(* ===== verification/Boot.v ===== *)
(** * Boot-time bring-up: [initWiFi] and [initNTP] (src/helpers.cpp)

    [setup] (src/main.cpp) calls, after [initQueues], [initWiFi], which
    polls [WiFi.status()] once a second until it reports [WL_CONNECTED],
    and [initNTP], which configures the SNTP client and reads the time once
    into the global [t].  What the hardware answers is the record
    [boot_env]: whether the queue allocations succeed, the status seen at
    each poll (a function of the poll's number, so a network that never
    comes up is a function that is [false] everywhere), and the result of
    [getLocalTime].

    The wait loop is [wifi_wait], by structural recursion on the number of
    polls it may make; the theorems show that it returns exactly at the
    first poll that sees the connection, that enough polls always reach
    that poll when there is one, and that no number of polls makes it
    return when there is none. *)

From S2P Require Import Prelude Globals Telemetry.

(** What the hardware answers while [setup] runs. *)
Record boot_env := mkBootEnv {
  alloc_ok : bool;               (* every [xQueueCreate] of [initQueues] returns a handle *)
  wifi_connected : nat -> bool;  (* [WiFi.status() == WL_CONNECTED] at poll k *)
  boot_time : option tm          (* what [getLocalTime(&t)] reads, if it succeeds *)
}.

(** [while (WiFi.status() != WL_CONNECTED) { delay(1000); ... }] from
    poll [k], with at most [fuel] more polls: the number of the poll that
    sees the connection, which is also the number of one-second delays
    spent.  [None]: no poll within the budget saw it. *)
Fixpoint wifi_wait (fuel : nat) (connected : nat -> bool) (k : nat) : option nat :=
  if connected k then Some k
  else match fuel with
       | O => None
       | S f => wifi_wait f connected (S k)
       end.

(** [initWiFi()]: [WiFi.begin], then the wait loop from the first poll. *)
Definition initWiFi (fuel : nat) (env : boot_env) : option nat :=
  wifi_wait fuel (wifi_connected env) 0.

(** [initNTP()]: [configTime] only configures the SNTP client;
    [getLocalTime(&t)] is the statement [ntpTimeTask] repeats, and writes
    [t] only when it gets a time. *)
Definition initNTP (env : boot_env) : ST World unit :=
  ntpTimeTask_iter (boot_time env).

(** The environment of a normal boot: the queues are allocated, the
    network is up at the first poll, and no time is available yet. *)
Definition boot_ok : boot_env := mkBootEnv true (fun _ => true) None.

(** ** The wait loop *)

Section WifiWait.
Local Open Scope nat_scope.
Context (connected : nat -> bool).

Lemma wifi_wait_Some fuel k j :
  wifi_wait fuel connected k = Some j <->
  k <= j <= k + fuel /\ connected j = true /\ forall i, k <= i < j -> connected i = false.
Proof.
  revert k. induction fuel as [|fuel IH]; intros k; simpl.
  - destruct (connected k) eqn:Hk; split.
    + intros [= <-]. split; [lia|]. split; [done|]. intros; lia.
    + intros ([? ?] & _ & _). f_equal. lia.
    + done.
    + intros ([? ?] & Hj & _). assert (j = k) as -> by lia. congruence.
  - destruct (connected k) eqn:Hk.
    + split.
      * intros [= <-]. split; [lia|]. split; [done|]. intros; lia.
      * intros ([? ?] & _ & Hb). destruct (decide (k = j)) as [->|]; [done|].
        specialize (Hb k). rewrite Hb in Hk by lia. done.
    + rewrite IH. split.
      * intros ([? ?] & Hj & Hb). split; [lia|]. split; [done|].
        intros i ?. destruct (decide (i = k)) as [->|]; [done|]. apply Hb. lia.
      * intros ([? ?] & Hj & Hb). assert (k <> j) by congruence.
        split; [lia|]. split; [done|]. intros i ?. apply Hb. lia.
Qed.

Lemma wifi_wait_None fuel k :
  wifi_wait fuel connected k = None <-> forall i, k <= i <= k + fuel -> connected i = false.
Proof.
  revert k. induction fuel as [|fuel IH]; intros k; simpl.
  - destruct (connected k) eqn:Hk; split; try done.
    + intros H. rewrite H in Hk by lia. done.
    + intros _ i ?. by replace i with k by lia.
  - destruct (connected k) eqn:Hk.
    + split; [done|]. intros H. rewrite H in Hk by lia. done.
    + rewrite IH. split.
      * intros H i ?. destruct (decide (i = k)) as [->|]; [done|]. apply H. lia.
      * intros H i ?. apply H. lia.
Qed.

End WifiWait.

(** Some number of polls makes the loop return exactly when some poll
    sees the connection. *)
Lemma initWiFi_returns env :
  (exists fuel j, initWiFi fuel env = Some j) <-> exists k, wifi_connected env k = true.
Proof.
  unfold initWiFi. split.
  - intros (fuel & j & (_ & Hj & _)%wifi_wait_Some). eauto.
  - intros [k Hk]. exists k. destruct (wifi_wait k (wifi_connected env) 0) as [j|] eqn:Hw; [eauto|].
    apply wifi_wait_None with (i := k) in Hw; [congruence|lia].
Qed.

(** A larger budget of polls changes nothing once the loop returns. *)
Lemma initWiFi_mono fuel fuel' env j :
  initWiFi fuel env = Some j -> (fuel <= fuel')%nat -> initWiFi fuel' env = Some j.
Proof. unfold initWiFi. rewrite !wifi_wait_Some. intros (? & ? & ?) ?. split; [lia|done]. Qed.

(** (C35) [initWiFi] returns, after [j] one-second delays, exactly when
    poll [j] is the first to see the connection and the budget allows
    [j] polls after the first. *)
Theorem initWiFi_spec fuel env j :
  initWiFi fuel env = Some j <->
  (j <= fuel)%nat /\ wifi_connected env j = true /\ forall i, (i < j)%nat -> wifi_connected env i = false.
Proof.
  unfold initWiFi. rewrite wifi_wait_Some. split.
  - intros ([? ?] & ? & Hb). split; [lia|]. split; [done|]. intros i ?. apply Hb. lia.
  - intros (? & ? & Hb). split; [lia|]. split; [done|]. intros i ?. apply Hb. lia.
Qed.
