(* ===== verification/Draw.v ===== *)
(** * The drawing interface and C's float-to-int conversion

    The code draws through the [TFT_eSPI] object [tft].  Its calls are
    kept as a list of commands [draw_cmd], in the order the code issues
    them; the pixels they set are the library's business and are not
    modelled.  Colours and text datums are the library's named constants.

    Some layout code computes in [float] and stores the result in an
    [int].  Float arithmetic is modelled as exact rational arithmetic
    ([Q]), and the conversion to [int] as C's truncation toward zero
    ([float_to_int]); the single-precision rounding of each operation is
    not modelled. *)

From S2P Require Import Prelude.
From Stdlib Require Import QArith Qround.
Open Scope Z_scope.

Inductive color := TFT_BLACK | TFT_WHITE | TFT_BLUE | TFT_GREEN | TFT_DARKGREY | TFT_RED.

(** The two sprites of the game ([TFT_eSprite paddle, ball] of src/tasks.cpp). *)
Inductive sprite := PADDLE | BALL.

#[export] Instance color_eq_dec : EqDecision color.
Proof. solve_decision. Defined.

Inductive datum := MC_DATUM | MR_DATUM | TL_DATUM.

#[export] Instance datum_eq_dec : EqDecision datum.
Proof. solve_decision. Defined.

(** The [tft] calls of the modelled drawing code. *)
Inductive draw_cmd :=
| FillRect (x y w h : Z) (c : color)
| DrawRect (x y w h : Z) (c : color)
| DrawLine (x0 y0 x1 y1 : Z) (c : color)
| DrawFastHLine (x y w : Z) (c : color)
| SetTextColor (fg bg : color)
| SetTextDatum (d : datum)
| SetTextSize (n : Z)
| DrawString (s : string) (x y : Z)
| DrawNumber (n x y : Z)
| TftInit
| SetRotation (r : Z)
| SetSwapBytes (b : bool)
| FillScreen (c : color)
| FillCircle (x y r : Z) (c : color)
| DeleteSprite (s : sprite)
| CreateSprite (s : sprite) (w h : Z)
| SpriteFillRect (s : sprite) (x y w h : Z) (c : color)
| SpriteFillCircle (s : sprite) (x y r : Z) (c : color)
| PushSprite (s : sprite) (x y : Z).

(** [(int) f]: truncation toward zero. *)
Definition float_to_int (q : Q) : Z :=
  if Qle_bool 0 q then Qfloor q else Qceiling q.

(** A C array [a] read at [a[i]]: [None] out of its bounds, where the
    read is undefined. *)
Definition arr_at (a : list Z) (i : Z) : option Z :=
  if decide (0 <= i) then a !! Z.to_nat i else None.

Lemma float_to_int_Z (z : Z) : float_to_int (inject_Z z) = z.
Proof. unfold float_to_int. by destruct (Qle_bool 0 (inject_Z z)); rewrite ?Qfloor_Z, ?Qceiling_Z. Qed.

(** A value between two integers converts to an integer between them. *)
Lemma float_to_int_between (a b : Z) (q : Q) :
  (inject_Z a <= q)%Q -> (q <= inject_Z b)%Q -> a <= float_to_int q <= b.
Proof.
  intros Ha Hb. unfold float_to_int. destruct (Qle_bool 0 q).
  - pose proof (Qfloor_resp_le _ _ Ha). pose proof (Qfloor_resp_le _ _ Hb). rewrite !Qfloor_Z in *. lia.
  - pose proof (Qceiling_resp_le _ _ Ha). pose proof (Qceiling_resp_le _ _ Hb). rewrite !Qceiling_Z in *. lia.
Qed.

Lemma arr_at_lt (a : list Z) (i : Z) : 0 <= i < Z.of_nat (length a) -> is_Some (arr_at a i).
Proof. intros Hi. unfold arr_at. rewrite decide_True by lia. apply lookup_lt_is_Some_2. lia. Qed.

Lemma arr_at_Some (a : list Z) (i v : Z) : arr_at a i = Some v -> 0 <= i /\ a !! Z.to_nat i = Some v.
Proof. unfold arr_at. by case_decide. Qed.
