(* ===== verification/Image.v ===== *)
(** * Transposition of a camera frame (src/helpers.cpp)

    [transposeImageInPlace] swaps pixel [(y, x)] with pixel [(x, y)] of a
    square RGB565 frame, two bytes per pixel, in place; [transposeImage]
    builds the transposed frame in a new buffer with a running counter and
    copies it back.  Neither is called by the firmware (the call in
    [frameCaptureTask] is commented out), but both are part of its helper
    library.

    The frame buffer [fb->buf] is a list of bytes (any element type [A]
    with a default value: the theorems do not depend on it).  Writes are
    stdpp's [<[i := v]>]; a read of [fb->buf[i]] is [!!!], and the
    theorems keep every index inside the buffer.

    - [transposeImageInPlace_spec]: on a square frame of [n * n] pixels the
      result holds at pixel [(y, x)] the input's pixel [(x, y)]: it is the
      transpose.  The proof is a loop invariant "transposed up to row [k],
      column [m]" in the style of the matrix developments.
    - [transposeImageInPlace_involutive]: transposing twice gives back the
      frame.
    - [transposeImage_duplicates_first_byte]: [transposeImage] increments
      its column counter one byte late, so output byte 2 is input byte 0
      again: the function is not a transpose and loses data. *)

From S2P Require Import Prelude.

#[export] Instance byte_inhabited : Inhabited Byte.byte := populate Byte.x00.

Section Transpose.
Local Open Scope nat_scope.
Context {A : Type} `{Inhabited A}.

(** [const int bpp = 2;] (RGB565). *)
Definition bpp : nat := 2.

(** Byte [c] of pixel [(y, x)] of a [w]-pixel-wide frame:
    [(y * width + x) * bpp + c]. *)
Definition px (w y x c : nat) : nat := (y * w + x) * bpp + c.

(** The body of the inner loop, statement by statement:
    [tmp0 = buf[idx1]; tmp1 = buf[idx1 + 1]; buf[idx1] = buf[idx2];
     buf[idx1 + 1] = buf[idx2 + 1]; buf[idx2] = tmp0; buf[idx2 + 1] = tmp1;] *)
Definition swap_pixel (idx1 idx2 : nat) (buf : list A) : list A :=
  let tmp0 := buf !!! idx1 in
  let tmp1 := buf !!! (idx1 + 1) in
  let buf := <[idx1 := buf !!! idx2]> buf in
  let buf := <[idx1 + 1 := buf !!! (idx2 + 1)]> buf in
  let buf := <[idx2 := tmp0]> buf in
  <[idx2 + 1 := tmp1]> buf.

(** [for (int x = y + 1; x < width; x++) { ... }] *)
Definition transpose_row (width y : nat) (buf : list A) : list A :=
  foldl (fun buf x => swap_pixel ((y * width + x) * bpp) ((x * width + y) * bpp) buf)
    buf (seq (S y) (width - S y)).

(** [transposeImageInPlace(fb)]: a frame that is not square is left
    unchanged (after an error message). *)
Definition transposeImageInPlace (width height : nat) (buf : list A) : list A :=
  if decide (width <> height) then buf
  else foldl (fun buf y => transpose_row width y buf) buf (seq 0 height).

(** [transposeImage(fb, bytes_per_pixel)]: the loop state is
    [(counter, start_index)] and the bytes of [img_buf] written so far; the
    second result lists the indices read outside [fb->buf] (undefined
    behaviour). *)
Definition transpose_copy_step (size bpp_ : nat) (src : list A)
    (st : nat * nat * list A * list nat) (i : nat) : nat * nat * list A * list nat :=
  let '(counter, start_index, img, oob) := st in
  let index := start_index + counter * size + i mod bpp_ in
  let img := img ++ [src !!! index] in
  let oob := if decide (index < length src) then oob else oob ++ [index] in
  let counter := if decide (i <> 0 /\ i mod bpp_ = 0) then S counter else counter in
  if decide (counter = size) then (0, S start_index, img, oob)
  else (counter, start_index, img, oob).

Definition transposeImage (width bytes_per_pixel : nat) (buf : list A) : list A * list nat :=
  let '(_, _, img, oob) :=
    foldl (transpose_copy_step width bytes_per_pixel buf) (0, 0, [], []) (seq 0 (length buf)) in
  (img, oob).

(** ** The in-place transpose *)

Lemma swap_pixel_length i1 i2 buf : length (swap_pixel i1 i2 buf) = length buf.
Proof. unfold swap_pixel. by rewrite !length_insert. Qed.

Lemma lookup_total_in (buf : list A) i : i < length buf -> buf !! i = Some (buf !!! i).
Proof. intros Hi. apply list_lookup_lookup_total. by apply lookup_lt_is_Some_2. Qed.

(** The two pixels swapped do not overlap and lie inside the buffer: each
    byte of the result is a byte of the input, at the index the swap
    exchanges it with. *)
Lemma swap_pixel_lookup i1 i2 buf k :
  (i1 + 1 < i2 \/ i2 + 1 < i1) -> i1 + 1 < length buf -> i2 + 1 < length buf ->
  swap_pixel i1 i2 buf !! k =
    buf !! (if decide (k = i1) then i2 else if decide (k = i1 + 1) then i2 + 1
            else if decide (k = i2) then i1 else if decide (k = i2 + 1) then i1 + 1 else k).
Proof.
  intros Hd H1 H2. unfold swap_pixel.
  repeat case_decide; try match goal with Hk : k = _ |- _ => rewrite !Hk end;
    repeat first [ rewrite list_lookup_insert_eq by (rewrite ?length_insert; lia)
                 | rewrite list_lookup_insert_ne by lia
                 | rewrite list_lookup_total_insert_ne by lia ];
    try done; by rewrite lookup_total_in by lia.
Qed.

Lemma px_inj n y x c y' x' c' :
  x < n -> x' < n -> c < bpp -> c' < bpp -> px n y x c = px n y' x' c' -> y = y' /\ x = x' /\ c = c'.
Proof.
  unfold px, bpp. intros Hx Hx' Hc Hc' Heq.
  assert (Hp : y * n + x = y' * n + x' /\ c = c') by nia. destruct Hp as [Hp ->].
  destruct (Nat.lt_trichotomy y y') as [Hy|[->|Hy]]; [nia| |nia]. lia.
Qed.

Lemma px_bound n y x c : y < n -> x < n -> c < bpp -> px n y x c < n * n * bpp.
Proof. unfold px, bpp. intros. nia. Qed.

(** The pixels the loops have swapped when row [k] is done up to column
    [m] (exclusive): the pairs [(y, x)], [y < x], of the rows before [k] and
    of row [k] before column [m], in both orders. *)
Definition done_upto (k m i j : nat) : bool :=
  bool_decide ((i < j /\ (i < k \/ i = k /\ j < m)) \/ (j < i /\ (j < k \/ j = k /\ i < m))).

(** The loop invariant: [b] is [b0] with the pixels [done] swapped. *)
Definition transposed_upto (n : nat) (b0 : list A) (done : nat -> nat -> bool) (b : list A) : Prop :=
  length b = length b0 /\
  forall i j c, i < n -> j < n -> c < bpp ->
    b !! px n i j c = b0 !! (if done i j then px n j i c else px n i j c).

Lemma transposed_upto_ext n b0 d1 d2 b :
  (forall i j, i < n -> j < n -> d1 i j = d2 i j) ->
  transposed_upto n b0 d1 b -> transposed_upto n b0 d2 b.
Proof. intros Hd [Hl Hb]. split; [done|]. intros i j c Hi Hj Hc. rewrite <- Hd by done. auto. Qed.

(** Two different pixels do not share a byte. *)
Lemma px_apart n y x y' x' :
  px n y x 0 <> px n y' x' 0 -> px n y x 0 + 1 < px n y' x' 0 \/ px n y' x' 0 + 1 < px n y x 0.
Proof. unfold px, bpp. generalize (y * n + x) (y' * n + x'). lia. Qed.

Lemma px_succ n y x : px n y x 0 + 1 = px n y x 1.
Proof. unfold px. lia. Qed.

(** Equal byte indices of two pixels of the frame are the same byte. *)
Ltac px_eq :=
  repeat match goal with
  | H : px ?n _ _ _ = px ?n _ _ _ |- _ =>
      apply px_inj in H as (? & ? & ?); [subst|unfold bpp in *; lia..]
  end.

(** One swap of the inner loop, read at the byte of pixel [(i, j)]. *)
Lemma swap_pixel_px n b y x i j c :
  length b = n * n * bpp -> y < n -> x < n -> y <> x -> i < n -> j < n -> c < bpp ->
  swap_pixel (px n y x 0) (px n x y 0) b !! px n i j c =
  b !! (if bool_decide ((i = y /\ j = x) \/ (i = x /\ j = y)) then px n j i c else px n i j c).
Proof.
  intros Hl Hy Hx Hne Hi Hj Hc.
  assert (Hb : forall y x, y < n -> x < n -> px n y x 1 < length b)
    by (intros; rewrite Hl; apply px_bound; unfold bpp; lia).
  assert (Hd : px n y x 0 <> px n x y 0) by (intros Heq; px_eq; lia).
  rewrite swap_pixel_lookup; [|by apply px_apart|rewrite px_succ; by apply Hb..].
  rewrite !px_succ.
  unfold bpp in Hc. case_bool_decide as Hs; repeat case_decide; px_eq; try (f_equal; lia);
    destruct Hs as [[-> ->]|[-> ->]]; destruct c as [|[|]]; try lia; tauto.
Qed.

(** Swapping two pixels the invariant has not swapped yet extends it by
    the pair. *)
Lemma transposed_upto_swap n b0 done b y x :
  length b0 = n * n * bpp -> y < n -> x < n -> y <> x -> done y x = false -> done x y = false ->
  transposed_upto n b0 done b ->
  transposed_upto n b0 (fun i j => done i j || bool_decide ((i = y /\ j = x) \/ (i = x /\ j = y)))
    (swap_pixel (px n y x 0) (px n x y 0) b).
Proof.
  intros Hl Hy Hx Hne Hd1 Hd2 [Hlb Hb]. split; [by rewrite swap_pixel_length|].
  intros i j c Hi Hj Hc. rewrite swap_pixel_px by (rewrite ?Hlb; done).
  case_bool_decide as Hs.
  - rewrite Hb by (destruct Hs as [[-> ->]|[-> ->]]; done).
    destruct Hs as [[-> ->]|[-> ->]]; by rewrite ?Hd1, ?Hd2, orb_true_r.
  - rewrite Hb by done. by rewrite orb_false_r.
Qed.

Lemma px_0 n y x : (y * n + x) * bpp = px n y x 0.
Proof. unfold px. lia. Qed.

(** The inner loop from column [m] on completes row [k]. *)
Lemma transpose_row_from n b0 k m b :
  length b0 = n * n * bpp -> k < m -> m <= n ->
  transposed_upto n b0 (done_upto k m) b ->
  transposed_upto n b0 (done_upto k n)
    (foldl (fun buf x => swap_pixel ((k * n + x) * bpp) ((x * n + k) * bpp) buf) b (seq m (n - m))).
Proof.
  intros Hl. remember (n - m) as d eqn:Hd. revert m b Hd.
  induction d as [|d IH]; intros m b Hd Hkm Hmn Hinv; simpl.
  - by replace m with n in Hinv by lia.
  - rewrite !px_0. apply IH; [lia|lia|lia|].
    eapply transposed_upto_ext; [|apply (transposed_upto_swap n b0 (done_upto k m)); try done; try lia;
      unfold done_upto; apply bool_decide_eq_false; lia].
    intros i j _ _. unfold done_upto. by repeat case_bool_decide; simpl; try lia.
Qed.

(** The outer loop from row [k] on completes the frame. *)
Lemma transpose_rows n b0 k b :
  length b0 = n * n * bpp -> k <= n ->
  transposed_upto n b0 (done_upto k k) b ->
  transposed_upto n b0 (done_upto n n) (foldl (fun buf y => transpose_row n y buf) b (seq k (n - k))).
Proof.
  intros Hl. remember (n - k) as d eqn:Hd. revert k b Hd.
  induction d as [|d IH]; intros k b Hd Hk Hinv; simpl.
  - by replace k with n in Hinv by lia.
  - apply IH; [lia|lia|]. unfold transpose_row.
    eapply transposed_upto_ext; [|apply transpose_row_from; try done; try lia;
      eapply transposed_upto_ext; [|exact Hinv]].
    + intros i j Hi Hj. unfold done_upto. by repeat case_bool_decide; try lia.
    + intros i j Hi Hj. unfold done_upto. by repeat case_bool_decide; try lia.
Qed.

(** Every byte index of an [n * n] frame is a byte of a pixel. *)
Lemma px_surj n k : k < n * n * bpp -> exists y x c, y < n /\ x < n /\ c < bpp /\ k = px n y x c.
Proof.
  unfold px, bpp. intros Hk.
  assert (Hn : 0 < n) by (destruct n; lia).
  exists (k / 2 / n), (k / 2 mod n), (k mod 2).
  pose proof (Nat.div_mod (k / 2) n ltac:(lia)). pose proof (Nat.div_mod k 2 ltac:(lia)).
  pose proof (Nat.mod_upper_bound (k / 2) n ltac:(lia)). pose proof (Nat.mod_upper_bound k 2 ltac:(lia)).
  assert (k / 2 < n * n) by (apply Nat.Div0.div_lt_upper_bound; lia).
  assert (k / 2 / n < n) by (apply Nat.Div0.div_lt_upper_bound; lia).
  repeat split; try lia.
Qed.

(** ** [transposeImage] *)

(** One iteration appends the byte it reads to [img_buf]. *)
Lemma transpose_copy_step_img size b src st i :
  (transpose_copy_step size b src st i).1.2 =
    st.1.2 ++ [src !!! (st.1.1.2 + st.1.1.1 * size + i mod b)].
Proof. destruct st as [[[c s] img] oob]. unfold transpose_copy_step. by repeat case_decide. Qed.

(** The loop only appends to [img_buf]. *)
Lemma transpose_copy_prefix size b src l st :
  exists rest, (foldl (transpose_copy_step size b src) st l).1.2 = st.1.2 ++ rest.
Proof.
  revert st. induction l as [|i l IH]; intros st; simpl.
  - exists []. by rewrite app_nil_r.
  - destruct (IH (transpose_copy_step size b src st i)) as [rest ->].
    rewrite transpose_copy_step_img, <- app_assoc. eauto.
Qed.

Lemma transposeImage_img w b buf :
  (transposeImage w b buf).1 = (foldl (transpose_copy_step w b buf) (0, 0, [], []) (seq 0 (length buf))).1.2.
Proof. unfold transposeImage. by destruct (foldl _ _ _) as [[[? ?] ?] ?]. Qed.

(** ** The theorems *)

Lemma transposeImageInPlace_upto n (buf : list A) :
  length buf = n * n * bpp -> transposed_upto n buf (done_upto n n) (transposeImageInPlace n n buf).
Proof.
  intros Hl. unfold transposeImageInPlace. rewrite decide_False by tauto.
  replace (seq 0 n) with (seq 0 (n - 0)) by (f_equal; lia).
  apply transpose_rows; [done|lia|]. split; [done|].
  intros i j c _ _ _. unfold done_upto. by rewrite bool_decide_eq_false_2 by lia.
Qed.

(** (C25) [transposeImageInPlace] transposes: on a square frame of
    [n * n] RGB565 pixels, the result has the length of the input and holds
    at byte [c] of pixel [(y, x)] the input's byte [c] of pixel [(x, y)]. *)
Theorem transposeImageInPlace_spec n (buf : list A) :
  length buf = n * n * bpp ->
  length (transposeImageInPlace n n buf) = length buf /\
  forall y x c, y < n -> x < n -> c < bpp ->
    transposeImageInPlace n n buf !! px n y x c = buf !! px n x y c.
Proof.
  intros Hl. destruct (transposeImageInPlace_upto n buf Hl) as [Hlen Hb]. split; [done|].
  intros y x c Hy Hx Hc. rewrite Hb by done. unfold done_upto.
  case_bool_decide; [done|]. by replace x with y by lia.
Qed.

(** Transposing a square frame twice gives it back. *)
Theorem transposeImageInPlace_involutive n (buf : list A) :
  length buf = n * n * bpp -> transposeImageInPlace n n (transposeImageInPlace n n buf) = buf.
Proof.
  intros Hl. destruct (transposeImageInPlace_upto n buf Hl) as [Hl1 Hb1].
  assert (Hl1' : length (transposeImageInPlace n n buf) = n * n * bpp) by lia.
  destruct (transposeImageInPlace_upto n _ Hl1') as [Hl2 Hb2].
  apply list_eq. intros k. destruct (decide (k < n * n * bpp)) as [Hk|Hk].
  - destruct (px_surj n k Hk) as (y & x & c & Hy & Hx & Hc & ->).
    rewrite Hb2 by done. unfold done_upto.
    case_bool_decide; rewrite Hb1 by done; unfold done_upto; case_bool_decide; try lia;
      try done; by replace x with y by lia.
  - rewrite !lookup_ge_None_2; [done|lia|]. rewrite Hl2, Hl1. lia.
Qed.

(** (C36) [transposeImage] is not a transpose: it increments its column
    counter after the read of the byte that starts a pixel, so on any
    frame of at least two by two pixels the third byte it writes is the
    input's first byte again, where the transpose has the first byte of
    pixel [(1, 0)]. *)
Theorem transposeImage_duplicates_first_byte n (buf : list A) :
  2 <= n -> length buf = n * n * bpp ->
  (transposeImage n bpp buf).1 !! 2 = buf !! 0 /\
  transposeImageInPlace n n buf !! 2 = buf !! px n 1 0 0.
Proof.
  intros Hn Hl. split.
  - rewrite transposeImage_img.
    replace (length buf) with (3 + (length buf - 3)) by (unfold bpp in Hl; nia).
    rewrite seq_app, foldl_app.
    destruct (transpose_copy_prefix n bpp buf (seq (0 + 3) (length buf - 3))
      (foldl (transpose_copy_step n bpp buf) (0, 0, [], []) (seq 0 3))) as [rest ->].
    unfold bpp in *. destruct n as [|[|n']]; [lia|lia|]. simpl.
    rewrite lookup_total_in by nia. done.
  - destruct (transposeImageInPlace_spec n buf Hl) as [_ Hb].
    by rewrite <- (Hb 0 1 0) by (unfold bpp; lia).
Qed.

End Transpose.

(** A 2 x 2 RGB565 frame with distinct bytes. *)
Definition frame2 : list Byte.byte :=
  [Byte.x00; Byte.x01; Byte.x02; Byte.x03; Byte.x04; Byte.x05; Byte.x06; Byte.x07].

Lemma transposeImageInPlace_spec_witness :
  length frame2 = (2 * 2 * bpp)%nat /\
  transposeImageInPlace 2 2 frame2 !! px 2 0 1 0 = frame2 !! px 2 1 0 0.
Proof.
  split; [reflexivity|]. apply (proj2 (transposeImageInPlace_spec 2 frame2 eq_refl)); unfold bpp; lia.
Defined.

Lemma transposeImageInPlace_involutive_witness :
  length frame2 = (2 * 2 * bpp)%nat /\
  transposeImageInPlace 2 2 (transposeImageInPlace 2 2 frame2) = frame2.
Proof. split; [reflexivity|]. apply transposeImageInPlace_involutive. reflexivity. Defined.

Lemma transposeImage_duplicates_first_byte_witness :
  (2 <= 2)%nat /\ length frame2 = (2 * 2 * bpp)%nat /\
  (transposeImage 2 bpp frame2).1 !! 2%nat = Some Byte.x00 /\
  transposeImageInPlace 2 2 frame2 !! 2%nat = Some Byte.x04.
Proof.
  split; [lia|]. split; [reflexivity|].
  exact (transposeImage_duplicates_first_byte 2 frame2 ltac:(lia) eq_refl).
Defined.
