(* ===== verification/Display.v ===== *)
(** * The display task: one tick of the screen state machine

    [displayTask_iter] is one iteration of the [for (;;)] loop of
    [displayTask] (src/tasks.cpp): the [switch (display_state)] with, for
    each screen, its one-time setup (guarded by [menu_init] or
    [camera_init]), its draw functions and its button handler.  The pieces
    are the operations of the component files; what is added here is the
    menu highlight bookkeeping of src/display.cpp ([drawMenu] and
    [updateMenuHighlight] keep [last_button_index]) and the composition.

    [drawStatusBar] and the frame-rate counter at the end of the loop
    touch only their own state; [StatusBar.display_tick] is this tick with
    both added.  The [GAME1] tick here leaves out the [static] state of
    [updateGame1]; [Game.game1_screen] is the same tick with that state
    threaded.  The draw calls of [drawMenu] and [updateMenuHighlight], and
    what they leave on the screen, are in [Menu]. *)

From S2P Require Import Prelude Queue Platform Globals Navigation Camera FileBrowser Telemetry.

(** [drawMenu]: draws the items and records the highlighted one. *)
Definition drawMenu : ST World unit :=
  st_modify (fun w => w {{ last_button_index := button_index w }}).

Definition updateMenuHighlight : ST World unit :=
  w ← st_get;
  if decide (last_button_index w <> button_index w)
  then st_put (w {{ last_button_index := button_index w }})
  else skip.

(** [if (!menu_init) { ...; menu_init = true; }] *)
Definition init_once (setup : ST World unit) : ST World unit :=
  w ← st_get;
  if menu_init w then skip else setup;; st_modify (fun w => w {{ menu_init := true }}).

Definition menu_screen (menu : list MenuItem) (n : Z) : ST World unit :=
  init_once drawMenu;;
  updateMenuHighlight;;
  handleButtonMenu menu n.

Definition camera_screen (self : nat) (cam_ok : bool) : ST World unit :=
  w ← st_get;
  (if camera_init w then skip else camera_setup cam_ok);;
  drawCameraFeed;;
  handleButtonCamera self.

(** [sd_setup] sets [menu_init] itself. *)
Definition sd_card_screen (self : nat) : ST World unit :=
  w ← st_get;
  (if menu_init w then skip else sd_setup);;
  w ← st_get;
  (if image_view w then drawImageViewer else drawFiles);;
  handleButtonFiles self.

Definition system_data_screen : ST World unit :=
  init_once skip;;
  _ ← drawSystemData;
  handleButtonSimple.

Definition wifi_screen : ST World unit :=
  init_once skip;;
  _ ← drawWifi;
  handleButtonSimple.

Definition game_screen : ST World unit :=
  init_once skip;;
  _ ← handleButtonGame;
  skip.

(** One tick of [displayTask]; [self] is the display task's handle and
    [cam_ok] the outcome of [esp_camera_init] if this tick calls it. *)
Definition displayTask_iter (self : nat) (cam_ok : bool) : ST World unit :=
  w ← st_get;
  match display_state w with
  | BOOT => st_put (w {{ display_state := MENU }})
  | MENU => menu_screen main_menu MAIN_MENU_SIZE
  | CAMERA_FEED => camera_screen self cam_ok
  | SD_CARD => sd_card_screen self
  | SYSTEM_DATA => system_data_screen
  | WIFI => wifi_screen
  | GAMES => menu_screen games_menu GAMES_MENU_SIZE
  | GAME1 | GAME2 | GAME3 => game_screen
  end.
