(* ===== verification/Game.v ===== *)
(** * The brick-breaker game (src/display.cpp, src/helpers.cpp)

    [updateGame1] is called once per display tick on the [GAME1] screen,
    after [handleButtonGame], with the character that handler returns.
    Its state is the set of [static] local variables of the function: the
    paddle's and the ball's top-left corners, the ball's direction flags
    and the [paddle_hit] and [lose_flag] flags.  They are the record
    [game1]; [updateGame1] is a function of that record, the global
    [game_input] and the handler's result.  The paddle/ball test is
    [checkCollision] (src/helpers.cpp).

    The sprite calls ([fillRect], [fillCircle], [pushSprite]) only draw
    and are not modelled; [initGame1] only creates and draws the sprites.
    Coordinates are C [int]s, here [Z]: the bounds theorem shows they stay
    on the 240 x 320 screen, so no sum the code forms overflows.

    - [checkCollision_spec]: the test is exactly "the two closed
      rectangles share a point", for non-negative sizes.
    - [updateGame1_on_screen]: after every update the paddle and the ball
      are inside the screen below the status bar, whatever the state before.
    - [updateGame1_paddle_return]: a ball that reaches the paddle's column
      while overlapping it vertically is put back at the paddle's right
      edge, moving right.
    - [updateGame1_exit_keeps_y_direction]: the reset on exit ('B') does not
      reset the direction flags, so the next game starts with the vertical
      direction the last one ended with. *)

From S2P Require Import Prelude Globals Navigation Display.

(** ** [checkCollision] *)

(** [checkCollision(x1, y1, w1, h1, x2, y2, w2, h2)]. *)
Definition checkCollision (x1 y1 w1 h1 x2 y2 w2 h2 : Z) : bool :=
  let res := true in
  let right_edge_1 := x1 + w1 in
  let bottom_edge_1 := y1 + h1 in
  let right_edge_2 := x2 + w2 in
  let bottom_edge_2 := y2 + h2 in
  let res := res && ((bottom_edge_2 >=? y1) && (y2 <=? bottom_edge_1)) in
  let res := res && ((right_edge_2 >=? x1) && (x2 <=? right_edge_1)) in
  res.

(** ** The game's state and constants *)

Definition paddle_speed : Z := 10.
Definition ball_speed : Z := 1.
Definition paddle_h : Z := 60.
Definition paddle_w : Z := 10.
Definition ball_r : Z := 7.

(** The [static] locals of [updateGame1]. *)
Record game1 := mkGame1 {
  x_rev : bool; y_rev : bool; paddle_hit : bool; lose_flag : bool;
  paddle_x : Z; paddle_y : Z; ball_x : Z; ball_y : Z }.

Definition paddle_y0 : Z := STATUS_BAR_HEIGHT + (SCREEN_HEIGHT - STATUS_BAR_HEIGHT) / 2 - paddle_h / 2.

(** The initialisers of the statics (the ball starts beside the middle of
    the paddle). *)
Definition game1_init : game1 :=
  {| x_rev := false; y_rev := false; paddle_hit := false; lose_flag := false;
     paddle_x := 0; paddle_y := paddle_y0;
     ball_x := 0 + paddle_w; ball_y := paddle_y0 + paddle_h / 2 - ball_r |}.

(** ** [updateGame1] *)

(** [if (res == 'B') { ... }]: the reset on exit. *)
Definition reset_on_exit (res : ascii) (g : game1) : game1 :=
  if decide (res = "B"%char) then
    g {{ paddle_hit := false; lose_flag := false; paddle_x := 0; paddle_y := paddle_y0;
         ball_x := 0 + paddle_w; ball_y := paddle_y0 + paddle_h / 2 - ball_r }}
  else g.

(** The [switch (game_input)] on the paddle, then its clamping. *)
Definition move_paddle (input : ascii) (g : game1) : game1 :=
  let py := if decide (input = "U"%char) then paddle_y g - paddle_speed
            else if decide (input = "D"%char) then paddle_y g + paddle_speed
            else paddle_y g in
  let py := if py <=? STATUS_BAR_HEIGHT then STATUS_BAR_HEIGHT
            else if py >=? SCREEN_HEIGHT - paddle_h then SCREEN_HEIGHT - paddle_h
            else py in
  g {{ paddle_y := py }}.

(** The ball's move, the collision test, and the reflections in [x], then
    in [y]. *)
Definition move_ball (g : game1) : game1 :=
  let bx := if x_rev g then ball_x g - ball_speed else ball_x g + ball_speed in
  let by_ := if y_rev g then ball_y g - ball_speed else ball_y g + ball_speed in
  let hit := checkCollision (paddle_x g) (paddle_y g) paddle_w paddle_h bx by_ (ball_r * 2) (ball_r * 2) in
  let '(bx, xr, lose) :=
    if bx >=? SCREEN_WIDTH - 2 * ball_r then (SCREEN_WIDTH - 2 * ball_r, negb (x_rev g), lose_flag g)
    else if hit then (paddle_w, negb (x_rev g), lose_flag g)
    else if bx <=? 0 then (0, negb (x_rev g), true)
    else (bx, x_rev g, lose_flag g) in
  let '(by_, yr) :=
    if by_ <=? STATUS_BAR_HEIGHT then (STATUS_BAR_HEIGHT, negb (y_rev g))
    else if by_ >=? SCREEN_HEIGHT - 2 * ball_r then (SCREEN_HEIGHT - 2 * ball_r, negb (y_rev g))
    else (by_, y_rev g) in
  g {{ ball_x := bx; ball_y := by_; x_rev := xr; y_rev := yr; paddle_hit := hit; lose_flag := lose }}.

(** [updateGame1(&paddle, &ball, NULL, res)]: [input] is the global
    [game_input]. *)
Definition updateGame1 (input res : ascii) (g : game1) : game1 :=
  move_ball (move_paddle input (reset_on_exit res g)).

(** The [GAME1] case of [displayTask] with the statics of [updateGame1]
    threaded: the one-time setup, [handleButtonGame], then the update. *)
Definition game1_screen (g : game1) : ST World game1 :=
  init_once skip;;
  res ← handleButtonGame;
  w ← st_get;
  mret (updateGame1 (game_input w) res g).

(** A game: the updates of successive ticks, each with its [game_input]
    and the handler's result. *)
Definition game1_run (ticks : list (ascii * ascii)) (g : game1) : game1 :=
  foldl (fun g tick => updateGame1 tick.1 tick.2 g) g ticks.

(** ** Collision *)

(** The two closed rectangles [[x, x + w] x [y, y + h]] share a point. *)
Definition rects_meet (x1 y1 w1 h1 x2 y2 w2 h2 : Z) : Prop :=
  exists px py, x1 <= px <= x1 + w1 /\ y1 <= py <= y1 + h1 /\
                x2 <= px <= x2 + w2 /\ y2 <= py <= y2 + h2.

Lemma checkCollision_true x1 y1 w1 h1 x2 y2 w2 h2 :
  checkCollision x1 y1 w1 h1 x2 y2 w2 h2 = true <->
  y1 <= y2 + h2 /\ y2 <= y1 + h1 /\ x1 <= x2 + w2 /\ x2 <= x1 + w1.
Proof. unfold checkCollision. rewrite !andb_true_iff, !Z.geb_le, !Z.leb_le. tauto. Qed.

(** (C28) [checkCollision] decides whether two rectangles of non-negative
    size, edges included, share a point. *)
Theorem checkCollision_spec x1 y1 w1 h1 x2 y2 w2 h2 :
  0 <= w1 -> 0 <= h1 -> 0 <= w2 -> 0 <= h2 ->
  checkCollision x1 y1 w1 h1 x2 y2 w2 h2 = true <-> rects_meet x1 y1 w1 h1 x2 y2 w2 h2.
Proof.
  intros. rewrite checkCollision_true. split.
  - intros (? & ? & ? & ?). exists (Z.max x1 x2), (Z.max y1 y2). lia.
  - intros (px & py & ?). lia.
Qed.

Lemma checkCollision_spec_witness :
  0 <= 10 /\ 0 <= 60 /\ 0 <= 14 /\ 0 <= 14 /\
  (checkCollision 0 140 10 60 9 162 14 14 = true <-> rects_meet 0 140 10 60 9 162 14 14).
Proof. repeat split; try lia; apply checkCollision_spec; lia. Defined.

(** ** The game stays on the screen *)

(** The paddle and the ball inside the screen, below the status bar; the
    paddle in the first column. *)
Definition on_screen (g : game1) : Prop :=
  paddle_x g = 0 /\
  STATUS_BAR_HEIGHT <= paddle_y g <= SCREEN_HEIGHT - paddle_h /\
  0 <= ball_x g <= SCREEN_WIDTH - 2 * ball_r /\
  STATUS_BAR_HEIGHT <= ball_y g <= SCREEN_HEIGHT - 2 * ball_r.

Lemma reset_on_exit_paddle_x res g : paddle_x g = 0 -> paddle_x (reset_on_exit res g) = 0.
Proof. unfold reset_on_exit. by case_decide. Qed.

Lemma move_paddle_bounds input g :
  STATUS_BAR_HEIGHT <= paddle_y (move_paddle input g) <= SCREEN_HEIGHT - paddle_h /\
  paddle_x (move_paddle input g) = paddle_x g.
Proof.
  unfold move_paddle, STATUS_BAR_HEIGHT, SCREEN_HEIGHT, paddle_h. wsimpl.
  split; [|done]. z_cases; lia.
Qed.

Lemma move_ball_bounds g :
  on_screen (move_ball g) <->
  paddle_x g = 0 /\ STATUS_BAR_HEIGHT <= paddle_y g <= SCREEN_HEIGHT - paddle_h.
Proof.
  unfold on_screen, move_ball, SCREEN_WIDTH, SCREEN_HEIGHT, STATUS_BAR_HEIGHT, ball_r, paddle_w.
  destruct (checkCollision _ _ _ _ _ _ _ _); wsimpl; z_cases; wsimpl; split; intuition lia.
Qed.

Lemma updateGame1_bounds input res g : paddle_x g = 0 -> on_screen (updateGame1 input res g).
Proof.
  intros Hx. unfold updateGame1. apply move_ball_bounds.
  destruct (move_paddle_bounds input (reset_on_exit res g)) as [Hy ->].
  split; [by apply reset_on_exit_paddle_x|done].
Qed.

(** (C27) Bounds: from the initial statics, after any sequence of ticks
    the paddle and the ball are inside the 240 x 320 screen below the
    status bar, so every coordinate and every sum [checkCollision] forms
    is far inside the range of a 32-bit [int]. *)
Theorem updateGame1_on_screen ticks :
  on_screen (game1_run ticks game1_init).
Proof.
  assert (Hx : forall ticks g, paddle_x g = 0 -> paddle_x (game1_run ticks g) = 0 /\
            (ticks <> [] -> on_screen (game1_run ticks g))).
  { induction ticks0 as [|tk ts IH]; intros g Hg; [done|]. simpl.
    pose proof (updateGame1_bounds tk.1 tk.2 g Hg) as Hb.
    destruct (IH _ (proj1 Hb)) as [H1 H2]. split; [done|]. intros _.
    destruct ts; [done|]. by apply H2. }
  destruct ticks as [|tk ts]; [vm_compute; intuition congruence|].
  apply (Hx (tk :: ts) game1_init eq_refl). done.
Qed.

(** ** The ball's reflections *)

(** The paddle sends the ball back: when the ball moves left, enters
    the paddle's column (its new left edge at most [paddle_w]) away from the
    right wall, and overlaps the paddle vertically after the paddle's move,
    the update puts it at the paddle's right edge, moving right, and
    records the hit. *)
Theorem updateGame1_paddle_return input res g :
  res <> "B"%char -> paddle_x g = 0 -> x_rev g = true ->
  -2 * ball_r <= ball_x g - ball_speed <= paddle_w ->
  let py := paddle_y (move_paddle input g) in
  let by_ := if y_rev g then ball_y g - ball_speed else ball_y g + ball_speed in
  py <= by_ + 2 * ball_r -> by_ <= py + paddle_h ->
  ball_x (updateGame1 input res g) = paddle_w /\ x_rev (updateGame1 input res g) = false /\
  paddle_hit (updateGame1 input res g) = true.
Proof.
  intros Hres Hx Hrev Hbx py by_ Hy1 Hy2. unfold updateGame1, reset_on_exit.
  rewrite decide_False by done.
  assert (Hhit : checkCollision 0 py paddle_w paddle_h (ball_x g - ball_speed) by_ (ball_r * 2) (ball_r * 2) = true)
    by (apply checkCollision_true; unfold ball_r, paddle_w, paddle_h in *; lia).
  subst py by_. destruct g. simpl in *. subst.
  unfold move_ball, move_paddle in *. wsimpl. rewrite Hhit.
  unfold SCREEN_WIDTH, ball_r, paddle_w, ball_speed in *. z_cases; wsimpl; first [lia | repeat split].
Qed.

Lemma updateGame1_paddle_return_witness :
  let g := game1_init {{ x_rev := true; ball_x := 5 }} in
  "S"%char <> "B"%char /\ paddle_x g = 0 /\ x_rev g = true /\
  -2 * ball_r <= ball_x g - ball_speed <= paddle_w /\
  ball_x (updateGame1 "S" "S" g) = paddle_w.
Proof.
  cbv zeta. assert (Hne : "S"%char <> "B"%char) by discriminate.
  split; [exact Hne|]. split; [reflexivity|]. split; [reflexivity|].
  split; [vm_compute; split; discriminate|].
  refine (proj1 (updateGame1_paddle_return "S" "S" (game1_init {{ x_rev := true; ball_x := 5 }})
    Hne eq_refl eq_refl _ _ _)).
  all: vm_compute; first [split; discriminate | discriminate].
Defined.

(** ** Leaving the game *)

(** (C37) The reset on exit is partial: [if (res == 'B')] resets the flags,
    the paddle and the ball, as its comment says, but not [x_rev] and
    [y_rev], and the update goes on to move the ball.  The horizontal
    direction is repaired by the paddle (a ball moving left hits it at
    once), but the vertical one is kept: the next game starts with the
    ball one pixel above or below its start, moving in the direction the
    last game ended with. *)
Theorem updateGame1_exit_keeps_y_direction g :
  let g' := updateGame1 "B" "B" g in
  x_rev g' = false /\ y_rev g' = y_rev g /\
  ball_y g' = (if y_rev g then 162 else 164) /\ paddle_y g' = paddle_y0.
Proof. destruct g as [[] [] ? ? ? ? ? ?]; vm_compute; repeat split. Qed.

(** The display tick of [GAME1] with the statics threaded changes the
    globals as the display task's tick does, so the system invariants
    cover it. *)
Lemma game1_screen_world g w : exec (game1_screen g) w = exec game_screen w.
Proof. unfold game1_screen, game_screen. rewrite !exec_bind. reflexivity. Qed.
