(* ===== verification/Drawing.v ===== *)
(** * The remaining drawing code (src/display.cpp, src/helpers.cpp)

    The drawing functions that hold no state of their own, as their lists
    of [tft] calls (Draw.v): [initTFT], [drawCameraButton], [drawGame2],
    [drawGame3], [initGame1], and the draw calls of [updateGame1], whose
    state is [Game.game1].

    - [updateGame1_no_trail]: on a game tick that is not the exit, what the
      previous tick pushed is cleared or drawn over: the ball's old
      position is always erased, the paddle's when it moves, before both
      sprites are pushed at their new positions.
    - [initGame1_at_start] (a lemma): [initGame1] keeps [static] copies of
      the start positions of its own; they are those [updateGame1] starts
      from, and its sprites have the sizes the collision test uses.
    - [camera_screen_tiles] (a lemma): the camera frame and the save button
      split the screen below the status bar without overlap. *)

From S2P Require Import Prelude Globals Draw Game.

(** [initTFT()]. *)
Definition initTFT : list draw_cmd :=
  [TftInit; SetRotation 2; SetSwapBytes SWAP_BYTES; FillScreen TFT_BLACK].

(** [drawCameraButton()]: the [static] sizes are constants. *)
Definition drawCameraButton : list draw_cmd :=
  let option_w := SCREEN_WIDTH in
  let option_h := SCREEN_HEIGHT - (STATUS_BAR_HEIGHT + IMAGE_HEIGHT) in
  [FillRect 0 (STATUS_BAR_HEIGHT + 240) option_w option_h TFT_BLUE;
   DrawRect 0 (STATUS_BAR_HEIGHT + 240) option_w option_h TFT_WHITE;
   SetTextDatum MC_DATUM; SetTextColor TFT_WHITE TFT_BLUE;
   DrawString "Save to SD card" (option_w ÷ 2) (STATUS_BAR_HEIGHT + 240 + option_h ÷ 2)].

Definition drawGame2 : list draw_cmd :=
  [SetTextDatum MC_DATUM; DrawString "Game 2" (SCREEN_WIDTH ÷ 2) (SCREEN_HEIGHT ÷ 2)].

Definition drawGame3 : list draw_cmd :=
  [SetTextDatum MC_DATUM; DrawString "Game 3" (SCREEN_WIDTH ÷ 2) (SCREEN_HEIGHT ÷ 2)].

(** [initGame1(&paddle, &ball, NULL)]: its [static] positions are never
    written, so they are their initialisers. *)
Definition initGame1 : list draw_cmd :=
  let paddle_x := 0 in
  let paddle_y := STATUS_BAR_HEIGHT + (SCREEN_HEIGHT - STATUS_BAR_HEIGHT) ÷ 2 - paddle_h ÷ 2 in
  let ball_x := paddle_x + paddle_w in
  let ball_y := paddle_y + paddle_h ÷ 2 - ball_r in
  [DeleteSprite PADDLE; DeleteSprite BALL;
   CreateSprite PADDLE paddle_w paddle_h; SpriteFillRect PADDLE 0 0 paddle_w paddle_h TFT_WHITE;
   PushSprite PADDLE paddle_x paddle_y;
   CreateSprite BALL (ball_r * 2) (ball_r * 2); SpriteFillCircle BALL ball_r ball_r ball_r TFT_RED;
   PushSprite BALL ball_x ball_y].

(** The draw calls of [updateGame1] on the state [g] before the tick: the
    paddle is cleared where it is when [game_input] moves it, the ball
    where it is before its move, and both sprites are pushed where the
    tick leaves them. *)
Definition updateGame1_draw (input res : ascii) (g : game1) : list draw_cmd :=
  let g1 := reset_on_exit res g in
  let erase_paddle :=
    if decide (input = "U"%char \/ input = "D"%char)
    then [FillRect (paddle_x g1) (paddle_y g1) paddle_w paddle_h TFT_BLACK] else [] in
  let g2 := move_paddle input g1 in
  let erase_ball := FillCircle (ball_x g2 + ball_r) (ball_y g2 + ball_r) ball_r TFT_BLACK in
  let g3 := move_ball g2 in
  erase_paddle ++ [erase_ball; PushSprite PADDLE (paddle_x g3) (paddle_y g3);
                   PushSprite BALL (ball_x g3) (ball_y g3)].

(** ** Lemmas *)

Lemma initGame1_at_start :
  initGame1 !! 4%nat = Some (PushSprite PADDLE (paddle_x game1_init) (paddle_y game1_init)) /\
  initGame1 !! 7%nat = Some (PushSprite BALL (ball_x game1_init) (ball_y game1_init)) /\
  initGame1 !! 2%nat = Some (CreateSprite PADDLE paddle_w paddle_h) /\
  initGame1 !! 5%nat = Some (CreateSprite BALL (ball_r * 2) (ball_r * 2)).
Proof. vm_compute. repeat split. Qed.

Lemma camera_screen_tiles :
  let image_bottom := STATUS_BAR_HEIGHT + IMAGE_HEIGHT in
  drawCameraButton !! 0%nat =
    Some (FillRect 0 image_bottom SCREEN_WIDTH (SCREEN_HEIGHT - image_bottom) TFT_BLUE) /\
  IMAGE_WIDTH = SCREEN_WIDTH /\ image_bottom < SCREEN_HEIGHT.
Proof. vm_compute. repeat split. Qed.

Lemma move_paddle_ball g input : ball_x (move_paddle input g) = ball_x g /\ ball_y (move_paddle input g) = ball_y g.
Proof. by destruct g. Qed.

Lemma move_ball_paddle g : paddle_x (move_ball g) = paddle_x g /\ paddle_y (move_ball g) = paddle_y g.
Proof. destruct g. unfold move_ball. wsimpl. by destruct (checkCollision _ _ _ _ _ _ _ _); z_cases. Qed.

(** A paddle inside its range stays put unless [game_input] moves it. *)
Lemma move_paddle_still g input :
  STATUS_BAR_HEIGHT <= paddle_y g <= SCREEN_HEIGHT - paddle_h ->
  ~ (input = "U"%char \/ input = "D"%char) -> paddle_y (move_paddle input g) = paddle_y g.
Proof.
  intros Hy Hin. destruct g. unfold move_paddle in *. simpl in *.
  rewrite !decide_False by tauto. wsimpl. unfold STATUS_BAR_HEIGHT, SCREEN_HEIGHT, paddle_h in *. z_cases; lia.
Qed.

(** (C29) No trail is left on a game tick other than the exit: for a
    state [g] on the screen, whose sprites the previous tick pushed, the
    tick's draw calls erase the ball at its old position, erase the
    paddle at its old position whenever the paddle moves, and end by
    pushing both sprites where [updateGame1] leaves them. *)
Theorem updateGame1_no_trail input res g :
  res <> "B"%char -> on_screen g ->
  let cmds := updateGame1_draw input res g in
  let g' := updateGame1 input res g in
  FillCircle (ball_x g + ball_r) (ball_y g + ball_r) ball_r TFT_BLACK ∈ cmds /\
  (paddle_y g' <> paddle_y g -> FillRect (paddle_x g) (paddle_y g) paddle_w paddle_h TFT_BLACK ∈ cmds) /\
  drop (length cmds - 2) cmds = [PushSprite PADDLE (paddle_x g') (paddle_y g'); PushSprite BALL (ball_x g') (ball_y g')].
Proof.
  intros Hres (Hx & Hy & _). cbv zeta. unfold updateGame1_draw, updateGame1.
  replace (reset_on_exit res g) with g by (unfold reset_on_exit; by rewrite decide_False).
  destruct (move_paddle_ball g input) as [-> ->].
  destruct (move_ball_paddle (move_paddle input g)) as [_ Hpy]. rewrite Hpy.
  split; [|split].
  - case_decide; set_solver.
  - intros Hne. case_decide as Hin; [set_solver|]. by rewrite move_paddle_still in Hne.
  - case_decide; reflexivity.
Qed.

Lemma updateGame1_no_trail_witness :
  "S"%char <> "B"%char /\ on_screen game1_init /\
  FillCircle (ball_x game1_init + ball_r) (ball_y game1_init + ball_r) ball_r TFT_BLACK
    ∈ updateGame1_draw "D" "S" game1_init /\
  (paddle_y (updateGame1 "D" "S" game1_init) <> paddle_y game1_init ->
   FillRect (paddle_x game1_init) (paddle_y game1_init) paddle_w paddle_h TFT_BLACK ∈ updateGame1_draw "D" "S" game1_init) /\
  drop (length (updateGame1_draw "D" "S" game1_init) - 2) (updateGame1_draw "D" "S" game1_init) =
    [PushSprite PADDLE (paddle_x (updateGame1 "D" "S" game1_init)) (paddle_y (updateGame1 "D" "S" game1_init));
     PushSprite BALL (ball_x (updateGame1 "D" "S" game1_init)) (ball_y (updateGame1 "D" "S" game1_init))].
Proof.
  assert (Hb : "S"%char <> "B"%char) by discriminate.
  assert (Ho : on_screen game1_init) by (vm_compute; intuition congruence).
  split; [exact Hb|]. split; [exact Ho|]. exact (updateGame1_no_trail "D" "S" game1_init Hb Ho).
Defined.
