(* ===== verification/Menu.v ===== *)
(** * The menus on the screen: [drawMenu] and [updateMenuHighlight] (src/display.cpp)

    [Display] models what the two functions do to the globals (they keep
    [last_button_index]); this file adds their [tft] calls and what those
    calls leave on the screen.  The screen is seen through the outline of
    each menu item's rectangle ([canvas]): the colour the rectangle's
    border has, or [None] when the border is not of one colour.  The
    effect of each call follows the TFT_eSPI documentation: [fillRect]
    paints the whole rectangle, [drawRect] its border, [drawString] the
    box of its text, which with the default font (6 x 8 pixels a
    character, scaled by the text size) is placed by the datum; a call
    whose rectangle is disjoint from an item's, or strictly inside it,
    leaves that item's border as it is.

    - [menu_highlight_follows]: a tick of a menu screen (the clear and
      [drawMenu] when the menu is not drawn yet, then
      [updateMenuHighlight]) leaves exactly one white border, the one of
      [button_index], and every other item's border blue; the invariant
      that ties the screen to [last_button_index] holds again after the
      button handler has run. *)

From S2P Require Import Prelude Queue Platform Globals Navigation Display Draw.

(** ** The draw calls *)

(** The body of the [for (int i = 0; i < num_items; i++)] loop of
    [drawMenu]. *)
Definition drawMenu_item (i : Z) (item : MenuItem) : list draw_cmd :=
  let w := SCREEN_WIDTH in let h := MENU_ITEM_HEIGHT in
  [FillRect 0 (STATUS_BAR_HEIGHT + h * i) w h TFT_DARKGREY; SetTextSize 2;
   SetTextColor TFT_WHITE TFT_DARKGREY; SetTextDatum MC_DATUM;
   DrawString (label item) 120 (STATUS_BAR_HEIGHT + h * i + h ÷ 2);
   DrawRect 0 (STATUS_BAR_HEIGHT + h * i) w h TFT_BLUE].

(** [drawMenu(menu, num_items)]: both callers pass
    [sizeof(menu) / sizeof(MenuItem)], the length of the array. *)
Definition drawMenu_cmds (menu : list MenuItem) (button_index : Z) : list draw_cmd :=
  concat (imap (fun n item => drawMenu_item (Z.of_nat n) item) menu) ++
  [SetTextSize 1; DrawRect 0 (STATUS_BAR_HEIGHT + button_index * MENU_ITEM_HEIGHT) SCREEN_WIDTH MENU_ITEM_HEIGHT TFT_WHITE].

Definition updateMenuHighlight_cmds (last_button_index button_index : Z) : list draw_cmd :=
  if decide (last_button_index <> button_index) then
    [DrawRect 0 (STATUS_BAR_HEIGHT + last_button_index * MENU_ITEM_HEIGHT) SCREEN_WIDTH MENU_ITEM_HEIGHT TFT_BLUE;
     DrawRect 0 (STATUS_BAR_HEIGHT + button_index * MENU_ITEM_HEIGHT) SCREEN_WIDTH MENU_ITEM_HEIGHT TFT_WHITE]
  else [].

(** [tft.fillRect(0, STATUS_BAR_HEIGHT, SCREEN_WIDTH, SCREEN_HEIGHT - STATUS_BAR_HEIGHT, TFT_BLACK)]
    of the [MENU] and [GAMES] cases before [drawMenu]. *)
Definition menu_clear : draw_cmd :=
  FillRect 0 STATUS_BAR_HEIGHT SCREEN_WIDTH (SCREEN_HEIGHT - STATUS_BAR_HEIGHT) TFT_BLACK.

(** The draw calls of a tick of [Display.menu_screen] from [w]. *)
Definition menu_screen_draw (menu : list MenuItem) (w : World) : list draw_cmd :=
  let w1 := exec (init_once drawMenu) w in
  (if menu_init w then [] else menu_clear :: drawMenu_cmds menu (button_index w)) ++
  updateMenuHighlight_cmds (last_button_index w1) (button_index w1).

(** ** What the calls leave on the screen *)

Record canvas := mkCanvas {
  c_size : Z;                    (* [setTextSize] *)
  c_datum : datum;               (* [setTextDatum] *)
  c_outline : Z -> option color  (* the border of menu item [i] *)
}.

Definition glyph_w : Z := 6.
Definition glyph_h : Z := 8.

Definition item_y (i : Z) : Z := STATUS_BAR_HEIGHT + MENU_ITEM_HEIGHT * i.

Definition covers_item (x y w h i : Z) : bool :=
  (x <=? 0) && (y <=? item_y i) && (SCREEN_WIDTH <=? x + w) && (item_y i + MENU_ITEM_HEIGHT <=? y + h).

Definition is_item (x y w h i : Z) : bool :=
  (x =? 0) && (y =? item_y i) && (w =? SCREEN_WIDTH) && (h =? MENU_ITEM_HEIGHT).

(** The rectangle misses item [i]'s border: it lies beside the item or
    strictly inside it. *)
Definition untouched (x y w h i : Z) : bool :=
  (x + w <=? 0) || (SCREEN_WIDTH <=? x) || (y + h <=? item_y i) || (item_y i + MENU_ITEM_HEIGHT <=? y) ||
  ((1 <=? x) && (x + w <=? SCREEN_WIDTH - 1) && (item_y i + 1 <=? y) && (y + h <=? item_y i + MENU_ITEM_HEIGHT - 1)).

(** The box [drawString] paints, placed by the datum. *)
Definition text_box (size : Z) (d : datum) (s : string) (x y : Z) : Z * Z * Z * Z :=
  let W := glyph_w * size * Z.of_nat (String.length s) in
  let H := glyph_h * size in
  match d with
  | MC_DATUM => (x - W ÷ 2, y - H ÷ 2, W, H)
  | MR_DATUM => (x - W, y - H ÷ 2, W, H)
  | TL_DATUM => (x, y, W, H)
  end.

Definition keep_or_unknown (x y w h : Z) (o : Z -> option color) (i : Z) : option color :=
  if untouched x y w h i then o i else None.

Definition paint1 (c : draw_cmd) (cv : canvas) : canvas :=
  let o := c_outline cv in
  match c with
  | FillRect x y w h col =>
      mkCanvas (c_size cv) (c_datum cv) (fun i => if covers_item x y w h i then Some col else keep_or_unknown x y w h o i)
  | DrawRect x y w h col =>
      mkCanvas (c_size cv) (c_datum cv) (fun i => if is_item x y w h i then Some col else keep_or_unknown x y w h o i)
  | DrawString s x y =>
      let '(bx, by', bw, bh) := text_box (c_size cv) (c_datum cv) s x y in
      mkCanvas (c_size cv) (c_datum cv) (keep_or_unknown bx by' bw bh o)
  | SetTextSize n => mkCanvas n (c_datum cv) o
  | SetTextDatum d => mkCanvas (c_size cv) d o
  | SetTextColor _ _ => cv
  | _ => mkCanvas (c_size cv) (c_datum cv) (fun _ => None)
  end.

Definition paint (cmds : list draw_cmd) (cv : canvas) : canvas := fold_left (fun cv c => paint1 c cv) cmds cv.

(** The screen shows the menu with the highlight at [last_button_index]. *)
Definition menu_shown (menu : list MenuItem) (w : World) (cv : canvas) : Prop :=
  menu_init w = true ->
  0 <= last_button_index w < Z.of_nat (length menu) /\
  forall i, 0 <= i < Z.of_nat (length menu) ->
    c_outline cv i = Some (if decide (i = last_button_index w) then TFT_WHITE else TFT_BLUE).

(** Every label's text, at size 2, fits inside its item. *)
Definition labels_fit (menu : list MenuItem) : Prop :=
  Forall (fun item => (String.length (label item) <= 19)%nat) menu.

(** ** Geometry of the items *)

Ltac geom := unfold covers_item, is_item, untouched, item_y, STATUS_BAR_HEIGHT, MENU_ITEM_HEIGHT, SCREEN_WIDTH in *;
  repeat first [rewrite orb_true_iff | rewrite andb_true_iff | rewrite Z.leb_le | rewrite Z.eqb_eq
               | rewrite orb_false_iff | rewrite andb_false_iff | rewrite Z.leb_gt | rewrite Z.eqb_neq]; lia.

Lemma item_rect_is_item i j :
  is_item 0 (STATUS_BAR_HEIGHT + MENU_ITEM_HEIGHT * j) SCREEN_WIDTH MENU_ITEM_HEIGHT i = (i =? j).
Proof. apply eq_iff_eq_true. split; intros; geom. Qed.

Lemma item_rect_untouched i j : i <> j ->
  untouched 0 (STATUS_BAR_HEIGHT + MENU_ITEM_HEIGHT * j) SCREEN_WIDTH MENU_ITEM_HEIGHT i = true.
Proof. intros. geom. Qed.

Lemma item_rect_covers i j :
  covers_item 0 (STATUS_BAR_HEIGHT + MENU_ITEM_HEIGHT * j) SCREEN_WIDTH MENU_ITEM_HEIGHT i = (i =? j).
Proof. apply eq_iff_eq_true. split; intros; geom. Qed.

(** A label of at most 19 characters, at size 2 and centred in item [j],
    misses every item's border. *)
Lemma label_untouched (s : string) j i : (String.length s <= 19)%nat ->
  untouched (120 - glyph_w * 2 * Z.of_nat (String.length s) ÷ 2)
    (STATUS_BAR_HEIGHT + MENU_ITEM_HEIGHT * j + MENU_ITEM_HEIGHT ÷ 2 - glyph_h * 2 ÷ 2)
    (glyph_w * 2 * Z.of_nat (String.length s)) (glyph_h * 2) i = true.
Proof.
  intros Hl. unfold glyph_w, glyph_h.
  replace (6 * 2 * Z.of_nat (String.length s) ÷ 2) with (6 * Z.of_nat (String.length s))
    by (rewrite <- Z.mul_assoc, (Z.mul_comm 2), Z.mul_assoc, Z.quot_mul; lia).
  change (MENU_ITEM_HEIGHT ÷ 2) with 30. change (8 * 2 ÷ 2) with 8.
  destruct (Z.lt_total i j) as [?|[->|?]]; geom.
Qed.

(** ** Painting *)

Lemma paint_app l1 l2 cv : paint (l1 ++ l2) cv = paint l2 (paint l1 cv).
Proof. apply fold_left_app. Qed.

(** Drawing an item's border sets that border and no other. *)
Lemma paint_item_rect j c cv i :
  c_outline (paint1 (DrawRect 0 (STATUS_BAR_HEIGHT + MENU_ITEM_HEIGHT * j) SCREEN_WIDTH MENU_ITEM_HEIGHT c) cv) i =
  if decide (i = j) then Some c else c_outline cv i.
Proof.
  cbn. rewrite item_rect_is_item. unfold keep_or_unknown.
  case_decide as Hij; [subst; by rewrite Z.eqb_refl|].
  rewrite (proj2 (Z.eqb_neq _ _) Hij), item_rect_untouched; done.
Qed.

(** One iteration of [drawMenu]'s loop draws item [i] with a blue border
    and leaves the other borders, with the text size 2 and the datum
    centred. *)
Lemma paint_drawMenu_item i item cv : (String.length (label item) <= 19)%nat ->
  c_size (paint (drawMenu_item i item) cv) = 2 /\ c_datum (paint (drawMenu_item i item) cv) = MC_DATUM /\
  forall i', c_outline (paint (drawMenu_item i item) cv) i' = if decide (i' = i) then Some TFT_BLUE else c_outline cv i'.
Proof.
  intros Hl. split; [done|]. split; [done|]. intros i'.
  unfold drawMenu_item, paint. cbn [fold_left].
  rewrite paint_item_rect. case_decide; [done|].
  cbn. unfold keep_or_unknown. rewrite label_untouched by done.
  rewrite item_rect_covers, (proj2 (Z.eqb_neq _ _)), item_rect_untouched by done. done.
Qed.

(** The loop of [drawMenu] from item [k]: the items it draws get a blue
    border, the others keep theirs. *)
Lemma paint_drawMenu_loop (menu : list MenuItem) (k : nat) cv i : labels_fit menu ->
  c_outline (paint (concat (imap (fun n item => drawMenu_item (Z.of_nat (k + n)) item) menu)) cv) i =
  if decide (Z.of_nat k <= i < Z.of_nat (k + length menu)) then Some TFT_BLUE else c_outline cv i.
Proof.
  revert k cv. induction menu as [|item menu IH]; intros k cv Hfit; cbn [imap concat length].
  - rewrite decide_False by lia. done.
  - apply Forall_cons in Hfit as [Hl Hfit]. rewrite paint_app.
    rewrite (imap_ext _ (fun n item => drawMenu_item (Z.of_nat (S k + n)) item))
      by (intros; simpl; do 2 f_equal; lia).
    rewrite IH by done. destruct (paint_drawMenu_item (Z.of_nat (k + 0)) item cv Hl) as (_ & _ & ->).
    repeat case_decide; done || lia.
Qed.

Lemma paint_drawMenu menu bi cv i : labels_fit menu -> 0 <= i < Z.of_nat (length menu) ->
  c_outline (paint (drawMenu_cmds menu bi) cv) i = Some (if decide (i = bi) then TFT_WHITE else TFT_BLUE).
Proof.
  intros Hfit Hi. unfold drawMenu_cmds. rewrite paint_app. cbn [paint fold_left].
  rewrite (Z.mul_comm bi), paint_item_rect. case_decide; [done|]. cbn.
  rewrite (paint_drawMenu_loop menu 0) by done. rewrite decide_True by lia. done.
Qed.

Lemma paint_updateMenuHighlight last bi cv i :
  c_outline (paint (updateMenuHighlight_cmds last bi) cv) i =
  if decide (last <> bi)
  then (if decide (i = bi) then Some TFT_WHITE else if decide (i = last) then Some TFT_BLUE else c_outline cv i)
  else c_outline cv i.
Proof.
  unfold updateMenuHighlight_cmds. case_decide; [|done]. cbn [paint fold_left].
  rewrite (Z.mul_comm bi), paint_item_rect, (Z.mul_comm last), paint_item_rect. done.
Qed.

(** ** The globals *)

Lemma init_once_drawMenu w :
  exec (init_once drawMenu) w =
  if menu_init w then w else w {{ last_button_index := button_index w }} {{ menu_init := true }}.
Proof. destruct w. unfold init_once, drawMenu, skip, exec. wsimpl. by destruct menu_init. Qed.

Lemma updateMenuHighlight_exec w :
  exec updateMenuHighlight w = w {{ last_button_index := button_index w }}.
Proof. destruct w. unfold updateMenuHighlight, skip, exec. wsimpl. case_decide; wsimpl; congruence. Qed.

(** The handler changes neither [last_button_index] nor, unless it
    leaves the screen, [menu_init]. *)
Lemma handleButtonMenu_keeps menu n w :
  last_button_index (exec (handleButtonMenu menu n) w) = last_button_index w /\
  (menu_init (exec (handleButtonMenu menu n) w) = true -> menu_init w = true).
Proof.
  destruct w as [? ? ? ? ? ? ? ? ? ? ? ? ? ? ? ? ? ? ? ? [c [|b rest]] ?];
    unfold handleButtonMenu, receive_button, skip, exec; wsimpl; [done|].
  destruct b; wsimpl; try (split; auto; congruence). unfold vec_at, log_fault. wsimpl.
  destruct (decide (0 <= _)); [destruct (menu !! _)|]; wsimpl; split; try done; intros ?; done.
Qed.

(** The borders a menu tick leaves: white at [button_index], blue
    elsewhere, whether the tick draws the menu or only moves the
    highlight. *)
Lemma paint_menu_screen menu w cv i :
  labels_fit menu -> 0 <= button_index w < Z.of_nat (length menu) -> menu_shown menu w cv ->
  0 <= i < Z.of_nat (length menu) ->
  c_outline (paint (menu_screen_draw menu w) cv) i =
    Some (if decide (i = button_index w) then TFT_WHITE else TFT_BLUE).
Proof.
  intros Hfit Hbi Hshown Hi. unfold menu_screen_draw. rewrite init_once_drawMenu.
  destruct (menu_init w) eqn:Hm; cbn [app].
  - destruct (Hshown Hm) as [Hl Ho]. rewrite paint_updateMenuHighlight, Ho by done.
    repeat case_decide; subst; done || lia.
  - unfold updateMenuHighlight_cmds. wsimpl. rewrite decide_False by tauto. rewrite app_nil_r.
    apply paint_drawMenu; done.
Qed.

Lemma menu_screen_last menu w :
  last_button_index (exec (menu_screen menu (Z.of_nat (length menu))) w) = button_index w.
Proof.
  unfold menu_screen. rewrite !exec_bind.
  destruct (handleButtonMenu_keeps menu (Z.of_nat (length menu)) (exec updateMenuHighlight (exec (init_once drawMenu) w))) as [-> _].
  rewrite updateMenuHighlight_exec, init_once_drawMenu. destruct (menu_init w); wsimpl; done.
Qed.

(** ** The highlight follows the selection *)

(** (C30) On a menu screen whose labels fit their items, a tick (the clear
    and [drawMenu] when [menu_init] is false, then [updateMenuHighlight])
    leaves the border of item [button_index] white and every other item's
    border blue; and after the button handler has run, the screen again
    shows the highlight at [last_button_index], so the next tick starts
    from a screen that agrees with the globals. *)
Theorem menu_highlight_follows menu w cv :
  labels_fit menu -> 0 <= button_index w < Z.of_nat (length menu) -> menu_shown menu w cv ->
  (forall i, 0 <= i < Z.of_nat (length menu) ->
     c_outline (paint (menu_screen_draw menu w) cv) i =
       Some (if decide (i = button_index w) then TFT_WHITE else TFT_BLUE)) /\
  menu_shown menu (exec (menu_screen menu (Z.of_nat (length menu))) w) (paint (menu_screen_draw menu w) cv).
Proof.
  intros Hfit Hbi Hshown. split; [intros; by apply paint_menu_screen|].
  intros _. rewrite menu_screen_last. split; [done|]. intros i Hi. by apply paint_menu_screen.
Qed.

Lemma menu_highlight_follows_witness :
  let w := globals_init (mkSd true []) in
  let cv := mkCanvas 1 TL_DATUM (fun _ => None) in
  labels_fit main_menu /\ 0 <= button_index w < Z.of_nat (length main_menu) /\ menu_shown main_menu w cv /\
  (forall i, 0 <= i < Z.of_nat (length main_menu) ->
     c_outline (paint (menu_screen_draw main_menu w) cv) i =
       Some (if decide (i = button_index w) then TFT_WHITE else TFT_BLUE)) /\
  menu_shown main_menu (exec (menu_screen main_menu (Z.of_nat (length main_menu))) w) (paint (menu_screen_draw main_menu w) cv).
Proof.
  cbv zeta.
  assert (Hfit : labels_fit main_menu)
    by (unfold labels_fit, main_menu; repeat (apply Forall_cons; split; [simpl; lia|]); apply Forall_nil; done).
  assert (Hbi : 0 <= button_index (globals_init (mkSd true [])) < Z.of_nat (length main_menu)) by (simpl; lia).
  assert (Hs : menu_shown main_menu (globals_init (mkSd true [])) (mkCanvas 1 TL_DATUM (fun _ => None)))
    by (intros H; discriminate H).
  split; [exact Hfit|]. split; [exact Hbi|]. split; [exact Hs|].
  exact (menu_highlight_follows main_menu _ _ Hfit Hbi Hs).
Defined.
