(* ===== verification/System.v ===== *)
(** * The system: setup, the scheduler and the reachable states

    [setup] (src/main.cpp) checks the queue allocation of [initQueues]
    (src/helpers.cpp; a failure hangs), waits for WiFi ([Boot.initWiFi],
    with a budget of polls), reads the time, fills the heap history, loads the
    file names, creates the five always-on tasks and finally calls
    [vTaskSuspend] on the save and delete handles.  After it, FreeRTOS
    runs the tasks.  The scheduler is modelled as the step relation
    [step]: any task present in the task table may run one iteration of
    its loop, with the hardware inputs of that iteration as parameters of
    the event.  Priorities and delays are not modelled, so every
    interleaving FreeRTOS can produce is a sequence of steps.

    The theorems: the invariant [sys_inv] holds after [setup] and is kept
    by every step, so it holds in every reachable state (the menu index
    stays inside the menu, the capture and save workers exist exactly
    while the camera is initialised, the display task is never deleted,
    the file count and heap history invariants); [setup] leaves the five
    always-on tasks and suspends its own task; it returns iff WiFi comes
    up, and creates no task otherwise; and the defects of the
    component files occur on concrete schedules from the boot state
    ([run_trace], checked by evaluation). *)

From S2P Require Import Prelude Queue Platform Globals Button Navigation Camera FileBrowser Telemetry Boot Display.

(** ** Setup *)

(** The handle of the Arduino setup/loop task, which calls [setup]; the
    task table hands out handles from 1. *)
Definition SETUP_TASK : nat := 0.

(** [displayTask] is the first task [setup] creates. *)
Definition DISPLAY_HANDLE : nat := 1.

Definition create_task (fn : TaskFn) : ST World unit :=
  st_modify (fun w => w {{ rtos := (xTaskCreatePinnedToCore fn (rtos w)).2 }}).

(** [initQueues()] (src/helpers.cpp): the six [xQueueCreate]; [alloc_ok]
    is whether all of them succeed.  On a failure the code prints and
    hangs in [while(1) {}]: its caller never continues. *)
Definition initQueues (alloc_ok : bool) : ST World bool :=
  st_modify (fun w => w {{ button_queue := xQueueCreate BUTTON_QUEUE_SIZE;
                           frame_display_queue := xQueueCreate FRAME_DISPLAY_QUEUE_SIZE;
                           frame_save_queue := xQueueCreate FRAME_SAVE_QUEUE_SIZE;
                           sys_info_queue := xQueueCreate SYS_INFO_QUEUE_SIZE;
                           file_delete_queue := xQueueCreate FILE_DELETE_QUEUE_SIZE;
                           wifi_queue := xQueueCreate WIFI_QUEUE_SIZE }});;
  mret alloc_ok.

(** [setup()] in the environment [env], with at most [fuel] polls of the
    WiFi wait loop: [None] when it does not return (it hangs in
    [initQueues], or [initWiFi] waits longer than [fuel] polls); otherwise
    the result lists the tasks the final [vTaskSuspend] calls suspend.  A
    call that suspends the calling task is its last: the caller runs no
    further.  [initSD] only prints (the mount's outcome is the card's
    [sd_mounted]) and [initTFT] only draws; they change nothing modelled. *)
Definition setup (env : boot_env) (fuel : nat) : ST World (option (list nat)) :=
  ok ← initQueues (alloc_ok env);
  if negb ok then mret None else
  match initWiFi fuel env with
  | None => mret None
  | Some _ =>
      initNTP env;;
      initHeapQueue;;
      loadFileNames;;
      create_task displayTaskFn;;
      create_task buttonTaskFn;;
      create_task systemDataTaskFn;;
      create_task wifiDataTaskFn;;
      create_task ntpTimeTaskFn;;
      w ← st_get;
      let t1 := vTaskSuspend (saveFrameToSDTask_handle w) SETUP_TASK in
      if decide (t1 = SETUP_TASK) then mret (Some [t1])
      else mret (Some [t1; vTaskSuspend (deleteFromSDTask_handle w) SETUP_TASK])
  end.

(** The state after a normal [setup] on a given card: the network is up
    at the first poll. *)
Definition boot_world (s : sdcard) : World := exec (setup boot_ok 0) (globals_init s).

(** ** The scheduler *)

(** One iteration of one task's loop, with its inputs. *)
Inductive event :=
| EvDisplay (cam_ok : bool)
| EvButton (reading : Z)
| EvSystemData (min_free cpu millis heap_size free_heap : Z)
| EvWifi (ssid_ ip_ : string) (rssi_ : Z) (mac_ : string) (sc : scan_result)
| EvNtp (now : option tm)
| EvCapture
| EvSave
| EvDelete.

Definition event_task (e : event) : TaskFn :=
  match e with
  | EvDisplay _ => displayTaskFn
  | EvButton _ => buttonTaskFn
  | EvSystemData _ _ _ _ _ => systemDataTaskFn
  | EvWifi _ _ _ _ _ => wifiDataTaskFn
  | EvNtp _ => ntpTimeTaskFn
  | EvCapture => frameCaptureTaskFn
  | EvSave => saveFrameToSDTaskFn
  | EvDelete => deleteFromSDTaskFn
  end.

Definition run_event (e : event) : ST World unit :=
  match e with
  | EvDisplay ok => displayTask_iter DISPLAY_HANDLE ok
  | EvButton r => buttonTask_iter r
  | EvSystemData a b c d e => systemDataTask_iter a b c d e
  | EvWifi s i r m sc => wifiDataTask_iter s i r m sc
  | EvNtp now => ntpTimeTask_iter now
  | EvCapture => frameCaptureTask_iter
  | EvSave => saveFrameToSDTask_iter
  | EvDelete => deleteFromSDTask_iter
  end.

(** A task present in the task table may run one iteration. *)
Inductive step : World -> World -> Prop :=
| step_run (e : event) (w : World) :
    tasks_running (event_task e) (rtos w) <> [] -> step w (exec (run_event e) w).

Definition reachable (s : sdcard) (w : World) : Prop := star step (boot_world s) w.

(** Running a list of events in order, each checked against the task
    table: the executable counterpart of [star step], for concrete traces. *)
Fixpoint run_trace (es : list event) (w : World) : option World :=
  match es with
  | [] => Some w
  | e :: rest =>
      if bool_decide (tasks_running (event_task e) (rtos w) <> [])
      then run_trace rest (exec (run_event e) w) else None
  end.

Lemma run_trace_star (es : list event) (w w' : World) :
  run_trace es w = Some w' -> star step w w'.
Proof.
  revert w. induction es as [|e rest IH]; intros w H; simpl in H.
  - injection H as ->. constructor.
  - case_bool_decide as Hr; [|discriminate].
    eapply star_step; [by constructor|]. by apply IH.
Qed.

(** ** The invariant *)

(** The part of the world the invariant is about. *)
Record sys_view := mkView {
  v_ds : DisplayState; v_ps : DisplayState; v_bi : Z; v_ci : bool; v_mi : bool;
  v_rt : Rtos.rtos; v_h1 : option nat; v_h2 : option nat; v_hd : option nat;
  v_files : list string; v_nf : Z; v_heap : list Z; v_menu_faults : list Fault }.

Definition oob_menu_b (f : Fault) : bool := match f with OobMenuIndex _ => true | _ => false end.

Definition view (w : World) : sys_view :=
  mkView (display_state w) (prev_state w) (button_index w) (camera_init w) (menu_init w)
    (rtos w) (frameCaptureTask_handle w) (saveFrameToSDTask_handle w) (deleteFromSDTask_handle w)
    (filenames w) (num_files w) (heap_usage w) (filter (fun f => oob_menu_b f = true) (faults w)).

Definition is_game (s : DisplayState) : bool := match s with GAME1 | GAME2 | GAME3 => true | _ => false end.

(** The items of the list screen [s] (the other screens keep the index at 0). *)
Definition menu_size (s : DisplayState) : Z :=
  match s with MENU => MAIN_MENU_SIZE | GAMES => GAMES_MENU_SIZE | _ => 1 end.

(** The tasks [setup] creates, with their handles. *)
Definition always_on : list (nat * TaskFn) :=
  [(1%nat, displayTaskFn); (2%nat, buttonTaskFn); (3%nat, systemDataTaskFn);
   (4%nat, wifiDataTaskFn); (5%nat, ntpTimeTaskFn)].

Definition nav_inv (v : sys_view) : Prop :=
  0 <= v_bi v < menu_size (v_ds v) /\ v_ps v = (if is_game (v_ds v) then GAMES else MENU).

Definition cam_inv (v : sys_view) : Prop :=
  (v_ci v = false -> v_h1 v = None /\ v_h2 v = None /\
     tasks_running frameCaptureTaskFn (v_rt v) = [] /\ tasks_running saveFrameToSDTaskFn (v_rt v) = []) /\
  (v_ci v = true -> v_ds v = CAMERA_FEED /\ exists h1 h2, v_h1 v = Some h1 /\ v_h2 v = Some h2 /\
     tasks_running frameCaptureTaskFn (v_rt v) = [h1] /\ tasks_running saveFrameToSDTaskFn (v_rt v) = [h2]).

Definition del_inv (v : sys_view) : Prop :=
  (forall h, v_hd v = Some h -> (h, deleteFromSDTaskFn) ∈ rt_tasks (v_rt v)) /\
  (v_ds v = SD_CARD -> v_mi v = true -> v_hd v <> None).

Definition rtos_inv (v : sys_view) : Prop :=
  rtos_wf (v_rt v) /\ Forall (fun t => t ∈ rt_tasks (v_rt v)) always_on.

Definition view_inv (v : sys_view) : Prop :=
  nav_inv v /\ cam_inv v /\ del_inv v /\ rtos_inv v /\
  v_nf v = Z.of_nat (length (v_files v)) /\ history_wf (v_heap v) /\ v_menu_faults v = [].

Definition sys_inv (w : World) : Prop := view_inv (view w).

(** ** Steps that leave the view alone *)

Lemma filter_menu_app (fs gs : list Fault) :
  Forall (fun f => oob_menu_b f = false) gs ->
  filter (fun f => oob_menu_b f = true) (fs ++ gs) = filter (fun f => oob_menu_b f = true) fs.
Proof.
  intros Hg. rewrite filter_app.
  assert (Hn : filter (fun f => oob_menu_b f = true) gs = []).
  { induction Hg as [|g gs Hg _ IH]; [done|]. rewrite filter_cons, decide_False by congruence. done. }
  by rewrite Hn, app_nil_r.
Qed.

(** Brute force on a straight-line statement: compute, split the cases
    of every [match] and [if], and close the view equations. *)
Ltac view_tac :=
  unfold view, exec; wsimpl;
  repeat (first [ case_decide
                | match goal with |- context [if ?b then _ else _] => is_var b; destruct b end
                | case_match ]; wsimpl);
  rewrite ?filter_menu_app by (repeat constructor); try reflexivity.

Lemma buttonTask_iter_view r w : view (exec (buttonTask_iter r) w) = view w.
Proof. destruct w. unfold buttonTask_iter, log_fault. view_tac. Qed.

Lemma wifiDataTask_iter_view s i r m sc w : view (exec (wifiDataTask_iter s i r m sc) w) = view w.
Proof. destruct w. unfold wifiDataTask_iter. view_tac. Qed.

Lemma ntpTimeTask_iter_view now w : view (exec (ntpTimeTask_iter now) w) = view w.
Proof. destruct w. unfold ntpTimeTask_iter, skip. view_tac. Qed.

Lemma frameCaptureTask_iter_view w : view (exec frameCaptureTask_iter w) = view w.
Proof. destruct w. unfold frameCaptureTask_iter, send_display, send_save, skip. view_tac. Qed.

Lemma saveFrameToSDTask_iter_view w : view (exec saveFrameToSDTask_iter w) = view w.
Proof.
  destruct w. unfold saveFrameToSDTask_iter, fb_use, fb_return, log_fault, skip. view_tac.
Qed.

Lemma sys_inv_view (w w' : World) : view w' = view w -> sys_inv w -> sys_inv w'.
Proof. unfold sys_inv. by intros ->. Qed.

(** ** The telemetry and delete workers *)

Lemma systemDataTask_iter_inv a b c d e w :
  sys_inv w -> sys_inv (exec (systemDataTask_iter a b c d e) w).
Proof.
  intros Hinv. pose proof (systemDataTask_iter_history a b c d e w) as Hh.
  destruct w. unfold sys_inv, view_inv in *. simpl in *. unfold systemDataTask_iter, exec in *.
  wsimpl. intuition.
Qed.

Lemma deleteFromSDTask_iter_inv w : sys_inv w -> sys_inv (exec deleteFromSDTask_iter w).
Proof.
  intros Hinv. assert (Hf : files_wf w) by apply Hinv.
  pose proof (deleteFromSDTask_iter_wf w Hf) as Hf'. unfold files_wf in Hf'.
  destruct (file_delete_queue w) as [c [|n r]] eqn:Hq.
  - apply (sys_inv_view w); [|done]. destruct w; simpl in Hq; subst.
    unfold deleteFromSDTask_iter. view_tac.
  - revert Hf'. rewrite (deleteFromSDTask_iter_some w c n r Hq). cbv zeta. intros Hf'.
    destruct (sd_remove n (sd w)).1.
    + revert Hf'. rewrite loadFileNames_spec. intros Hf'.
      destruct w. unfold sys_inv, view_inv in *. simpl in *. intuition.
    + apply (sys_inv_view w); [|done]. by destruct w.
Qed.

(** ** The draw functions of the display task leave the view alone *)

Lemma drawCameraFeed_view w : view (exec drawCameraFeed w) = view w.
Proof. destruct w. unfold drawCameraFeed, fb_use, fb_return, log_fault, skip. view_tac. Qed.

Lemma drawWifi_view w : view (exec drawWifi w) = view w.
Proof. destruct w. unfold drawWifi. view_tac. Qed.

Lemma updateMenuHighlight_view w : view (exec updateMenuHighlight w) = view w.
Proof. destruct w. unfold updateMenuHighlight, skip. view_tac. Qed.

Lemma drawMenu_view w : view (exec drawMenu w) = view w.
Proof. destruct w. unfold drawMenu. view_tac. Qed.

Lemma oob_rows_not_menu len rows : Forall (fun f => oob_menu_b f = false) (oob_rows len rows).
Proof. unfold oob_rows. apply Forall_fmap, Forall_forall. done. Qed.

Lemma drawFiles_view w : view (exec drawFiles w) = view w.
Proof.
  destruct (decide (file_index w = prev_file_index w)) as [Heq|Hne].
  - destruct w; simpl in Heq; subst. unfold drawFiles, skip. view_tac. tauto.
  - rewrite drawFiles_exec by done. destruct w. unfold view. wsimpl.
    by rewrite filter_menu_app by apply oob_rows_not_menu.
Qed.

Lemma drawImageViewer_view w : view (exec drawImageViewer w) = view w.
Proof.
  unfold drawImageViewer, exec. rewrite st_run_bind. cbv [st_get]. simpl.
  destruct (image_shown w) eqn:Hs; [done|].
  rewrite !st_run_bind, !vec_at_exec. destruct w. unfold view. wsimpl.
  rewrite <- app_assoc. rewrite filter_menu_app; [done|].
  apply Forall_app. split; case_decide; repeat constructor.
Qed.

Lemma gen_xy_view i n q x_c y_c w : view (snd (gen_xy i n q x_c y_c w)) = view w.
Proof.
  revert i q x_c y_c w. induction n as [|n IH]; intros i q x_c y_c w; [done|].
  destruct q as [|y [|z q]]; simpl.
  - destruct w. unfold log_fault. view_tac.
  - done.
  - apply IH.
Qed.

Local Opaque gen_xy.

Lemma drawSystemData_view w : view (exec drawSystemData w) = view w.
Proof.
  unfold drawSystemData, exec. rewrite st_run_bind. cbv [st_get]. simpl.
  destruct (xQueueReceive (sys_info_queue w)) as [[info|] q]; wsimpl.
  - unfold generateXYArrays. cbv [mbind st_bind st_get]. simpl.
    match goal with |- context [gen_xy ?a ?b ?c ?d ?e ?f] =>
      pose proof (gen_xy_view a b c d e f) as Hv; destruct (gen_xy a b c d e f) as [[x y] w1] end.
    simpl in *. rewrite Hv. by destruct w.
  - by destruct w.
Qed.

Local Transparent gen_xy.

(** ** The screens' setup guards *)

Lemma init_once_view (m : ST World unit) w :
  (forall w, view (exec m w) = view w) ->
  view (exec (init_once m) w) = (view w) {{ v_mi := true }}.
Proof.
  intros Hm. pose proof (Hm w) as Hv. destruct w as [? ? ? ? ? ? ? ? [] ? ? ? ? ? ? ? ? ? ? ? ? ?];
    unfold init_once, exec in *; wsimpl; [reflexivity|].
  destruct (m _) as [u w1]. simpl in *. unfold view in *. destruct w1. simpl in *.
  injection Hv as -> -> -> -> -> -> -> -> -> -> -> -> ->. reflexivity.
Qed.

(** Setting [menu_init] keeps the invariant off the SD-card screen (whose
    setup sets it itself). *)
Lemma view_inv_mi v : view_inv v -> v_ds v <> SD_CARD -> view_inv (v {{ v_mi := true }}).
Proof. unfold view_inv, del_inv. destruct v; simpl. intuition. Qed.

(** ** The handlers keep the invariant on their screens *)

Ltac inv_unfold :=
  unfold sys_inv, view_inv, nav_inv, cam_inv, del_inv, rtos_inv, view, menu_size,
    MAIN_MENU_SIZE, GAMES_MENU_SIZE in *; simpl in *.

Lemma handleButtonSimple_inv w :
  sys_inv w -> display_state w = SYSTEM_DATA \/ display_state w = WIFI ->
  sys_inv (exec handleButtonSimple w).
Proof.
  intros Hinv Hds. destruct w as [? ? ? ? ? ? ? ? ? ? ? ? ? ? ? ? ? ? ? ? [c [|b rest]] ?];
    unfold handleButtonSimple, receive_button, skip, exec; wsimpl; [exact Hinv|].
  destruct b; wsimpl; try exact Hinv.
  inv_unfold. destruct Hds as [-> | ->]; simpl in *; intuition (try discriminate; try lia).
Qed.

Lemma handleButtonGame_inv w :
  sys_inv w -> is_game (display_state w) = true -> sys_inv (exec handleButtonGame w).
Proof.
  intros Hinv Hds. destruct w as [? ? ? ? ? ? ? ? ? ? ? ? ? ? ? ? ? ? ? ? [c [|b rest]] ?];
    unfold handleButtonGame, receive_button, skip, exec; wsimpl; [exact Hinv|].
  destruct b; wsimpl; try exact Hinv.
  inv_unfold. destruct display_state; try discriminate; intuition (try discriminate; try lia).
Qed.

(** The menus read [menu[button_index]] inside the array. *)
Lemma menu_lookup_in (menu : list MenuItem) (i : Z) :
  0 <= i < Z.of_nat (length menu) -> exists it, menu !! Z.to_nat i = Some it.
Proof. intros Hi. apply lookup_lt_is_Some_2. lia. Qed.

Lemma handleButtonMenu_inv w menu n :
  sys_inv w ->
  (display_state w = MENU /\ menu = main_menu /\ n = MAIN_MENU_SIZE) \/
  (display_state w = GAMES /\ menu = games_menu /\ n = GAMES_MENU_SIZE) ->
  sys_inv (exec (handleButtonMenu menu n) w).
Proof.
  intros Hinv Hds. destruct w as [? ? ? ? ? ? ? ? ? ? ? ? ? ? ? ? ? ? ? ? [c [|b rest]] ?];
    unfold handleButtonMenu, receive_button, skip, exec; wsimpl; [exact Hinv|].
  destruct b; wsimpl; try exact Hinv.
  - (* DOWN *) inv_unfold. destruct Hds as [(-> & -> & ->)|(-> & -> & ->)]; simpl in *;
      intuition (try lia); unfold MAIN_MENU_SIZE, GAMES_MENU_SIZE; z_cases; lia.
  - (* UP *) inv_unfold. destruct Hds as [(-> & -> & ->)|(-> & -> & ->)]; simpl in *;
      intuition (try lia); unfold MAIN_MENU_SIZE, GAMES_MENU_SIZE; z_cases; lia.
  - (* SELECT *)
    assert (Hbi : 0 <= button_index < Z.of_nat (length menu)).
    { inv_unfold. destruct Hds as [(-> & -> & ->)|(-> & -> & ->)]; simpl in *; lia. }
    destruct (menu_lookup_in menu button_index Hbi) as [it Hit].
    unfold vec_at. rewrite decide_True by lia. rewrite Hit. wsimpl.
    inv_unfold. destruct Hds as [(-> & -> & ->)|(-> & -> & ->)]; simpl in *;
      (assert (Hc : button_index = 0 \/ button_index = 1 \/ button_index = 2 \/ button_index = 3 \/ button_index = 4)
         by lia);
      destruct Hc as [-> | [-> | [-> | [-> | ->]]]]; simpl in *; try lia;
      injection Hit as <-; simpl; intuition (try discriminate; try lia).
  - (* BACK *) inv_unfold. destruct Hds as [(-> & -> & ->)|(-> & -> & ->)]; simpl in *;
      intuition (try discriminate; try lia); subst; simpl; intuition (try discriminate; try lia).
Qed.

(** ** The task table *)

Lemma always_on_xTaskCreate fn r :
  Forall (fun t => t ∈ rt_tasks r) always_on ->
  Forall (fun t => t ∈ rt_tasks (xTaskCreatePinnedToCore fn r).2) always_on.
Proof. intros H. eapply Forall_impl; [exact H|]. intros x Hx. simpl. set_solver. Qed.

(** Deleting a task of another function keeps the always-on tasks. *)
Lemma always_on_vTaskDelete h fn self r :
  rtos_wf r -> (h, fn) ∈ rt_tasks r -> fn ∉ always_on.*2 ->
  Forall (fun t => t ∈ rt_tasks r) always_on ->
  Forall (fun t => t ∈ rt_tasks (vTaskDelete (Some h) self r)) always_on.
Proof.
  intros Hwf Hh Hfn H. rewrite Forall_forall in *. intros [k f] Hk.
  apply elem_of_vTaskDelete. split; [|by apply H]. simpl. intros ->.
  assert (f = fn) as -> by (eapply rtos_wf_unique; [done|apply (H _ Hk)|done]).
  apply Hfn. apply list_elem_of_fmap. by exists (h, fn).
Qed.

Lemma tasks_running_single_delete fn h self r :
  tasks_running fn r = [h] -> tasks_running fn (vTaskDelete (Some h) self r) = [].
Proof. intros H. rewrite tasks_running_vTaskDelete, H. simpl. rewrite filter_cons, decide_False; [done|]. tauto. Qed.

Lemma tasks_running_nil_delete fn h self r :
  tasks_running fn r = [] -> tasks_running fn (vTaskDelete h self r) = [].
Proof. intros H. by rewrite tasks_running_vTaskDelete, H. Qed.

(** Creating a task keeps the task table invariant. *)
Lemma rtos_inv_create fn (v : sys_view) :
  rtos_inv v -> rtos_wf (xTaskCreatePinnedToCore fn (v_rt v)).2 /\
  Forall (fun t => t ∈ rt_tasks (xTaskCreatePinnedToCore fn (v_rt v)).2) always_on.
Proof. intros [Hwf Hon]. split; [by apply xTaskCreate_wf|by apply always_on_xTaskCreate]. Qed.

Lemma elem_of_xTaskCreate t fn r : t ∈ rt_tasks r -> t ∈ rt_tasks (xTaskCreatePinnedToCore fn r).2.
Proof. simpl. set_solver. Qed.

(** ** The camera screen *)

Lemma xTaskCreate_handle fn r : (xTaskCreatePinnedToCore fn r).1 = rt_next r.
Proof. done. Qed.

Lemma xTaskCreate_next fn r : rt_next (xTaskCreatePinnedToCore fn r).2 = S (rt_next r).
Proof. done. Qed.

Local Opaque xTaskCreatePinnedToCore.

Lemma camera_setup_inv ok w :
  sys_inv w -> display_state w = CAMERA_FEED -> camera_init w = false ->
  sys_inv (exec (camera_setup ok) w) /\ camera_init (exec (camera_setup ok) w) = true /\
  display_state (exec (camera_setup ok) w) = CAMERA_FEED.
Proof.
  intros Hinv Hds Hci. destruct w. simpl in Hds, Hci. subst.
  unfold camera_setup, exec. cbv [mbind st_bind st_get st_put].
  rewrite (surjective_pairing (xTaskCreatePinnedToCore frameCaptureTaskFn _)).
  rewrite (surjective_pairing (xTaskCreatePinnedToCore saveFrameToSDTaskFn _)).
  wsimpl. destruct (esp_camera_init ok cam) as [e d]. wsimpl. split; [|done].
  inv_unfold. destruct Hinv as (Hnav & [Hc0 _] & [Hd1 Hd2] & [Hwf Hon] & Hf & Hh & Hm).
  destruct (Hc0 eq_refl) as (_ & _ & Hr1 & Hr2).
  split; [done|]. split.
  { split; [intros ?; discriminate|]. intros _. split; [done|].
    eexists _, _. do 2 (split; [reflexivity|]).
    rewrite xTaskCreate_running_other, xTaskCreate_running, Hr1 by done. split.
    - by rewrite xTaskCreate_handle.
    - by rewrite xTaskCreate_running, xTaskCreate_running_other, Hr2, xTaskCreate_handle by done. }
  split.
  { split; [intros h Hh'; apply elem_of_xTaskCreate, elem_of_xTaskCreate; by apply Hd1|done]. }
  split; [|done].
  split; [by apply xTaskCreate_wf, xTaskCreate_wf|by apply always_on_xTaskCreate, always_on_xTaskCreate].
Qed.


(** Deleting a task keeps every task that runs another function. *)
Lemma keep_vTaskDelete h fn k g self r :
  rtos_wf r -> (h, fn) ∈ rt_tasks r -> (k, g) ∈ rt_tasks r -> fn <> g ->
  (k, g) ∈ rt_tasks (vTaskDelete (Some h) self r).
Proof.
  intros Hwf Hh Hk Hne. apply elem_of_vTaskDelete. split; [|done]. simpl. intros ->.
  apply Hne. by eapply rtos_wf_unique.
Qed.

Lemma tasks_running_delete_other fn h self r k :
  tasks_running fn r = [k] -> h <> k -> tasks_running fn (vTaskDelete (Some h) self r) = [k].
Proof. intros H Hne. rewrite tasks_running_vTaskDelete, H. simpl. rewrite filter_cons, decide_True; done. Qed.

Local Opaque vTaskDelete.

Lemma handleButtonCamera_inv self w :
  sys_inv w -> display_state w = CAMERA_FEED -> camera_init w = true ->
  sys_inv (exec (handleButtonCamera self) w).
Proof.
  intros Hinv Hds Hci.
  destruct (button_queue w) as [c [|b rest]] eqn:Hq.
  - eapply sys_inv_view; [|exact Hinv]. destruct w. simpl in Hq; subst.
    unfold handleButtonCamera, receive_button, skip. view_tac.
  - destruct (decide (b = BACK)) as [->|Hb].
    + rewrite (handleButtonCamera_back self w c rest Hq). unfold sys_inv in *. revert Hinv.
      destruct w. simpl in *. subst. wsimpl. inv_unfold.
      intros (Hnav & [_ Hc1] & [Hd1 Hd2] & [Hwf Hon] & Hf & Hh & Hm).
      destruct (Hc1 eq_refl) as (_ & h1 & h2 & -> & -> & Hr1 & Hr2).
      assert (Hin1 : (h1, frameCaptureTaskFn) ∈ rt_tasks rtos) by (apply elem_of_tasks_running; rewrite Hr1; set_solver).
      assert (Hin2 : (h2, saveFrameToSDTaskFn) ∈ rt_tasks rtos) by (apply elem_of_tasks_running; rewrite Hr2; set_solver).
      assert (H12 : h1 <> h2) by (intros ->; pose proof (rtos_wf_unique _ _ _ _ Hwf Hin1 Hin2); discriminate).
      split; [split; [lia|apply Hnav]|]. split.
      { split; [intros _|intros ?; discriminate]. do 2 (split; [done|]). split.
        - by apply tasks_running_nil_delete, tasks_running_single_delete.
        - by apply tasks_running_single_delete, tasks_running_delete_other. }
      split.
      { split; [|intros ?; discriminate]. intros h Hh'.
        apply keep_vTaskDelete with (fn := saveFrameToSDTaskFn); [by apply vTaskDelete_wf| |eauto using keep_vTaskDelete|done].
        apply keep_vTaskDelete with (fn := frameCaptureTaskFn); [done|done|done|done]. }
      split; [|done].
      split; [by apply vTaskDelete_wf, vTaskDelete_wf|].
      apply always_on_vTaskDelete with (fn := saveFrameToSDTaskFn); [by apply vTaskDelete_wf| | |].
      * apply keep_vTaskDelete with (fn := frameCaptureTaskFn); done.
      * simpl. set_solver.
      * apply always_on_vTaskDelete with (fn := frameCaptureTaskFn); [done|done|simpl; set_solver|done].
    + eapply sys_inv_view; [|exact Hinv]. destruct w. simpl in Hq; subst.
      unfold handleButtonCamera, receive_button, skip. view_tac; congruence.
Qed.

(** ** The SD-card screen *)

Lemma sd_setup_inv w :
  sys_inv w -> display_state w = SD_CARD -> sys_inv (exec sd_setup w).
Proof.
  intros Hinv Hds. rewrite sd_setup_exec. destruct w. simpl in Hds. subst. wsimpl. revert Hinv. inv_unfold.
  intros (Hnav & [Hc0 Hc1] & [Hd1 Hd2] & [Hwf Hon] & Hf & Hh & Hm).
  destruct camera_init; [by destruct (Hc1 eq_refl)|]. destruct (Hc0 eq_refl) as (-> & -> & Hr1 & Hr2).
  split; [done|]. split.
  { split; [intros _|intros ?; discriminate].
    by rewrite !xTaskCreate_running_other, Hr1, Hr2 by done. }
  split.
  { split; [|intros _ _ ?; discriminate]. intros h [= <-]. simpl. set_solver. }
  split; [split; [by apply xTaskCreate_wf|by apply always_on_xTaskCreate]|].
  split; [lia|done].
Qed.

Lemma handleButtonFiles_inv self w :
  sys_inv w -> display_state w = SD_CARD -> menu_init w = true ->
  sys_inv (exec (handleButtonFiles self) w).
Proof.
  intros Hinv Hds Hmi.
  destruct (button_queue w) as [c [|b rest]] eqn:Hq.
  - eapply sys_inv_view; [|exact Hinv]. destruct w. simpl in Hq; subst.
    unfold handleButtonFiles, receive_button, skip. view_tac.
  - destruct (decide (b = BACK)) as [->|Hb]; [destruct (image_view w) eqn:Hv|].
    + revert Hinv. destruct w. simpl in *. subst.
      unfold handleButtonFiles, receive_button, exec. wsimpl. inv_unfold. intuition.
    + rewrite (handleButtonFiles_list_back self w c rest Hq Hv).
      revert Hinv. destruct w. simpl in *. subst. wsimpl. inv_unfold.
      intros (Hnav & [Hc0 Hc1] & [Hd1 Hd2] & [Hwf Hon] & Hf & Hh & Hm).
      destruct deleteFromSDTask_handle as [h|]; [|by destruct Hd2].
      pose proof (Hd1 h eq_refl) as Hin.
      destruct camera_init; [by destruct (Hc1 eq_refl)|]. destruct (Hc0 eq_refl) as (-> & -> & Hr1 & Hr2).
      split; [split; [lia|done]|]. split.
      { split; [intros _|intros ?; discriminate].
        by rewrite !tasks_running_nil_delete by done. }
      split; [split; [done|intros ?; discriminate]|].
      split; [|done]. split; [by apply vTaskDelete_wf|].
      apply always_on_vTaskDelete with (fn := deleteFromSDTaskFn); [done|done|simpl; set_solver|done].
    + eapply sys_inv_view; [|exact Hinv]. destruct w. simpl in Hq; subst.
      unfold handleButtonFiles, clamp_file_index, receive_button, skip, vec_at, log_fault.
      destruct b; try congruence; view_tac;
      try (injection H1 as <- <-; wsimpl; rewrite ?filter_menu_app by (repeat constructor); reflexivity).
Qed.

(** ** One tick of the display task *)

Lemma exec_get {A} (k : World -> ST World A) w : exec (w' ← st_get; k w') w = exec (k w) w.
Proof. reflexivity. Qed.

Lemma exec_skip w : exec (@skip World) w = w.
Proof. reflexivity. Qed.

(** What the handlers' guards read is part of the view. *)
Lemma view_guards w w' :
  view w' = view w ->
  display_state w' = display_state w /\ camera_init w' = camera_init w /\ menu_init w' = menu_init w.
Proof. unfold view. intros H. injection H. auto. Qed.

(** A draw function (or any step that keeps the view) followed by a
    handler that keeps the invariant under guards on the view. *)
Lemma then_inv {A} (m : ST World A) (k : A -> ST World unit) w :
  (forall w, view (exec m w) = view w) ->
  (forall w' a, view w' = view w -> sys_inv w' -> sys_inv (exec (k a) w')) ->
  sys_inv w -> sys_inv (exec (m ≫= k) w).
Proof. intros Hm Hk Hinv. rewrite exec_bind. apply Hk; [apply Hm|]. exact (sys_inv_view w _ (Hm w) Hinv). Qed.

Lemma init_once_inv (m : ST World unit) w :
  (forall w, view (exec m w) = view w) -> sys_inv w -> display_state w <> SD_CARD ->
  sys_inv (exec (init_once m) w) /\ display_state (exec (init_once m) w) = display_state w.
Proof.
  intros Hm Hinv Hds. pose proof (init_once_view m w Hm) as Hv. split.
  - unfold sys_inv. rewrite Hv. by apply view_inv_mi.
  - apply (f_equal v_ds) in Hv. exact Hv.
Qed.

Lemma menu_screen_inv w menu n :
  sys_inv w ->
  (display_state w = MENU /\ menu = main_menu /\ n = MAIN_MENU_SIZE) \/
  (display_state w = GAMES /\ menu = games_menu /\ n = GAMES_MENU_SIZE) ->
  sys_inv (exec (menu_screen menu n) w).
Proof.
  intros Hinv Hds. unfold menu_screen. rewrite exec_bind.
  assert (Hne : display_state w <> SD_CARD) by (intros Hsd; rewrite Hsd in Hds; intuition discriminate).
  destruct (init_once_inv drawMenu w drawMenu_view Hinv Hne) as [H1 Hd1].
  apply then_inv; [apply updateMenuHighlight_view| |done].
  intros w' _ Hv Hi. apply handleButtonMenu_inv; [done|].
  rewrite (proj1 (view_guards _ _ Hv)), Hd1. done.
Qed.

Lemma camera_screen_inv self ok w :
  sys_inv w -> display_state w = CAMERA_FEED -> sys_inv (exec (camera_screen self ok) w).
Proof.
  intros Hinv Hds. unfold camera_screen. rewrite exec_get, exec_bind.
  assert (H1 : let w1 := exec (if camera_init w then skip else camera_setup ok) w in
     sys_inv w1 /\ display_state w1 = CAMERA_FEED /\ camera_init w1 = true).
  { destruct (camera_init w) eqn:Hci; [done|]. cbv zeta. by destruct (camera_setup_inv ok w) as (? & ? & ?). }
  destruct H1 as (Hi1 & Hd1 & Hc1).
  apply then_inv; [apply drawCameraFeed_view| |done].
  intros w' _ Hv Hi. destruct (view_guards _ _ Hv) as (Hd & Hc & _).
  apply handleButtonCamera_inv; congruence.
Qed.

Lemma sd_card_screen_inv self w :
  sys_inv w -> display_state w = SD_CARD -> sys_inv (exec (sd_card_screen self) w).
Proof.
  intros Hinv Hds. unfold sd_card_screen. rewrite exec_get, exec_bind.
  assert (H1 : let w1 := exec (if menu_init w then skip else sd_setup) w in
     sys_inv w1 /\ display_state w1 = SD_CARD /\ menu_init w1 = true).
  { destruct (menu_init w) eqn:Hmi; [done|]. cbv zeta. split; [by apply sd_setup_inv|].
    rewrite sd_setup_exec. destruct w. simpl in *. wsimpl. done. }
  destruct H1 as (Hi1 & Hd1 & Hm1). cbv beta. rewrite exec_get.
  set (w1 := exec _ w) in *.
  destruct (image_view w1); (apply then_inv; [first [apply drawImageViewer_view | apply drawFiles_view]| |done]);
    intros w' _ Hv Hi; destruct (view_guards _ _ Hv) as (Hd & _ & Hm); apply handleButtonFiles_inv; congruence.
Qed.

Lemma system_data_screen_inv w :
  sys_inv w -> display_state w = SYSTEM_DATA -> sys_inv (exec system_data_screen w).
Proof.
  intros Hinv Hds. unfold system_data_screen. rewrite exec_bind.
  destruct (init_once_inv skip w (fun w => eq_refl) Hinv) as [H1 Hd1]; [by rewrite Hds|].
  apply then_inv; [apply drawSystemData_view| |done].
  intros w' _ Hv Hi. apply handleButtonSimple_inv; [done|]. left. by rewrite (proj1 (view_guards _ _ Hv)), Hd1.
Qed.

Lemma wifi_screen_inv w :
  sys_inv w -> display_state w = WIFI -> sys_inv (exec wifi_screen w).
Proof.
  intros Hinv Hds. unfold wifi_screen. rewrite exec_bind.
  destruct (init_once_inv skip w (fun w => eq_refl) Hinv) as [H1 Hd1]; [by rewrite Hds|].
  apply then_inv; [apply drawWifi_view| |done].
  intros w' _ Hv Hi. apply handleButtonSimple_inv; [done|]. right. by rewrite (proj1 (view_guards _ _ Hv)), Hd1.
Qed.

Lemma game_screen_inv w :
  sys_inv w -> is_game (display_state w) = true -> sys_inv (exec game_screen w).
Proof.
  intros Hinv Hds. unfold game_screen. rewrite exec_bind.
  destruct (init_once_inv skip w (fun w => eq_refl) Hinv) as [H1 Hd1]; [by intros Hsd; rewrite Hsd in Hds|].
  rewrite exec_bind, exec_skip. apply handleButtonGame_inv; [done|]. by rewrite Hd1.
Qed.

Lemma displayTask_iter_inv self ok w : sys_inv w -> sys_inv (exec (displayTask_iter self ok) w).
Proof.
  intros Hinv. unfold displayTask_iter. rewrite exec_get.
  destruct (display_state w) eqn:Hds; try (apply game_screen_inv; [done|by rewrite Hds]).
  - revert Hinv. destruct w. simpl in Hds. subst. unfold exec. wsimpl. inv_unfold. intuition (try discriminate; try lia).
  - apply menu_screen_inv; [done|by left].
  - by apply camera_screen_inv.
  - by apply sd_card_screen_inv.
  - by apply system_data_screen_inv.
  - by apply wifi_screen_inv.
  - apply menu_screen_inv; [done|by right].
Qed.

(** ** Every step keeps the invariant *)

Lemma run_event_inv e w : sys_inv w -> sys_inv (exec (run_event e) w).
Proof.
  intros Hinv. destruct e; simpl.
  - by apply displayTask_iter_inv.
  - exact (sys_inv_view _ _ (buttonTask_iter_view _ _) Hinv).
  - by apply systemDataTask_iter_inv.
  - exact (sys_inv_view _ _ (wifiDataTask_iter_view _ _ _ _ _ _) Hinv).
  - exact (sys_inv_view _ _ (ntpTimeTask_iter_view _ _) Hinv).
  - exact (sys_inv_view _ _ (frameCaptureTask_iter_view _) Hinv).
  - exact (sys_inv_view _ _ (saveFrameToSDTask_iter_view _) Hinv).
  - by apply deleteFromSDTask_iter_inv.
Qed.

Lemma step_inv w w' : step w w' -> sys_inv w -> sys_inv w'.
Proof. intros [e w0 _]. apply run_event_inv. Qed.

(** ** The boot state *)

Lemma boot_world_eq s :
  boot_world s = (globals_init s) {{ heap_usage := replicate 60 100;
    num_files := Z.of_nat (length (listed_names s)); filenames := listed_names s;
    rtos := mkRtos always_on 6 }}.
Proof.
  unfold boot_world, setup. rewrite exec_bind.
  change (fst (initQueues (alloc_ok boot_ok) (globals_init s))) with true.
  change (exec (initQueues (alloc_ok boot_ok)) (globals_init s)) with (globals_init s).
  change (initWiFi 0 boot_ok) with (Some 0%nat). cbv [negb].
  rewrite !exec_bind. cbv beta. change (exec (initNTP boot_ok) (globals_init s)) with (globals_init s).
  rewrite loadFileNames_spec. reflexivity.
Qed.

Lemma boot_inv s : sys_inv (boot_world s).
Proof.
  rewrite boot_world_eq. unfold globals_init. wsimpl. inv_unfold.
  split; [split; [lia|done]|]. split; [split; intros ?; [repeat split; reflexivity|discriminate]|].
  split; [split; [discriminate|intros ?; discriminate]|].
  split; [split; [split; [by repeat constructor; set_solver|repeat constructor; lia]|repeat constructor; set_solver]|].
  split; [done|]. split; [unfold history_wf; simpl; lia|done].
Qed.

(** The invariant holds in every state the scheduler can reach. *)
Lemma reachable_inv s w : reachable s w -> sys_inv w.
Proof. intros Hr. eapply star_invariant; [intros ? ? ? ?; eapply step_inv; eauto|apply boot_inv|exact Hr]. Qed.

(** ** Theorems about the reachable states *)

Lemma menu_faults_nil fs i :
  filter (fun f => oob_menu_b f = true) fs = [] -> OobMenuIndex i ∉ fs.
Proof.
  intros Hm Hin. assert (Hf : OobMenuIndex i ∈ filter (fun f => oob_menu_b f = true) fs)
    by (apply list_elem_of_filter; done).
  rewrite Hm in Hf. by apply not_elem_of_nil in Hf.
Qed.

(** A card with an empty root directory, and two traces of the
    scheduler from the boot state. *)
Definition empty_card : sdcard := mkSd true [].

(** Open the camera (two Down, Select), request a save (Select), let the
    capture and save tasks run once, then let the display draw. *)
Definition camera_save_trace : list event :=
  [EvDisplay true; EvButton 2000; EvDisplay true; EvButton 2000; EvDisplay true;
   EvButton 3000; EvDisplay true; EvDisplay true; EvButton 3000; EvDisplay true;
   EvCapture; EvSave; EvDisplay true].

(** Open the SD card (three Down, Select), open the viewer (Select),
    leave it (Back) and let the display run the screen's setup again. *)
Definition viewer_back_trace : list event :=
  [EvDisplay true; EvButton 2000; EvDisplay true; EvButton 2000; EvDisplay true;
   EvButton 2000; EvDisplay true; EvButton 3000; EvDisplay true; EvDisplay true;
   EvButton 3000; EvDisplay true; EvButton 4000; EvDisplay true; EvDisplay true].

(** The states at the end of the two traces. *)
Definition trace_end (es : list event) : World :=
  default (boot_world empty_card) (run_trace es (boot_world empty_card)).

Lemma trace_end_reachable es :
  is_Some (run_trace es (boot_world empty_card)) -> reachable empty_card (trace_end es).
Proof.
  intros [w Hw]. unfold trace_end. rewrite Hw. by apply (run_trace_star es).
Qed.

(** A card with ten frames: the file list fills the ten rows [drawFiles]
    shows, so every read of [filenames] on the SD screen is in range. *)
Definition ten_frame_card : sdcard :=
  mkSd true ["a.raw"; "b.raw"; "c.raw"; "d.raw"; "e.raw"; "f.raw"; "g.raw"; "h.raw"; "i.raw"; "j.raw"].

(** The state at the end of a trace from the boot state on card [s]. *)
Definition trace_end_on (s : sdcard) (es : list event) : World :=
  default (boot_world s) (run_trace es (boot_world s)).

Lemma trace_end_on_reachable s es :
  is_Some (run_trace es (boot_world s)) -> reachable s (trace_end_on s es).
Proof.
  intros [w Hw]. unfold trace_end_on. rewrite Hw. by apply (run_trace_star es).
Qed.

(** (C7) Menu safety: in every state reachable from a successful boot, the
    highlighted index lies inside the current menu and no
    [menu[button_index]] read has ever been out of range. *)
Theorem reachable_menu_safe s w :
  reachable s w ->
  0 <= button_index w < menu_size (display_state w) /\ (forall i, OobMenuIndex i ∉ faults w).
Proof.
  intros Hr. destruct (reachable_inv s w Hr) as ([Hb _] & _ & _ & _ & _ & _ & Hm).
  split; [exact Hb|]. intros i. by apply menu_faults_nil.
Qed.

Lemma reachable_menu_safe_witness :
  let w := trace_end camera_save_trace in
  reachable empty_card w /\ 0 <= button_index w < menu_size (display_state w).
Proof.
  cbv zeta. assert (Hr : reachable empty_card (trace_end camera_save_trace))
    by (apply trace_end_reachable; vm_compute; eauto).
  split; [exact Hr|]. exact (proj1 (reachable_menu_safe _ _ Hr)).
Defined.

Lemma camera_save_reachable : reachable empty_card (trace_end camera_save_trace).
Proof. apply trace_end_reachable. vm_compute. eauto. Qed.

Lemma viewer_back_reachable : reachable empty_card (trace_end viewer_back_trace).
Proof. apply trace_end_reachable. vm_compute. eauto. Qed.

(** (C5) The camera workers live exactly while the camera screen is
    initialised: without [camera_init] no capture or save task exists;
    with it the screen is the camera feed and exactly one capture task and
    one save task exist, the ones whose handles the globals hold.  So the
    Back teardown leaks no worker and the setup never runs twice. *)
Theorem reachable_camera_workers s w :
  reachable s w ->
  (camera_init w = false ->
     tasks_running frameCaptureTaskFn (rtos w) = [] /\ tasks_running saveFrameToSDTaskFn (rtos w) = []) /\
  (camera_init w = true -> display_state w = CAMERA_FEED /\
     exists h1 h2, frameCaptureTask_handle w = Some h1 /\ saveFrameToSDTask_handle w = Some h2 /\
       tasks_running frameCaptureTaskFn (rtos w) = [h1] /\ tasks_running saveFrameToSDTaskFn (rtos w) = [h2]).
Proof.
  intros Hr. destruct (reachable_inv s w Hr) as (_ & [Hc0 Hc1] & _).
  split; [intros H; by destruct (Hc0 H) as (_ & _ & ? & ?)|exact Hc1].
Qed.

Lemma reachable_camera_workers_witness :
  let w := trace_end camera_save_trace in
  reachable empty_card w /\ camera_init w = true /\ display_state w = CAMERA_FEED.
Proof.
  cbv zeta. split; [exact camera_save_reachable|]. split; [vm_compute; reflexivity|].
  exact (proj1 (proj2 (reachable_camera_workers _ _ camera_save_reachable) (eq_refl true))).
Defined.

(** (C6) The tasks [setup] creates are never deleted: in every reachable
    state the display, button, system-data, WiFi and clock tasks are in the
    task table under their handles 1 to 5, and the table is well formed
    (distinct handles, all below the next one).  In particular no
    [vTaskDelete] of a handler is ever given a NULL handle, which would
    delete the display task itself. *)
Theorem reachable_tasks_alive s w :
  reachable s w -> Forall (fun t => t ∈ rt_tasks (rtos w)) always_on /\ rtos_wf (rtos w).
Proof. intros Hr. destruct (reachable_inv s w Hr) as (_ & _ & _ & [Hwf Hon] & _). done. Qed.

Lemma reachable_tasks_alive_witness :
  let w := trace_end viewer_back_trace in
  reachable empty_card w /\ (DISPLAY_HANDLE, displayTaskFn) ∈ rt_tasks (rtos w).
Proof.
  cbv zeta. split; [exact viewer_back_reachable|].
  pose proof (proj1 (reachable_tasks_alive _ _ viewer_back_reachable)) as H.
  unfold always_on in H. by inversion H.
Defined.

(** (C11) The delete worker's handle always names a live delete task, and
    once the SD-card screen is set up it is set: the Back of the file list
    deletes that task, never the display task. *)
Theorem reachable_delete_handle s w :
  reachable s w ->
  (forall h, deleteFromSDTask_handle w = Some h -> (h, deleteFromSDTaskFn) ∈ rt_tasks (rtos w)) /\
  (display_state w = SD_CARD -> menu_init w = true -> deleteFromSDTask_handle w <> None).
Proof. intros Hr. by destruct (reachable_inv s w Hr) as (_ & _ & [Hd1 Hd2] & _). Qed.

Lemma reachable_delete_handle_witness :
  let w := trace_end viewer_back_trace in
  reachable empty_card w /\ display_state w = SD_CARD /\ menu_init w = true /\
  deleteFromSDTask_handle w <> None.
Proof.
  cbv zeta. split; [exact viewer_back_reachable|].
  assert (Hd : display_state (trace_end viewer_back_trace) = SD_CARD) by (vm_compute; reflexivity).
  assert (Hm : menu_init (trace_end viewer_back_trace) = true) by (vm_compute; reflexivity).
  split; [exact Hd|]. split; [exact Hm|].
  exact (proj2 (reachable_delete_handle _ _ viewer_back_reachable) Hd Hm).
Defined.

(** What [setup] leaves: the task table holds exactly the five
    always-on tasks under handles 1 to 5, the file list is the card's
    listing, the heap history holds [NUM_SYS_DATA_POINTS] copies of
    [min_heap], and the display starts in [BOOT] with no worker handle
    set. *)
Theorem setup_boot_state s :
  let w := boot_world s in
  rtos w = mkRtos always_on 6 /\ filenames w = listed_names s /\
  num_files w = Z.of_nat (length (listed_names s)) /\ heap_usage w = replicate 60 100 /\
  display_state w = BOOT /\ frameCaptureTask_handle w = None /\
  saveFrameToSDTask_handle w = None /\ deleteFromSDTask_handle w = None.
Proof. cbv zeta. rewrite boot_world_eq. unfold globals_init. wsimpl. done. Qed.

(** (C24) [setup] ends with [vTaskSuspend(saveFrameToSDTask_handle)] and
    [vTaskSuspend(deleteFromSDTask_handle)], meant (says the comment) to
    suspend the save and delete tasks; no such task exists yet and both
    handles are NULL, so the first call suspends the calling setup task
    itself and the second is never reached.  When [initQueues] fails,
    [setup] never returns. *)
Theorem setup_suspends_itself s :
  fst (setup boot_ok 0 (globals_init s)) = Some [SETUP_TASK] /\
  forall connected time fuel w, fst (setup (mkBootEnv false connected time) fuel w) = None.
Proof.
  split; [|reflexivity]. unfold setup. rewrite st_run_bind.
  change (fst (initQueues (alloc_ok boot_ok) (globals_init s))) with true.
  change (snd (initQueues (alloc_ok boot_ok) (globals_init s))) with (globals_init s).
  change (initWiFi 0 boot_ok) with (Some 0%nat). cbv [negb].
  rewrite !st_run_bind. fold_exec. change (exec (initNTP boot_ok) (globals_init s)) with (globals_init s).
  rewrite loadFileNames_spec. reflexivity.
Qed.

(** [setup] past [initQueues], when the WiFi loop does not return within
    the budget: nothing else runs. *)
Lemma setup_wifi_None env fuel w :
  initWiFi fuel env = None -> setup env fuel w = (None, exec (initQueues (alloc_ok env)) w).
Proof.
  intros Hw. unfold setup. rewrite st_run_bind.
  change (fst (initQueues (alloc_ok env) w)) with (alloc_ok env).
  destruct (alloc_ok env); [|reflexivity]. cbv [negb]. rewrite Hw. reflexivity.
Qed.

(** Once the WiFi loop returns, a larger budget gives the same run. *)
Lemma setup_fuel_mono env fuel fuel' j w :
  initWiFi fuel env = Some j -> (fuel <= fuel')%nat -> setup env fuel' w = setup env fuel w.
Proof. intros Hw Hle. unfold setup. by rewrite Hw, (initWiFi_mono _ _ _ _ Hw Hle). Qed.

(** Past a successful [initQueues] and [initWiFi], [setup] returns. *)
Lemma setup_wifi_Some env fuel j w :
  alloc_ok env = true -> initWiFi fuel env = Some j -> is_Some (fst (setup env fuel w)).
Proof.
  intros Ha Hw. unfold setup. rewrite st_run_bind.
  change (fst (initQueues (alloc_ok env) w)) with (alloc_ok env). rewrite Ha, Hw. cbv [negb].
  rewrite !st_run_bind. by case_decide.
Qed.

(** (C13) With the queues allocated, [setup] returns for some budget of
    WiFi polls exactly when some poll sees the network: the device boots
    only once WiFi is up. *)
Theorem setup_returns_iff_wifi env w :
  alloc_ok env = true ->
  ((exists fuel, is_Some (fst (setup env fuel w))) <-> exists k, wifi_connected env k = true).
Proof.
  intros Ha. rewrite <- initWiFi_returns. split.
  - intros [fuel Hs]. exists fuel. destruct (initWiFi fuel env) as [j|] eqn:Hw; [by exists j|].
    rewrite setup_wifi_None in Hs by done. by destruct Hs.
  - intros (fuel & j & Hw). exists fuel. by eapply setup_wifi_Some.
Qed.

Lemma setup_returns_iff_wifi_witness :
  alloc_ok boot_ok = true /\
  ((exists fuel, is_Some (fst (setup boot_ok fuel (globals_init empty_card)))) <->
   exists k, wifi_connected boot_ok k = true).
Proof. split; [reflexivity|]. apply setup_returns_iff_wifi. reflexivity. Defined.

(** (C14) When no poll ever sees the network, no budget of polls makes
    [setup] return, and it creates no task: the menu, the button sampler
    and the other workers never start, although only the WiFi screen needs
    the network. *)
Theorem setup_hangs_without_wifi env fuel w :
  (forall k, wifi_connected env k = false) ->
  fst (setup env fuel w) = None /\ rtos (exec (setup env fuel) w) = rtos w.
Proof.
  intros Hc. assert (Hw : initWiFi fuel env = None) by (apply wifi_wait_None; auto).
  unfold exec. rewrite setup_wifi_None by done. split; [done|]. by destruct (alloc_ok env).
Qed.

Lemma setup_hangs_without_wifi_witness :
  (forall k, wifi_connected (mkBootEnv true (fun _ => false) None) k = false) /\
  fst (setup (mkBootEnv true (fun _ => false) None) 100 (globals_init empty_card)) = None /\
  rtos (exec (setup (mkBootEnv true (fun _ => false) None) 100) (globals_init empty_card)) =
    rtos (globals_init empty_card).
Proof. assert (Hc : forall k, wifi_connected (mkBootEnv true (fun _ => false) None) k = false) by reflexivity.
  split; [exact Hc|]. apply setup_hangs_without_wifi. exact Hc. Defined.

(** (C9) The double return of a frame buffer happens on a real schedule:
    from the boot state, opening the camera, requesting a save and letting
    the capture, save and display tasks run once each ends on the camera
    screen with the display having used a frame the save task already
    returned, and returned it a second time. *)
Theorem double_return_reachable :
  exists s w, reachable s w /\ display_state w = CAMERA_FEED /\
    faults w = [StaleFrameUse 0; BadFrameReturn 0].
Proof.
  exists empty_card, (trace_end camera_save_trace).
  split; [exact camera_save_reachable|]. vm_compute. done.
Qed.

(** (C10) The delete worker leaks on a real schedule with no undefined
    behaviour: from the boot state with ten frames on the card, opening
    the SD card, the image viewer and leaving it with Back makes the next
    display tick run the screen's setup again, which creates a second
    delete task while the first one still runs; no read along the way is
    out of range and no frame buffer is misused (the fault log is empty). *)
Theorem delete_worker_leak_reachable :
  exists s w, reachable s w /\ faults w = [] /\ display_state w = SD_CARD /\
    length (tasks_running deleteFromSDTaskFn (rtos w)) = 2%nat.
Proof.
  exists ten_frame_card, (trace_end_on ten_frame_card viewer_back_trace).
  split; [apply trace_end_on_reachable; vm_compute; eauto|]. vm_compute. done.
Qed.
