(* ===== verification/FileName.v ===== *)
(** * The file name of a saved frame, decoded (src/tasks.cpp)

    [saveFrameToSDTask] names the file of a frame after the clock [t]
    with [sprintf(f, "/%04d-%02d-%02d_%02d-%02d-%02d.raw", ...)] into
    [char f[32]] ([Camera.frame_filename]).  The design fixes this naming
    ([/YYYY-MM-DD_HH-MM-SS.raw]).  This file gives the reference decoder
    [parse_frame_filename] of that format and proves:

    - [frame_filename_roundtrip]: for every valid calendar time the name
      decodes back to the time, so different seconds give different files,
      and it has 24 characters, so [sprintf] stays inside [f];
    - [same_second_saves_collide]: the name has a resolution of one second
      while the save task runs up to five times a second: two saves before
      the clock moves write the same file, and a schedule from boot that
      saves two frames leaves one file on the card. *)

From S2P Require Import Prelude Queue Platform Globals Camera System.

(** ** The decoder *)

(** The value of a decimal digit. *)
Definition digit_val (c : ascii) : option Z :=
  let n := nat_of_ascii c in
  if decide (48 <= n < 58)%nat then Some (Z.of_nat n - 48) else None.

(** Exactly [k] decimal digits, accumulated onto [acc]. *)
Fixpoint read_num (k : nat) (acc : Z) (s : string) : option (Z * string) :=
  match k, s with
  | O, _ => Some (acc, s)
  | S k', String c s' => d ← digit_val c; read_num k' (acc * 10 + d) s'
  | S _, EmptyString => None
  end.

(** The character [c]. *)
Definition expect (c : ascii) (s : string) : option string :=
  match s with
  | String c' s' => if decide (c = c') then Some s' else None
  | EmptyString => None
  end.

(** [/YYYY-MM-DD_HH-MM-SS.raw], with the offsets of [struct tm] undone. *)
Definition parse_frame_filename (s : string) : option tm :=
  s ← expect "/" s;
  '(y, s) ← read_num 4 0 s; s ← expect "-" s;
  '(mo, s) ← read_num 2 0 s; s ← expect "-" s;
  '(d, s) ← read_num 2 0 s; s ← expect "_" s;
  '(h, s) ← read_num 2 0 s; s ← expect "-" s;
  '(mi, s) ← read_num 2 0 s; s ← expect "-" s;
  '(se, s) ← read_num 2 0 s;
  if decide (s = ".raw") then Some (mkTm (y - 1900) (mo - 1) d h mi se) else None.

(** A calendar time as [getLocalTime] fills it, with a four-digit year
    (a leap second included). *)
Definition tm_valid (tt : tm) : Prop :=
  1000 <= tm_year tt + 1900 <= 9999 /\ 0 <= tm_mon tt <= 11 /\ 1 <= tm_mday tt <= 31 /\
  0 <= tm_hour tt <= 23 /\ 0 <= tm_min tt <= 59 /\ 0 <= tm_sec tt <= 60.

(** ** The fields *)

Lemma read_num_app k acc s rest :
  String.length s = k ->
  read_num k acc (s +:+ rest) = (fun '(m, r) => (m, r +:+ rest)) <$> read_num k acc s.
Proof.
  revert k acc. induction s as [|c s IH]; intros [|k] acc Hl; simpl in *; try done.
  destruct (digit_val c); simpl; [|done]. apply IH. lia.
Qed.

(** Every [%0kd] field of a number with at most [k] digits has [k]
    characters and reads back as the number (checked for [k = 2, 4]). *)
Definition field_ok (k : nat) (n : Z) : bool :=
  bool_decide (String.length (fmt_d k n) = k) &&
  bool_decide (read_num k 0 (fmt_d k n) = Some (n, "")).

Lemma field_ok_2 n : 0 <= n < 100 -> field_ok 2 n = true.
Proof.
  intros Hn. assert (Hall : forallb (field_ok 2) (seqZ 0 100) = true) by (vm_compute; reflexivity).
  rewrite forallb_forall in Hall. apply Hall, list_elem_of_In, elem_of_seqZ. lia.
Qed.

Lemma field_ok_4 n : 0 <= n < 10000 -> field_ok 4 n = true.
Proof.
  intros Hn. assert (Hall : forallb (field_ok 4) (seqZ 0 10000) = true) by (vm_compute; reflexivity).
  rewrite forallb_forall in Hall. apply Hall, list_elem_of_In, elem_of_seqZ. lia.
Qed.

Lemma field_ok_spec k n : field_ok k n = true ->
  String.length (fmt_d k n) = k /\ forall rest, read_num k 0 (fmt_d k n +:+ rest) = Some (n, rest).
Proof.
  unfold field_ok. rewrite andb_true_iff, !bool_decide_eq_true. intros [Hl Hr].
  split; [done|]. intros rest. by rewrite read_num_app, Hr.
Qed.

Lemma append_cons c (s1 s2 : string) : String c s1 +:+ s2 = String c (s1 +:+ s2).
Proof. reflexivity. Qed.

Lemma append_nil_l (s : string) : "" +:+ s = s.
Proof. reflexivity. Qed.

Ltac field_facts :=
  repeat match goal with
  | |- context [fmt_d 4 ?n] =>
      lazymatch goal with H : String.length (fmt_d 4 n) = _ |- _ => fail | _ => idtac end;
      destruct (field_ok_spec 4 n (field_ok_4 n ltac:(lia))) as [? ?]
  | |- context [fmt_d 2 ?n] =>
      lazymatch goal with H : String.length (fmt_d 2 n) = _ |- _ => fail | _ => idtac end;
      destruct (field_ok_spec 2 n (field_ok_2 n ltac:(lia))) as [? ?]
  end.

(** ** The round trip *)

(** The name decodes back to the time. *)
Lemma frame_filename_parse tt : tm_valid tt -> parse_frame_filename (frame_filename tt) = Some tt.
Proof.
  destruct tt as [y mo d h mi se]. unfold tm_valid, frame_filename, parse_frame_filename.
  cbn [tm_year tm_mon tm_mday tm_hour tm_min tm_sec]. intros (Hy & Hmo & Hd & Hh & Hmi & Hs).
  field_facts. rewrite !append_cons, !append_nil_l. cbn -[fmt_d read_num].
  repeat (rewrite ?decide_True by done; cbn -[fmt_d read_num];
          match goal with H : forall rest, read_num _ 0 (fmt_d _ _ +:+ rest) = _ |- _ => rewrite H; clear H end;
          cbn -[fmt_d read_num]).
  rewrite decide_True by done. f_equal. f_equal; lia.
Qed.

(** Every field has its width, so the name has 24 characters. *)
Lemma frame_filename_length tt : tm_valid tt -> String.length (frame_filename tt) = 24%nat.
Proof.
  destruct tt as [y mo d h mi se]. unfold tm_valid, frame_filename.
  cbn [tm_year tm_mon tm_mday tm_hour tm_min tm_sec]. intros (Hy & Hmo & Hd & Hh & Hmi & Hs).
  field_facts. repeat (rewrite string_length_app || cbn [String.length]). lia.
Qed.

(** (C26) For every valid calendar time, the name [saveFrameToSDTask]
    gives the frame decodes back to that time, so the naming is injective
    on the times [getLocalTime] produces; and the name has 24 characters,
    so with its terminator it fits [char f[32]] and the [sprintf] never
    overflows. *)
Theorem frame_filename_roundtrip tt : tm_valid tt ->
  parse_frame_filename (frame_filename tt) = Some tt /\ String.length (frame_filename tt) = 24%nat.
Proof. intros Hv. split; [apply frame_filename_parse | apply frame_filename_length]; done. Qed.

Lemma frame_filename_roundtrip_witness :
  tm_valid (mkTm 126 10 9 14 30 5) /\
  parse_frame_filename (frame_filename (mkTm 126 10 9 14 30 5)) = Some (mkTm 126 10 9 14 30 5) /\
  String.length (frame_filename (mkTm 126 10 9 14 30 5)) = 24%nat.
Proof.
  assert (Hv : tm_valid (mkTm 126 10 9 14 30 5)) by (unfold tm_valid; simpl; lia).
  split; [exact Hv|]. exact (frame_filename_roundtrip _ Hv).
Defined.

(** ** Two saves in one second *)

(** From the boot state: the clock is set, the camera is opened and a
    frame saved ([camera_save_trace]), then Select requests a second save
    and a frame is captured, all before the clock moves. *)
Definition second_save_trace : list event :=
  EvNtp (Some (mkTm 126 10 9 14 30 5)) :: camera_save_trace ++ [EvButton 3000; EvDisplay true; EvCapture].

(** (C15) Two saves within one second write the same file: after
    [second_save_trace] a save is requested, a frame waits in the save
    queue and the card holds one file; the save task's next iteration
    writes the frame (it clears [save_next_frame], which it does only
    after opening the file) and the card still holds that one file, whose
    earlier frame [FILE_WRITE] truncated. *)
Theorem same_second_saves_collide :
  let w := trace_end second_save_trace in
  let w' := trace_end (second_save_trace ++ [EvSave]) in
  reachable empty_card w /\ reachable empty_card w' /\
  save_next_frame w = true /\ q_items (frame_save_queue w) <> [] /\
  sd_root (sd w) = ["2026-11-09_14-30-05.raw"] /\
  save_next_frame w' = false /\ q_items (frame_save_queue w') = [] /\
  sd_root (sd w') = ["2026-11-09_14-30-05.raw"].
Proof.
  cbv zeta. split; [apply trace_end_reachable; vm_compute; eauto|].
  split; [apply trace_end_reachable; vm_compute; eauto|].
  vm_compute. repeat split; done.
Qed.
