(* ===== verification/Graph.v ===== *)
(** * The heap-usage graph: [drawGraph] (src/display.cpp)

    [drawSystemData] reads the history of heap usage into two arrays with
    [generateXYArrays] and draws them with
    [drawGraph(x_c, y_c, NUM_SYS_DATA_POINTS, min_heap, max_heap, ...)].
    [drawGraph] draws a frame, ten tick labels on the x axis read from
    [x_c], four on the y axis computed from [y_min] and [y_max], and a
    polyline through the points [(i, y_c[i])] scaled into the axes.

    The model is the list of [tft] calls, or [None] when the call is
    undefined in C: an array read out of bounds, an integer division by
    [len = 0], or the conversion to [int] of the quotient by a float
    [y_max - y_min] that is zero (an infinity or NaN).  Integer division
    is C's, truncating ([Z.quot]); the float scaling is exact rational
    arithmetic truncated to [int] (see Draw.v).

    - [drawGraph_defined]: for arrays of at least [len] entries, the call
      is defined exactly when [len <> 0] and [y_max <> y_min].
    - [drawGraph_lines_in_box]: when the values lie in [[y_min, y_max]],
      every line drawn stays between the axes.
    - [system_data_graph_defined] and [graph_undefined_reachable]: the
      call [drawSystemData] makes is defined exactly when the recorded
      maximum differs from [min_heap]; a state where they are equal is
      reachable, and the next tick on the system-data screen divides by
      zero. *)

From S2P Require Import Prelude Queue Globals Telemetry Draw System.
From Stdlib Require Import QArith Lqa.
Open Scope Z_scope.

Definition graph_offset : Z := 20.
Definition num_x_ticks : Z := 10.
Definition num_y_ticks : Z := 4.

(** Iteration [i] of the x-tick loop: [tft.drawNumber(x_c[index], _x, _y)]. *)
Definition x_tick (x_c : list Z) (len x_axis_start spacing_x y_axis_end i : Z) : option draw_cmd :=
  let index := (i - 1) * len ÷ num_x_ticks in
  let _x := x_axis_start + (i - 1) * spacing_x in
  let _y := y_axis_end + graph_offset ÷ 3 in
  v ← arr_at x_c index;
  Some (DrawNumber v _x _y).

(** Iteration [i] of the y-tick loop. *)
Definition y_tick (y_min x_axis_start y_axis_end spacing_y tick_val_spacing i : Z) : draw_cmd :=
  let _x := x_axis_start - graph_offset ÷ 3 in
  let _y := y_axis_end - (i - 1) * spacing_y in
  let tick_val := y_min + (i - 1) * tick_val_spacing in
  DrawNumber tick_val _x _y.

(** [y_axis_end - ((v - y_min) / (float)y_coord_range * num_pixels_y_axis)]
    stored in an [int]: undefined when the range is zero. *)
Definition point_y (y_axis_end y_min y_coord_range num_pixels_y_axis v : Z) : option Z :=
  if decide (y_coord_range = 0) then None
  else Some (float_to_int (inject_Z y_axis_end -
                           inject_Z (v - y_min) / inject_Z y_coord_range * inject_Z num_pixels_y_axis)%Q).

(** The point-mapping loop from the points [idxs] on, with the previous
    point [(prev_x, prev_y)]. *)
Fixpoint graph_lines (y_c : list Z) (line_color : color) (py : Z -> option Z)
    (x_axis_start x_point_spacing : Z) (idxs : list Z) (prev_x prev_y : Z) : option (list draw_cmd) :=
  match idxs with
  | [] => Some []
  | i :: idxs' =>
      let _x := x_axis_start + i * x_point_spacing in
      v ← arr_at y_c i;
      _y ← py v;
      rest ← graph_lines y_c line_color py x_axis_start x_point_spacing idxs' _x _y;
      Some (DrawLine prev_x prev_y _x _y line_color :: rest)
  end.

(** [drawGraph(x_c, y_c, len, y_min, y_max, x, y, w, h, x_label, y_label, title, color)]. *)
Definition drawGraph (x_c y_c : list Z) (len y_min y_max x y w h : Z)
    (x_label y_label title : string) (line_color : color) : option (list draw_cmd) :=
  let x_axis_start := x + graph_offset in
  let x_axis_end := x + w - graph_offset in
  let y_axis_start := y + graph_offset ÷ 2 in
  let y_axis_end := y + h - graph_offset in
  let structure :=
    [FillRect x y w h TFT_BLACK; DrawRect x y w h TFT_WHITE;
     DrawLine x_axis_start y_axis_start x_axis_start y_axis_end TFT_WHITE;
     DrawLine x_axis_start y_axis_end x_axis_end y_axis_end TFT_WHITE;
     SetTextColor TFT_WHITE TFT_BLACK; SetTextDatum MC_DATUM;
     DrawString title (x + w ÷ 2) y; DrawString x_label (x + w ÷ 2) (y + h);
     DrawString y_label x (y + h ÷ 2)] in
  let num_pixels_x_axis := x_axis_end - x_axis_start in
  let spacing_x := num_pixels_x_axis ÷ (num_x_ticks - 1) in
  x_ticks ← mapM (x_tick x_c len x_axis_start spacing_x y_axis_end) (seqZ 1 num_x_ticks);
  let num_pixels_y_axis := y_axis_end - y_axis_start in
  let spacing_y := num_pixels_y_axis ÷ (num_y_ticks - 1) in
  let y_coord_range := y_max - y_min in
  let tick_val_spacing := y_coord_range ÷ (num_y_ticks - 1) in
  let y_ticks := y_tick y_min x_axis_start y_axis_end spacing_y tick_val_spacing <$> seqZ 1 num_y_ticks in
  if decide (len = 0) then None else
  let x_point_spacing := num_pixels_x_axis ÷ len in
  let py := point_y y_axis_end y_min y_coord_range num_pixels_y_axis in
  v0 ← arr_at y_c 0;
  prev_y ← py v0;
  lines ← graph_lines y_c line_color py x_axis_start x_point_spacing (seqZ 1 (len - 1)) x_axis_start prev_y;
  Some (structure ++ x_ticks ++ y_ticks ++ lines).

(** The call at the end of [drawSystemData], on what it read: the graph
    starts below the title and three lines of text. *)
Definition system_data_graph (r : SystemInfo * (list Z * list Z * Z * Z)) : option (list draw_cmd) :=
  let '(_, (x_c, y_c, min_h, max_h)) := r in
  let x := 10 in
  let y := STATUS_BAR_HEIGHT + 10 + 20 + 20 + 20 + 20 in
  let graph_width := 220 in
  let graph_height := 200 in
  drawGraph x_c y_c NUM_SYS_DATA_POINTS min_h max_h x y graph_width graph_height
    "Time (s)" "kB" "Heap Usage Within Last Minute" TFT_BLUE.

(** ** Which calls are defined *)

(** The x-tick indices [(i - 1) * len / 10], [i = 1 .. 10], lie in
    [[0, len)]. *)
Lemma x_tick_index_bound len i : 0 < len -> 1 <= i <= num_x_ticks -> 0 <= (i - 1) * len ÷ num_x_ticks < len.
Proof.
  unfold num_x_ticks. intros Hl Hi. rewrite Z.quot_div_nonneg by nia.
  split; [apply Z.div_pos; nia|]. apply Z.div_lt_upper_bound; nia.
Qed.

Lemma x_ticks_defined x_c len xs sx ye :
  0 < len <= Z.of_nat (length x_c) ->
  is_Some (mapM (x_tick x_c len xs sx ye) (seqZ 1 num_x_ticks)).
Proof.
  intros Hl. apply mapM_is_Some, Forall_forall. intros i Hi%elem_of_seqZ. unfold x_tick. simpl.
  destruct (arr_at_lt x_c ((i - 1) * len ÷ num_x_ticks)) as [v ->]; [|by eexists].
  pose proof (x_tick_index_bound len i). unfold num_x_ticks in *. lia.
Qed.

Lemma graph_lines_defined y_c col py xs sp idxs px0 py0 :
  Forall (fun i => 0 <= i < Z.of_nat (length y_c)) idxs -> (forall v, is_Some (py v)) ->
  is_Some (graph_lines y_c col py xs sp idxs px0 py0).
Proof.
  intros Hi Hpy. revert px0 py0. induction Hi as [|i idxs Hi _ IH]; intros px0 py0; simpl; [by eexists|].
  destruct (arr_at_lt y_c i Hi) as [v ->]. simpl. destruct (Hpy v) as [r ->]. simpl.
  destruct (IH (xs + i * sp) r) as [rest ->]. by eexists.
Qed.

Lemma point_y_defined ye y_min range npy v : is_Some (point_y ye y_min range npy v) <-> range <> 0.
Proof. unfold point_y. case_decide; split; intros Hs; try done; by eexists. Qed.

(** For arrays of at least [len] entries, [drawGraph] is defined
    exactly when [len] is not zero (the point spacing divides by it) and
    the vertical range is not empty (the float scaling divides by it). *)
Lemma drawGraph_defined x_c y_c len y_min y_max x y w h x_label y_label title col :
  0 <= len -> len <= Z.of_nat (length x_c) -> len <= Z.of_nat (length y_c) ->
  is_Some (drawGraph x_c y_c len y_min y_max x y w h x_label y_label title col) <->
  len <> 0 /\ y_max <> y_min.
Proof.
  intros H0 Hx Hy. unfold drawGraph. cbv zeta.
  destruct (decide (len = 0)) as [->|Hl].
  - split; [|by intros []]. destruct (mapM _ _); simpl; by intros [? ?].
  - edestruct x_ticks_defined as [k ->]; [lia|]. simpl.
    destruct (arr_at_lt y_c 0) as [v0 ->]; [lia|]. simpl.
    destruct (decide (y_max - y_min = 0)) as [Hr|Hr].
    + rewrite Hr. simpl. split; [by intros [? ?]|lia].
    + destruct (proj2 (point_y_defined (y + h - graph_offset) y_min (y_max - y_min)
        (y + h - graph_offset - (y + graph_offset ÷ 2)) v0) Hr) as [r ->]. simpl.
      edestruct graph_lines_defined as [lines ->].
      * apply Forall_forall. intros i Hi%elem_of_seqZ. lia.
      * intros v. by apply point_y_defined.
      * simpl. split; [intros _; lia|by eexists].
Qed.


(** ** Where the lines go *)

(** The point [(a, b)] lies in the rectangle [[x0, x1] x [y0, y1]]. *)
Definition in_box (x0 x1 y0 y1 a b : Z) : Prop := x0 <= a <= x1 /\ y0 <= b <= y1.

(** A line command has both ends in the rectangle; other commands draw no line. *)
Definition line_in (x0 x1 y0 y1 : Z) (c : draw_cmd) : Prop :=
  match c with
  | DrawLine a b a' b' _ => in_box x0 x1 y0 y1 a b /\ in_box x0 x1 y0 y1 a' b'
  | _ => True
  end.

Lemma graph_lines_in x0 x1 y0 y1 y_c col py xs sp idxs px0 py0 cmds :
  graph_lines y_c col py xs sp idxs px0 py0 = Some cmds -> in_box x0 x1 y0 y1 px0 py0 ->
  (forall i v r, i ∈ idxs -> arr_at y_c i = Some v -> py v = Some r -> in_box x0 x1 y0 y1 (xs + i * sp) r) ->
  Forall (line_in x0 x1 y0 y1) cmds.
Proof.
  revert px0 py0 cmds. induction idxs as [|i idxs IH]; intros px0 py0 cmds Hg H0 Hpt; simpl in Hg.
  - by simplify_eq.
  - destruct (arr_at y_c i) as [v|] eqn:Hv; [|done]. simpl in Hg.
    destruct (py v) as [r|] eqn:Hr; [|done]. simpl in Hg.
    destruct (graph_lines _ _ _ _ _ _ _ _) as [rest|] eqn:Hrest; [|done]. simpl in Hg. simplify_eq.
    assert (Hb : in_box x0 x1 y0 y1 (xs + i * sp) r) by (eapply Hpt; [set_solver|done..]).
    constructor; [done|]. eapply IH; [exact Hrest|done|]. intros; eapply Hpt; [set_solver|done..].
Qed.

(** A value between [y_min] and [y_max] is mapped between the axis ends. *)
Lemma point_y_in ye y_min y_max npy v r :
  y_min < y_max -> y_min <= v <= y_max -> 0 <= npy ->
  point_y ye y_min (y_max - y_min) npy v = Some r -> ye - npy <= r <= ye.
Proof.
  intros Hr Hv Hn. unfold point_y. rewrite decide_False by lia. intros [= <-].
  assert (Hf : (0 <= inject_Z (v - y_min) / inject_Z (y_max - y_min) <= 1)%Q).
  { assert (Hp : (0 < inject_Z (y_max - y_min))%Q) by (change 0%Q with (inject_Z 0); rewrite <- Zlt_Qlt; lia). split.
    - apply Qle_shift_div_l; [done|]. rewrite Qmult_0_l. change 0%Q with (inject_Z 0). rewrite <- Zle_Qle. lia.
    - apply Qle_shift_div_r; [done|]. rewrite Qmult_1_l, <- Zle_Qle. lia. }
  assert (Hn' : (0 <= inject_Z npy)%Q) by (change 0%Q with (inject_Z 0); rewrite <- Zle_Qle; lia).
  set (f := (inject_Z (v - y_min) / inject_Z (y_max - y_min))%Q) in *.
  assert (Hm : (0 <= f * inject_Z npy <= inject_Z npy)%Q).
  { split; [apply Qmult_le_0_compat; [apply Hf|exact Hn']|].
    rewrite <- (Qmult_1_l (inject_Z npy)) at 2. apply Qmult_le_compat_r; tauto. }
  set (p := (f * inject_Z npy)%Q) in *.
  apply float_to_int_between; unfold Z.sub; rewrite ?inject_Z_plus, ?inject_Z_opp; lra.
Qed.

Lemma x_ticks_no_line x0 x1 y0 y1 x_c len xs sx ye k :
  mapM (x_tick x_c len xs sx ye) (seqZ 1 num_x_ticks) = Some k -> Forall (line_in x0 x1 y0 y1) k.
Proof.
  intros Hk%mapM_Some. induction Hk as [|i c idxs cs Hc _ IH]; constructor; [|done].
  unfold x_tick in Hc. destruct (arr_at x_c _); by simplify_eq/=.
Qed.

Lemma graph_offset_half : graph_offset ÷ 2 = 10.
Proof. reflexivity. Qed.

(** Point [i] of [len] lies on the x axis. *)
Lemma point_x_in npx len i : 0 <= npx -> 1 <= i < len -> 0 <= i * (npx ÷ len) <= npx.
Proof.
  intros Hn Hi. rewrite Z.quot_div_nonneg by lia.
  pose proof (Z.mul_div_le npx len ltac:(lia)). pose proof (Z.div_pos npx len ltac:(lia) ltac:(lia)). nia.
Qed.

Lemma arr_at_elem (a : list Z) (i v : Z) : arr_at a i = Some v -> v ∈ a.
Proof. intros [_ Hv]%arr_at_Some. by eapply list_elem_of_lookup_2. Qed.

(** (C32) When the plotted values lie between [y_min] and [y_max], every
    line [drawGraph] draws, the axes and the polyline, stays in the
    rectangle between the axes, for a graph at least 40 pixels wide and
    30 high. *)
Theorem drawGraph_lines_in_box x_c y_c len y_min y_max x y w h x_label y_label title col cmds :
  40 <= w -> 30 <= h -> y_min < y_max -> Forall (fun v => y_min <= v <= y_max) y_c ->
  drawGraph x_c y_c len y_min y_max x y w h x_label y_label title col = Some cmds ->
  Forall (line_in (x + graph_offset) (x + w - graph_offset) (y + graph_offset ÷ 2) (y + h - graph_offset)) cmds.
Proof.
  intros Hw Hh Hr Hy. unfold drawGraph. cbv zeta.
  destruct (mapM _ _) as [k|] eqn:Hk; [|done]. cbn [mbind option_bind].
  destruct (decide (len = 0)); [done|].
  destruct (arr_at y_c 0) as [v0|] eqn:Hv0; [|done]. cbn [mbind option_bind].
  destruct (point_y _ _ _ _ v0) as [r0|] eqn:Hr0; [|done]. cbn [mbind option_bind].
  destruct (graph_lines _ _ _ _ _ _ _ _) as [lines|] eqn:Hl; [|done]. cbn [mbind option_bind]. intros [= <-].
  assert (Hpy : forall v r, v ∈ y_c -> point_y (y + h - graph_offset) y_min (y_max - y_min)
      (y + h - graph_offset - (y + graph_offset ÷ 2)) v = Some r ->
      y + graph_offset ÷ 2 <= r <= y + h - graph_offset).
  { intros v r Hv Hp. rewrite Forall_forall in Hy.
    assert (Hn : 0 <= y + h - graph_offset - (y + graph_offset ÷ 2)) by (rewrite graph_offset_half; unfold graph_offset; lia).
    pose proof (point_y_in _ _ _ _ _ _ Hr (Hy v Hv) Hn Hp).
    rewrite graph_offset_half in *. unfold graph_offset in *. lia. }
  rewrite graph_offset_half in *. unfold graph_offset in *.
  rewrite !Forall_cons, !Forall_app. cbn [line_in]. unfold in_box. split_and!; try done; try lia.
  - by eapply x_ticks_no_line.
  - repeat (constructor; [by cbv [y_tick line_in]|]).
    eapply graph_lines_in; [exact Hl| |].
    + split; [lia|]. eapply Hpy; [by eapply arr_at_elem|exact Hr0].
    + intros i v r Hi%elem_of_seqZ Hv Hp. split; [pose proof (point_x_in (x + w - 20 - (x + 20)) len i); lia|].
      eapply Hpy; [by eapply arr_at_elem|exact Hp].
Qed.

Lemma drawGraph_lines_in_box_witness :
  exists cmds, 40 <= 220 /\ 30 <= 200 /\ 100 < 200 /\ Forall (fun v => 100 <= v <= 200) [100; 150; 200; 120; 110] /\
  drawGraph [1; 2; 3; 4; 5] [100; 150; 200; 120; 110] 5 100 200 10 110 220 200 "x" "y" "t" TFT_BLUE = Some cmds /\
  Forall (line_in (10 + graph_offset) (10 + 220 - graph_offset) (110 + graph_offset ÷ 2) (110 + 200 - graph_offset)) cmds.
Proof.
  eexists. assert (Hv : Forall (fun v => 100 <= v <= 200) [100; 150; 200; 120; 110]) by (repeat constructor; lia).
  assert (Hd : drawGraph [1; 2; 3; 4; 5] [100; 150; 200; 120; 110] 5 100 200 10 110 220 200 "x" "y" "t" TFT_BLUE =
    Some _) by (vm_compute; reflexivity).
  split; [lia|]. split; [lia|]. split; [lia|]. split; [exact Hv|]. split; [exact Hd|].
  eapply drawGraph_lines_in_box; [| | |exact Hv|exact Hd]; lia.
Defined.

(** ** The call of [drawSystemData] *)

(** From the boot state: the menu is drawn, System Data (item 0) is
    selected and opened, and one sample is taken while 100 kB of the heap
    are in use, exactly the floor [min_heap]. *)
Definition flat_heap_trace : list event :=
  [EvDisplay true; EvDisplay true; EvButton 3000; EvDisplay true; EvSystemData 0 240 1000 200000 100000].


(** [generateXYArrays] fills arrays of 60 entries and changes neither
    [min_heap] nor [max_heap]. *)
Lemma gen_xy_shape i n q x_c y_c w :
  let r := gen_xy i n q x_c y_c w in
  length r.1.1 = length x_c /\ length r.1.2 = length y_c /\
  min_heap r.2 = min_heap w /\ max_heap r.2 = max_heap w.
Proof.
  revert i q x_c y_c. induction n as [|n IH]; intros i q x_c y_c; [done|].
  destruct q as [|y [|z q]]; cbn [gen_xy]; cbv zeta.
  - unfold log_fault. simpl. by rewrite length_insert.
  - simpl. by rewrite !length_insert.
  - destruct (IH (S i) (z :: q) (<[i:=Z.of_nat i + 1]> x_c) (<[i:=y]> y_c)) as (-> & -> & -> & ->).
    by rewrite !length_insert.
Qed.

Lemma drawSystemData_Some w r :
  fst (drawSystemData w) = Some r ->
  exists info x_c y_c, r = (info, (x_c, y_c, min_heap w, max_heap w)) /\
    length x_c = 60%nat /\ length y_c = 60%nat.
Proof.
  unfold drawSystemData, generateXYArrays. cbv [mbind st_bind st_get st_put mret st_ret].
  destruct (xQueueReceive (sys_info_queue w)) as [[info|] q]; cbn [fst snd]; [|done].
  change (Z.to_nat NUM_SYS_DATA_POINTS) with 60%nat.
  destruct (gen_xy_shape 0 60 (heap_usage w) (replicate 60 0) (replicate 60 0) (w {{ sys_info_queue := q }}))
    as (Hx & Hy & Hmin & Hmax).
  destruct (gen_xy 0 60 _ _ _ _) as [[x_c y_c] w'] eqn:Hg. cbn [fst snd] in *. intros [= <-].
  rewrite length_replicate in Hx, Hy. rewrite Hmin, Hmax. by exists info, x_c, y_c.
Qed.

(** (C31) When [drawSystemData] receives a sample, the [drawGraph] call it
    makes is defined exactly when the largest heap usage recorded differs
    from [min_heap]: the arrays always hold the 60 points read, and the
    float scaling divides by [max_heap - min_heap]. *)
Theorem system_data_graph_defined w r :
  fst (drawSystemData w) = Some r -> is_Some (system_data_graph r) <-> max_heap w <> min_heap w.
Proof.
  intros (info & x_c & y_c & -> & Hx & Hy)%drawSystemData_Some. unfold system_data_graph.
  rewrite drawGraph_defined; unfold NUM_SYS_DATA_POINTS; rewrite ?Hx, ?Hy; simpl; lia.
Qed.

Lemma system_data_graph_defined_witness :
  exists r, fst (drawSystemData (trace_end flat_heap_trace)) = Some r /\
    (is_Some (system_data_graph r) <-> max_heap (trace_end flat_heap_trace) <> min_heap (trace_end flat_heap_trace)).
Proof.
  eexists. assert (Hd : fst (drawSystemData (trace_end flat_heap_trace)) = Some _) by (vm_compute; reflexivity).
  split; [exact Hd|]. exact (system_data_graph_defined _ _ Hd).
Defined.

(** (C16) The undefined division is reachable: after the trace
    [flat_heap_trace] the system-data screen is active, a sample waits in
    its channel, and the largest usage recorded equals [min_heap], so the
    next display tick converts [0 / 0.0f] to an [int] in [drawGraph]. *)
Theorem graph_undefined_reachable :
  exists s w r, reachable s w /\ display_state w = SYSTEM_DATA /\
    fst (drawSystemData w) = Some r /\ system_data_graph r = None.
Proof.
  exists empty_card, (trace_end flat_heap_trace). eexists.
  split; [apply trace_end_reachable; vm_compute; eauto|].
  split; [vm_compute; reflexivity|]. split; [vm_compute; reflexivity|]. vm_compute. reflexivity.
Qed.
