(* ===== verification/StatusBar.v ===== *)
(** * The status bar and the frame-rate counter (src/display.cpp, src/tasks.cpp)

    Every screen but [BOOT] calls [drawStatusBar] once per display tick.
    It redraws the battery and FPS thirds of the bar only when the integer
    part of the global [fps] differs from [prev_fps], and the clock in the
    middle third only when the minute of the global [t] differs from its
    [static int prev_min] (initially [-1]).  At the end of each tick,
    [displayTask] counts the frame and, once at least a second has passed
    since [before] (by [millis()], an [unsigned long] of 32 bits), computes
    [fps = frames / 1000.f * (now - before)] and restarts the count.

    The record [status_state] holds these globals and the static; the
    display tick [display_tick] threads it beside the world, as
    [Game.game1_screen] does for the game's statics.  Floats are exact
    rationals and their conversion to [int] truncates (Draw.v).

    - [fps_formula_inverted]: the value computed is [frames * elapsed /
      1000], not the rate [frames * 1000 / elapsed]; the two agree only
      when exactly one second elapsed.
    - [elapsed_across_wrap]: the unsigned subtraction [now - before] is the
      true elapsed time even across the wrap of [millis()] after 2^32 ms.
    - [drawStatusBar_idempotent]: a second call with the same [fps] and
      time draws nothing and changes nothing.
    - [time_str_fits]: the clock text of [sprintf("%02d:%02d")] has five
      characters for valid hours and minutes, so it fits [char time_str[6]]
      with its terminator. *)

From S2P Require Import Prelude Globals Draw Display.
From stdpp Require Import pretty.
From Stdlib Require Import QArith Qfield Lqa.
Open Scope Z_scope.

(** The globals [frames], [before], [prev_fps], [fps] of src/globals.cpp
    and the [static int prev_min] of [drawStatusBar]. *)
Record status_state := mkStatus {
  frames : Z; before : Z; prev_fps : Q; fps : Q; prev_min : Z }.

Definition status_init : status_state := mkStatus 0 0 0 0 (-1).

(** [now - before] on [unsigned long]s of 32 bits. *)
Definition elapsed_ms (now before_ : Z) : Z := (now - before_) mod 2 ^ 32.

(** The end of an iteration of [displayTask]: [frames++], then the
    once-a-second computation. *)
Definition fps_update (now : Z) (s : status_state) : status_state :=
  let s := s {{ frames := frames s + 1 }} in
  if elapsed_ms now (before s) >=? 1000 then
    s {{ fps := (inject_Z (frames s) / 1000 * inject_Z (elapsed_ms now (before s)))%Q;
         frames := 0; before := now }}
  else s.

(** [%02d]: at least two digits, padded with a zero. *)
Definition pad2 (n : Z) : string :=
  if decide (0 <= n < 10) then "0" +:+ pretty n else pretty n.

(** [sprintf(time_str, "%02d:%02d", t.tm_hour, t.tm_min)]. *)
Definition time_str (hour min : Z) : string := pad2 hour +:+ ":" +:+ pad2 min.

(** [drawStatusBar()]: the commands it issues and the new state. *)
Definition drawStatusBar (tt : tm) (s : status_state) : list draw_cmd * status_state :=
  let w := SCREEN_WIDTH in
  let h := STATUS_BAR_HEIGHT in
  let battery_x := 2 in let battery_y := 2 in
  let battery_w := 30 in let battery_h := 14 in
  let fps_text_x := SCREEN_WIDTH in
  let '(c1, s) :=
    if decide (float_to_int (prev_fps s) <> float_to_int (fps s)) then
      ([FillRect 0 0 (w ÷ 3) h TFT_BLACK; FillRect (2 * w ÷ 3) 0 (w ÷ 3) h TFT_BLACK;
        FillRect battery_x battery_y battery_w battery_h TFT_GREEN;
        DrawRect battery_x battery_y battery_w battery_h TFT_DARKGREY;
        SetTextColor TFT_WHITE TFT_GREEN; SetTextDatum MC_DATUM;
        DrawString "100%" (battery_x + battery_w ÷ 2) (battery_y + battery_h ÷ 2);
        SetTextDatum MR_DATUM; SetTextColor TFT_WHITE TFT_BLACK;
        DrawString ("FPS: " +:+ pretty (float_to_int (fps s))) fps_text_x (STATUS_BAR_HEIGHT ÷ 2);
        SetTextDatum MC_DATUM;
        DrawFastHLine 0 (STATUS_BAR_HEIGHT - 1) SCREEN_WIDTH TFT_WHITE],
       s {{ prev_fps := fps s }})
    else ([], s) in
  let '(c2, s) :=
    if decide (prev_min s <> tm_min tt) then
      ([SetTextDatum MC_DATUM; SetTextColor TFT_WHITE TFT_BLACK;
        FillRect (w ÷ 3) 0 (w ÷ 3) STATUS_BAR_HEIGHT TFT_BLACK;
        DrawString (time_str (tm_hour tt) (tm_min tt)) (SCREEN_WIDTH ÷ 2) (STATUS_BAR_HEIGHT ÷ 2);
        DrawFastHLine 0 (STATUS_BAR_HEIGHT - 1) SCREEN_WIDTH TFT_WHITE],
       s {{ prev_min := tm_min tt }})
    else ([], s) in
  (c1 ++ c2, s).

(** One iteration of [displayTask] with the status bar and the counter:
    [now = millis()], the screen's case (every case but [BOOT] draws the
    status bar; it reads only [fps] and the time [t], which the screen's
    code does not write), then the frame count. *)
Definition display_tick (self : nat) (cam_ok : bool) (now : Z) (s : status_state) :
    ST World (list draw_cmd * status_state) :=
  w ← st_get;
  let '(cmds, s) := if decide (display_state w = BOOT) then ([], s) else drawStatusBar (t w) s in
  displayTask_iter self cam_ok;;
  mret (cmds, fps_update now s).

(** ** The frame-rate counter *)

(** Unfold the updates of a [status_state]. *)
Ltac ssimpl := cbv [apply_update constant] in *; cbn [frames before fps prev_fps prev_min] in *.

Lemma elapsed_ms_wrap (before_ d : Z) :
  0 <= d < 2 ^ 32 -> elapsed_ms ((before_ + d) mod 2 ^ 32) before_ = d.
Proof.
  intros Hd. unfold elapsed_ms. rewrite Zminus_mod_idemp_l.
  replace (before_ + d - before_) with d by lia. by apply Z.mod_small.
Qed.

(** (C34) Across the wrap of [millis()]: when [d] milliseconds have truly
    passed since [before] (fewer than 2^32), [fps_update] at the wrapped
    time [now = (before + d) mod 2^32] counts the frame, and recomputes
    [fps] with the elapsed time [d] exactly when [d >= 1000]. *)
Theorem elapsed_across_wrap s d :
  0 <= d < 2 ^ 32 ->
  let now := (before s + d) mod 2 ^ 32 in
  fps_update now s =
    if 1000 <=? d then
      s {{ frames := 0; before := now; fps := (inject_Z (frames s + 1) / 1000 * inject_Z d)%Q }}
    else s {{ frames := frames s + 1 }}.
Proof.
  intros Hd. destruct s. cbv zeta. unfold fps_update. ssimpl. rewrite elapsed_ms_wrap by done.
  rewrite Z.geb_leb. by destruct (1000 <=? d).
Qed.

Lemma elapsed_across_wrap_witness :
  0 <= 1500 < 2 ^ 32 /\
  fps_update ((before (mkStatus 40 4294967000 0 0 (-1)) + 1500) mod 2 ^ 32) (mkStatus 40 4294967000 0 0 (-1)) =
    if 1000 <=? 1500 then
      (mkStatus 40 4294967000 0 0 (-1)) {{ frames := 0; before := (before (mkStatus 40 4294967000 0 0 (-1)) + 1500) mod 2 ^ 32;
        fps := (inject_Z (frames (mkStatus 40 4294967000 0 0 (-1)) + 1) / 1000 * inject_Z 1500)%Q }}
    else (mkStatus 40 4294967000 0 0 (-1)) {{ frames := frames (mkStatus 40 4294967000 0 0 (-1)) + 1 }}.
Proof. split; [lia|]. apply (elapsed_across_wrap (mkStatus 40 4294967000 0 0 (-1)) 1500). lia. Defined.

(** [a / 1000 * e] and [a * 1000 / e] as fractions of integers. *)
Lemma Qeq_cross (a e : Z) :
  0 < e -> (inject_Z a / 1000 * inject_Z e == inject_Z a * 1000 / inject_Z e)%Q <-> a * e * e = a * 1000 * 1000.
Proof.
  intros He. destruct e as [|p|p]; [lia| |lia].
  unfold Qeq, Qdiv, Qmult, Qinv, inject_Z. simpl. rewrite Pos2Z.inj_mul. nia.
Qed.

(** (C33) The frame rate is computed upside down: when at least a second
    has elapsed, [fps] becomes [n * e / 1000] for [n] frames counted over
    [e] milliseconds, and for [n > 0] it equals the rate [n * 1000 / e]
    only when [e] is exactly 1000: a tick that overruns the second makes
    the status bar overstate the rate (2 frames over 2 s show 4 FPS). *)
Theorem fps_formula_inverted now s :
  1000 <= elapsed_ms now (before s) ->
  let n := frames s + 1 in
  let e := elapsed_ms now (before s) in
  (fps (fps_update now s) == inject_Z (n * e) / 1000)%Q /\
  (0 < n -> (fps (fps_update now s) == inject_Z n * 1000 / inject_Z e)%Q <-> e = 1000).
Proof.
  intros He. destruct s as [fr bf pf f pm]. cbv zeta. unfold fps_update. ssimpl.
  replace (elapsed_ms now bf >=? 1000) with true by lia. cbn [fps].
  split.
  - rewrite inject_Z_mult. field.
  - intros Hn. rewrite Qeq_cross by lia. split; [intros; nia|intros ->; lia].
Qed.

Lemma fps_formula_inverted_witness :
  1000 <= elapsed_ms 2000 (before (mkStatus 1 0 0 0 (-1))) /\
  (fps (fps_update 2000 (mkStatus 1 0 0 0 (-1))) == inject_Z (2 * 2000) / 1000)%Q /\
  (0 < 2 -> (fps (fps_update 2000 (mkStatus 1 0 0 0 (-1))) == inject_Z 2 * 1000 / inject_Z 2000)%Q <-> 2000 = 1000).
Proof.
  assert (He : 1000 <= elapsed_ms 2000 (before (mkStatus 1 0 0 0 (-1)))) by (vm_compute; discriminate).
  split; [exact He|]. exact (fps_formula_inverted 2000 (mkStatus 1 0 0 0 (-1)) He).
Defined.

(** ** The status bar *)

(** [drawStatusBar] redraws only on a change: called again with the
    same [fps] and time, it issues no command and keeps its state. *)
Theorem drawStatusBar_idempotent tt s :
  let s' := (drawStatusBar tt s).2 in drawStatusBar tt s' = ([], s').
Proof.
  destruct s as [fr bf pf f pm]. unfold drawStatusBar. cbv zeta. cbn [prev_fps fps prev_min].
  repeat (case_decide; cbv [apply_update constant]; simpl); try done; exfalso; tauto.
Qed.

Lemma pad2_length n : 0 <= n < 100 -> String.length (pad2 n) = 2%nat.
Proof.
  intros Hn.
  assert (Hall : forallb (fun k => Nat.eqb (String.length (pad2 k)) 2) (seqZ 0 100) = true) by (vm_compute; reflexivity).
  rewrite forallb_forall in Hall. apply Nat.eqb_eq, Hall.
  apply list_elem_of_In, elem_of_seqZ. lia.
Qed.

(** The clock text [sprintf("%02d:%02d", hour, min)] has exactly
    five characters for an hour and a minute below 100 (as [getLocalTime]
    gives), so with its terminator it fits [char time_str[6]]. *)
Theorem time_str_fits hour min :
  0 <= hour < 100 -> 0 <= min < 100 -> String.length (time_str hour min) = 5%nat.
Proof.
  intros Hh Hm. unfold time_str. rewrite !string_length_app, !pad2_length by done. reflexivity.
Qed.

Lemma time_str_fits_witness :
  0 <= 9 < 100 /\ 0 <= 5 < 100 /\ String.length (time_str 9 5) = 5%nat.
Proof. split; [lia|]. split; [lia|]. apply time_str_fits; lia. Defined.

(** The status bar and the counter change nothing of the world: a
    [display_tick] moves the world as [displayTask_iter] does. *)
Lemma display_tick_world self cam_ok now s w :
  exec (display_tick self cam_ok now s) w = exec (displayTask_iter self cam_ok) w.
Proof.
  unfold display_tick. rewrite exec_bind. cbv [st_get]. cbn [fst snd].
  destruct (if decide (display_state w = BOOT) then _ else _). by rewrite exec_bind, exec_ret.
Qed.
