(* ===== verification/Typing.v ===== *)
(** * The queue typing invariant

    [initQueues] creates each FreeRTOS queue with a fixed length
    ([xQueueCreate(N, size)]): a queue handle is typed by that length, and
    the kernel never holds more items than it.  The model's queues carry
    their capacity and their items; [queues_typed] states that each of the
    six queues of the world has the capacity [initQueues] gives it and at
    most that many items, and [items_fit] that every item fits the item
    size [initQueues] passes to [xQueueCreate] (the file names and the
    [WiFiInfo] records, whose size the code bounds by [strncpy],
    [toCharArray] and [min(n, MAX_WIFI)]).

    [qsafe m]: the statement [m] keeps the typing, from any state.  The
    lemmas [qsafe_bind] and [qsafe_get] compose it along the code's
    sequencing; [qtac] discharges the straight-line statements by
    unfolding them on a world whose queues are explicit.  The result,
    [reachable_queues_typed], holds in every state the scheduler reaches
    (rule induction on [star step], as for [sys_inv]). *)

From S2P Require Import Prelude Queue Platform Globals Button Navigation Camera FileBrowser Telemetry Display Game System.

Definition q_typed {A} (n : nat) (q : queue A) : Prop := q_cap q = n /\ (length (q_items q) <= n)%nat.

(** A C string fits [char buf[size]]: its characters and the NUL. *)
Definition cstr_fits (size : nat) (s : string) : Prop := (String.length s < size)%nat.

(** A [WiFiInfo] as [struct WiFiInfo] lays it out: [char ssid[32]],
    [char ip[20]], [char mac[20]], [char nearby[MAX_WIFI][33]] and a count
    of the [nearby] entries in use. *)
Definition wifi_info_fits (info : WiFiInfo) : Prop :=
  cstr_fits 32 (ssid info) /\ cstr_fits 20 (ip info) /\ cstr_fits 20 (mac info) /\
  length (nearby info) = Z.to_nat MAX_WIFI /\ Forall (cstr_fits 33) (nearby info) /\
  0 <= nearbyCount info <= MAX_WIFI.

(** The item size of [xQueueCreate] is respected: a file name sent to
    [file_delete_queue] (items of [MAX_FILENAME_LENGTH] bytes) fits them,
    and every [WiFiInfo] in [wifi_queue] fits its struct. *)
Definition items_fit (w : World) : Prop :=
  Forall (cstr_fits (Z.to_nat MAX_FILENAME_LENGTH)) (q_items (file_delete_queue w)) /\
  Forall wifi_info_fits (q_items (wifi_queue w)).

Definition queues_typed (w : World) : Prop :=
  q_typed BUTTON_QUEUE_SIZE (button_queue w) /\
  q_typed FRAME_DISPLAY_QUEUE_SIZE (frame_display_queue w) /\
  q_typed FRAME_SAVE_QUEUE_SIZE (frame_save_queue w) /\
  q_typed SYS_INFO_QUEUE_SIZE (sys_info_queue w) /\
  q_typed FILE_DELETE_QUEUE_SIZE (file_delete_queue w) /\
  q_typed WIFI_QUEUE_SIZE (wifi_queue w) /\
  items_fit w.

Definition qsafe {A} (m : ST World A) : Prop :=
  forall w, queues_typed w -> queues_typed (exec m w).

(** ** Composition *)

Lemma qsafe_bind {A B} (m : ST World A) (k : A -> ST World B) :
  qsafe m -> (forall a, qsafe (k a)) -> qsafe (m ≫= k).
Proof. intros Hm Hk w Hw. rewrite exec_bind. by apply Hk, Hm. Qed.

Lemma qsafe_get {A} (k : World -> ST World A) :
  (forall w, queues_typed w -> queues_typed (exec (k w) w)) -> qsafe (st_get ≫= k).
Proof. intros Hk w Hw. by apply Hk. Qed.

Lemma qsafe_ret {A} (x : A) : qsafe (mret x).
Proof. by intros w Hw. Qed.

Lemma qsafe_skip : qsafe (@skip World).
Proof. apply qsafe_ret. Qed.

Lemma qsafe_if {A} (b : bool) (m1 m2 : ST World A) : qsafe m1 -> qsafe m2 -> qsafe (if b then m1 else m2).
Proof. by destruct b. Qed.

#[export] Hint Resolve qsafe_bind qsafe_ret qsafe_skip qsafe_if : miniberry.

(** Straight-line code: unfold on a world with explicit queues and check
    the lengths. *)
Ltac qtac_open :=
  unfold queues_typed, items_fit, q_typed, xQueueSend, xQueueReceive, xQueueOverwrite,
    BUTTON_QUEUE_SIZE, FRAME_DISPLAY_QUEUE_SIZE, FRAME_SAVE_QUEUE_SIZE, SYS_INFO_QUEUE_SIZE,
    FILE_DELETE_QUEUE_SIZE, WIFI_QUEUE_SIZE in *; wsimpl;
  repeat (first [ case_decide
                | match goal with |- context [if ?b then _ else _] => is_var b; destruct b end
                | case_match ]; wsimpl; subst);
  simplify_eq/=; rewrite ?length_app in *; simpl in *;
  intros; repeat match goal with
                 | H : _ /\ _ |- _ => destruct H
                 | H : Forall _ (_ :: _) |- _ => apply Forall_cons in H as [? ?]
                 end.

Ltac qtac_goal := qtac_open; intuition lia.

Ltac qtac_intro :=
  let w := fresh "w" in let Hw := fresh "Hw" in
  intros w Hw; revert Hw;
  destruct w as [? ? ? ? ? ? ? ? ? ? ? ? ? ? ? ? ? ? [? ?] [? ?] [? ?] [? ?] [? ?] [? ?]
                 ? ? ? ? ? ? ? ? ? ?].

Ltac qtac := qtac_intro; qtac_goal.

(** The six queues of a world. *)
Definition qv (w : World) :=
  (button_queue w, frame_display_queue w, frame_save_queue w, sys_info_queue w,
   file_delete_queue w, wifi_queue w).

Lemma queues_typed_qv w w' : qv w' = qv w -> queues_typed w -> queues_typed w'.
Proof. unfold qv, queues_typed, items_fit. intros Hq. by injection Hq as -> -> -> -> -> ->. Qed.

(** A statement that leaves the queues alone keeps their typing. *)
Lemma qsafe_qv {A} (m : ST World A) : (forall w, qv (exec m w) = qv w) -> qsafe m.
Proof. intros Hm w. apply queues_typed_qv, Hm. Qed.

Lemma loadFileNames_qv w : qv (exec loadFileNames w) = qv w.
Proof. rewrite loadFileNames_spec. by destruct w. Qed.

(** ** The tasks other than the display *)

Lemma buttonTask_iter_qsafe r : qsafe (buttonTask_iter r).
Proof. unfold buttonTask_iter, log_fault. qtac. Qed.

Lemma systemDataTask_iter_qsafe a b c d e : qsafe (systemDataTask_iter a b c d e).
Proof. unfold systemDataTask_iter, xQueueOverwrite. qtac. Qed.

Lemma toCharArray_fits s n : (0 < n)%nat -> cstr_fits n (toCharArray s n).
Proof. intros. unfold cstr_fits, toCharArray. rewrite substring_0_length. lia. Qed.

(** The record [wifiDataTask] builds fits [struct WiFiInfo]: each
    [toCharArray] is bounded by its array, and [min(n, MAX_WIFI)] bounds
    the count. *)
Lemma wifi_info_fits_mk ssid_ ip_ rssi_ mac_ sc count : 0 <= count <= MAX_WIFI ->
  wifi_info_fits (mkWiFiInfo (toCharArray ssid_ 32) (toCharArray ip_ 20) rssi_ (toCharArray mac_ 20)
                             (nearby_array sc count) count).
Proof.
  intros Hc. unfold wifi_info_fits; cbn [ssid ip mac nearby nearbyCount].
  split_and!; try (apply toCharArray_fits; lia); [| |lia..].
  - unfold nearby_array. by rewrite length_fmap, length_seq.
  - unfold nearby_array. apply Forall_fmap, Forall_forall. intros j _. simpl.
    case_decide; [unfold nearby_line; apply toCharArray_fits; lia|unfold cstr_fits; simpl; lia].
Qed.

Lemma wifiDataTask_iter_qsafe s i r m sc : qsafe (wifiDataTask_iter s i r m sc).
Proof.
  unfold wifiDataTask_iter, xQueueOverwrite. qtac_intro. qtac_open;
    intuition (try lia); apply Forall_singleton, wifi_info_fits_mk; unfold MAX_WIFI; lia.
Qed.

Lemma ntpTimeTask_iter_qsafe now : qsafe (ntpTimeTask_iter now).
Proof. unfold ntpTimeTask_iter, skip. qtac. Qed.

Lemma frameCaptureTask_iter_qsafe : qsafe frameCaptureTask_iter.
Proof. unfold frameCaptureTask_iter, send_display, send_save, skip. qtac. Qed.

Lemma saveFrameToSDTask_iter_qsafe : qsafe saveFrameToSDTask_iter.
Proof. unfold saveFrameToSDTask_iter, fb_use, fb_return, log_fault, skip. qtac. Qed.

Lemma deleteFromSDTask_iter_qsafe : qsafe deleteFromSDTask_iter.
Proof.
  intros w Hw. destruct (file_delete_queue w) as [c [|n r]] eqn:Hq.
  - revert Hw. destruct w. simpl in Hq. subst. unfold deleteFromSDTask_iter. qtac_goal.
  - rewrite (deleteFromSDTask_iter_some w c n r Hq). cbv zeta.
    assert (Hw1 : queues_typed (w {{ file_delete_queue := mkQueue c r; sd := (sd_remove n (sd w)).2 }})).
    { revert Hw. destruct w. simpl in Hq. subst. unfold queues_typed, items_fit, q_typed. wsimpl. rewrite Forall_cons. intuition lia. }
    destruct (sd_remove n (sd w)).1; [|done].
    exact (queues_typed_qv _ _ (loadFileNames_qv _) Hw1).
Qed.

(** ** The display task's statements *)

Lemma drawMenu_qsafe : qsafe drawMenu.
Proof. unfold drawMenu. qtac. Qed.

Lemma updateMenuHighlight_qsafe : qsafe updateMenuHighlight.
Proof. unfold updateMenuHighlight, skip. qtac. Qed.

Lemma init_once_qsafe (m : ST World unit) : qsafe m -> qsafe (init_once m).
Proof.
  intros Hm. unfold init_once. apply qsafe_get. intros w Hw.
  destruct (menu_init w); [done|]. revert w Hw. apply qsafe_bind; [done|]. intros _. qtac.
Qed.

Lemma handleButtonMenu_qsafe menu n : qsafe (handleButtonMenu menu n).
Proof. unfold handleButtonMenu, receive_button, vec_at, log_fault, skip. qtac. Qed.

Lemma handleButtonSimple_qsafe : qsafe handleButtonSimple.
Proof. unfold handleButtonSimple, receive_button, skip. qtac. Qed.

Lemma handleButtonGame_qsafe : qsafe handleButtonGame.
Proof. unfold handleButtonGame, receive_button, skip. qtac. Qed.

Lemma camera_setup_qsafe ok : qsafe (camera_setup ok).
Proof. unfold camera_setup. qtac. Qed.

Lemma drawCameraFeed_qsafe : qsafe drawCameraFeed.
Proof. unfold drawCameraFeed, fb_use, fb_return, log_fault, skip. qtac. Qed.

Lemma drain_result_length D Sv :
  (length (drain_result D Sv).1 <= length D)%nat /\ (length (drain_result D Sv).2 <= length Sv)%nat.
Proof. unfold drain_result. case_decide; simpl; rewrite ?length_drop; lia. Qed.

Lemma handleButtonCamera_qsafe self : qsafe (handleButtonCamera self).
Proof.
  intros w Hw. destruct (button_queue w) as [c [|b rest]] eqn:Hq.
  - revert Hw. destruct w. simpl in Hq. subst. unfold handleButtonCamera, receive_button, skip. qtac_goal.
  - destruct (decide (b = BACK)) as [->|Hb].
    + rewrite (handleButtonCamera_back self w c rest Hq).
      pose proof (drain_result_length (q_items (frame_display_queue w)) (q_items (frame_save_queue w))).
      revert Hw. destruct w. simpl in *. subst. qtac_goal.
    + revert Hw. destruct w. simpl in Hq. subst. unfold handleButtonCamera, receive_button, skip.
      destruct b; try congruence; qtac_goal.
Qed.

Lemma sd_setup_qsafe : qsafe sd_setup.
Proof. apply qsafe_qv. intros w. rewrite sd_setup_exec. by destruct w. Qed.

Lemma drawImageViewer_qsafe : qsafe drawImageViewer.
Proof. unfold drawImageViewer, vec_at, log_fault, skip. qtac. Qed.

Lemma drawFiles_qsafe : qsafe drawFiles.
Proof.
  apply qsafe_qv. intros w. destruct (decide (file_index w = prev_file_index w)) as [Heq|Hne].
  - unfold drawFiles, exec. wsimpl. by rewrite decide_False by tauto.
  - rewrite drawFiles_exec by done. by destruct w.
Qed.

(** [strncpy] to [MAX_FILENAME_LENGTH - 1] characters leaves room for the
    NUL of a queue item. *)
Lemma strncpy_name_fits s : cstr_fits (Z.to_nat MAX_FILENAME_LENGTH) (strncpy_name s).
Proof. unfold cstr_fits. rewrite strncpy_name_length. change (Z.to_nat MAX_FILENAME_LENGTH) with 32%nat. lia. Qed.

Lemma handleButtonFiles_qsafe self : qsafe (handleButtonFiles self).
Proof.
  unfold handleButtonFiles, clamp_file_index, receive_button, vec_at, log_fault, skip.
  qtac_intro. qtac_open; intuition (try lia);
    (rewrite Forall_app; split; [done|apply Forall_singleton, strncpy_name_fits]).
Qed.

Lemma gen_xy_qv i n q x_c y_c w : qv (snd (gen_xy i n q x_c y_c w)) = qv w.
Proof.
  revert i q x_c y_c w. induction n as [|n IH]; intros i q x_c y_c w; [done|].
  destruct q as [|y [|z q]]; simpl; [by destruct w|done|apply IH].
Qed.

Lemma q_typed_receive {A} n (q q' : queue A) o :
  q_typed n q -> xQueueReceive q = (o, q') -> q_typed n q'.
Proof.
  destruct q as [c [|x r]]; unfold xQueueReceive, q_typed; simpl; intros [Hc Hl] H; simplify_eq/=; simpl; lia.
Qed.

Lemma generateXYArrays_qsafe : qsafe generateXYArrays.
Proof.
  unfold generateXYArrays. apply qsafe_get. intros w Hw. cbv zeta.
  apply (queues_typed_qv w); [apply gen_xy_qv|done].
Qed.

Lemma drawSystemData_qsafe : qsafe drawSystemData.
Proof.
  unfold drawSystemData. apply qsafe_get. intros w Hw.
  assert (Hq : forall o q, xQueueReceive (sys_info_queue w) = (o, q) ->
            queues_typed (w {{ sys_info_queue := q }})).
  { intros o q Hr. destruct Hw as (H1 & H2 & H3 & H4 & H5 & H6).
    pose proof (q_typed_receive _ _ _ _ H4 Hr). destruct w. unfold queues_typed. wsimpl. tauto. }
  destruct (xQueueReceive (sys_info_queue w)) as [[info|] q] eqn:Hr; rewrite exec_bind;
    specialize (Hq _ _ eq_refl);
    change (exec (st_put (w {{ sys_info_queue := q }})) w) with (w {{ sys_info_queue := q }}); [|done].
  refine (qsafe_bind _ _ generateXYArrays_qsafe _ _ Hq). intros [x y]. apply qsafe_get. done.
Qed.

Lemma drawWifi_qsafe : qsafe drawWifi.
Proof. unfold drawWifi. qtac. Qed.

(** ** One tick of the display task *)

Lemma qsafe_get_all {A} (k : World -> ST World A) : (forall w, qsafe (k w)) -> qsafe (st_get ≫= k).
Proof. intros Hk. apply qsafe_get. intros w. apply Hk. Qed.

#[export] Hint Resolve qsafe_get_all init_once_qsafe drawMenu_qsafe updateMenuHighlight_qsafe
  handleButtonMenu_qsafe handleButtonSimple_qsafe handleButtonGame_qsafe camera_setup_qsafe
  drawCameraFeed_qsafe handleButtonCamera_qsafe sd_setup_qsafe drawImageViewer_qsafe drawFiles_qsafe
  handleButtonFiles_qsafe drawSystemData_qsafe drawWifi_qsafe : miniberry.

Lemma displayTask_iter_qsafe self ok : qsafe (displayTask_iter self ok).
Proof.
  unfold displayTask_iter. apply qsafe_get. intros w Hw.
  destruct (display_state w); [qtac_goal| ..];
    revert w Hw; unfold menu_screen, camera_screen, sd_card_screen, system_data_screen,
      wifi_screen, game_screen;
    match goal with |- forall w, queues_typed w -> queues_typed (exec ?m w) => change (qsafe m) end;
    eauto 10 with miniberry.
Qed.

Lemma game1_screen_qsafe g : qsafe (game1_screen g).
Proof.
  intros w Hw. rewrite game1_screen_world. revert w Hw. change (qsafe game_screen).
  unfold game_screen. eauto 10 with miniberry.
Qed.

Lemma run_event_qsafe e : qsafe (run_event e).
Proof.
  destruct e; simpl; auto using displayTask_iter_qsafe, buttonTask_iter_qsafe, systemDataTask_iter_qsafe,
    wifiDataTask_iter_qsafe, ntpTimeTask_iter_qsafe, frameCaptureTask_iter_qsafe,
    saveFrameToSDTask_iter_qsafe, deleteFromSDTask_iter_qsafe.
Qed.

(** ** Every reachable state is typed *)

Lemma boot_queues_typed s : queues_typed (boot_world s).
Proof. rewrite boot_world_eq. unfold globals_init, queues_typed, items_fit, q_typed. wsimpl. repeat split; lia || constructor. Qed.

(** (C12) Queue typing: in every state the scheduler reaches from a
    successful boot, each of the six FreeRTOS queues keeps the length
    [initQueues] created it with (3 button events, one frame for display,
    one for saving, one system-data and one WiFi record, five file names)
    and never holds more items than that length; and every item fits the
    item size [initQueues] gives the queue: each file name sent for
    deletion fits [MAX_FILENAME_LENGTH] bytes with its NUL (the
    [strncpy] of [handleButtonFiles]), and each [WiFiInfo] has its strings
    within their [char] arrays, [MAX_WIFI] [nearby] entries of at most 32
    characters and a [nearbyCount] between 0 and [MAX_WIFI] (the
    [toCharArray] calls and [min(n, MAX_WIFI)] of [wifiDataTask]). *)
Theorem reachable_queues_typed s w : reachable s w -> queues_typed w.
Proof.
  intros Hr. eapply star_invariant; [|apply boot_queues_typed|exact Hr].
  intros x y Hx Hs. inversion Hs; subst. by apply run_event_qsafe.
Qed.

Lemma reachable_queues_typed_witness :
  reachable empty_card (trace_end camera_save_trace) /\
  q_typed FRAME_DISPLAY_QUEUE_SIZE (frame_display_queue (trace_end camera_save_trace)) /\
  items_fit (trace_end camera_save_trace).
Proof.
  split; [exact camera_save_reachable|].
  destruct (reachable_queues_typed _ _ camera_save_reachable) as (_ & Hd & _ & _ & _ & _ & Hi).
  split; [exact Hd|exact Hi].
Defined.
